(** * Diamond bot: the conversation session state machine

    A shallow embedding of [services/whatsapp_client.py] (the handlers of the
    webhook, the session store and the listing flow), of
    [services/intent_detector.py] (the keyword classifier) and of the
    validation step of [services/gia_extractor.py].

    Python dictionaries are finite maps, the handlers are computations in a
    state-and-exception monad over the tables of the record store and a
    chronological trace of the calls that leave the process, and every
    external collaborator (chat channel, media storage, classifier, vision
    model, image generator) answers through an [environment] record. *)

From Stdlib Require Import String Ascii List ZArith Bool DecimalString.
From stdpp Require Import base option list gmap strings.

Local Open Scope string_scope.
Local Open Scope list_scope.
Local Open Scope nat_scope.

(** ** Python values *)

(** JSON values as the handlers see them.  A number is a decimal literal
    [mantissa * 10 ^ exponent]; only its being zero is ever observed. *)
Inductive jval : Type :=
| JNull
| JBool (b : bool)
| JNum (mantissa exponent : Z)
| JStr (s : string)
| JList (l : list string).

(** A dictionary with string keys: a row of a table, an extraction
    result, the session context. *)
Abbreviation dict := (gmap string jval).

(** Python truthiness ([if v:], [not v], [a or b]). *)
Definition truthy (v : jval) : bool :=
  match v with
  | JNull => false
  | JBool b => b
  | JNum m _ => negb (m =? 0)%Z
  | JStr s => negb (String.eqb s "")
  | JList l => match l with [] => false | _ :: _ => true end
  end.

(** [d.get(k)]: a missing key reads as [None]. *)
Definition py_get (d : dict) (k : string) : jval := default JNull (d !! k).

(** [d.get(k, dflt)]: the default only replaces a missing key. *)
Definition py_get_or (d : dict) (k : string) (dflt : jval) : jval :=
  default dflt (d !! k).

(** [a or b]. *)
Definition py_or (a b : jval) : jval := if truthy a then a else b.

(** Truthiness of an optional id ([None] and the empty string are false). *)
Definition truthy_id (o : option string) : bool :=
  match o with
  | None => false
  | Some s => negb (String.eqb s "")
  end.

Definition jopt (o : option string) : jval :=
  match o with None => JNull | Some s => JStr s end.

(** ** Strings *)

(** [str.lower()] on a text held as the bytes of its UTF-8 encoding.  An
    ASCII capital becomes its small letter.  Of the other characters only
    the two whose lowercase form has an ASCII letter are rewritten: the
    Kelvin sign U+212A (bytes 226 132 170) becomes k, and the capital I
    with dot above U+0130 (bytes 196 176) becomes i followed by U+0307
    (bytes 204 135).  The bytes of every other character are left as they
    are: its lowercase form has no ASCII letter either, and the handlers
    only compare lowered text with ASCII words. *)
Definition lower_ascii (c : ascii) : ascii :=
  let n := nat_of_ascii c in
  if ((65 <=? n) && (n <=? 90))%nat then ascii_of_nat (n + 32) else c.

Definition is_byte (c : ascii) (n : nat) : bool :=
  Ascii.eqb c (ascii_of_nat n).

Fixpoint lower (s : string) : string :=
  match s with
  | EmptyString => EmptyString
  | String c r =>
      match r with
      | String c1 r1 =>
          if is_byte c 196 && is_byte c1 176 then
            String (ascii_of_nat 105)
              (String (ascii_of_nat 204) (String (ascii_of_nat 135) (lower r1)))
          else
            match r1 with
            | String c2 r2 =>
                if is_byte c 226 && is_byte c1 132 && is_byte c2 170
                then String (ascii_of_nat 107) (lower r2)
                else String (lower_ascii c) (lower r)
            | EmptyString => String (lower_ascii c) (lower r)
            end
      | EmptyString => String (lower_ascii c) (lower r)
      end
  end.

Fixpoint starts_with (kw s : string) : bool :=
  match kw, s with
  | EmptyString, _ => true
  | String a kw', String b s' => Ascii.eqb a b && starts_with kw' s'
  | String _ _, EmptyString => false
  end.

(** [kw in s]. *)
Fixpoint contains (kw s : string) : bool :=
  starts_with kw s ||
  match s with
  | EmptyString => false
  | String _ s' => contains kw s'
  end.

(** [any(kw in s for kw in kws)]. *)
Definition any_in (kws : list string) (s : string) : bool :=
  existsb (fun kw => contains kw s) kws.

(** [str(n)] for a length. *)
Definition str_of_nat (n : nat) : string :=
  NilZero.string_of_uint (Nat.to_uint n).

(** ** Sessions and the record store *)

(** The dictionary returned by [get_user_session].  The session columns
    of a row are written by this code only ([get_or_create_user] and
    [update_user_session]): the step is a string, the context a dictionary
    and an id a string or [None]. *)
Record session : Type := mkSession {
  step : string;
  context : dict;
  last_diamond_id : option string;
  last_design_id : option string
}.

(** The session a missing row (or a failed read) is replaced by. *)
Definition default_session : session :=
  mkSession "idle" ∅ None None.

(** The [updates] dictionary handed to [update_user_session]: a field is
    [Some v] when its key is present. *)
Record updates : Type := mkUpdates {
  u_step : option string;
  u_context : option dict;
  u_last_diamond_id : option string;
  u_last_design_id : option string
}.

(** [key in updates]. *)
Definition present {A : Type} (o : option A) : bool :=
  match o with Some _ => true | None => false end.

Definition no_updates : updates := mkUpdates None None None None.

(** What leaves the process towards the chat channel. *)
Inductive outmsg : Type :=
| Text (body : string)
| Buttons (body : string) (ids : list string)
| Image (url caption : string)
| MainMenu (body : string).

(** The tables the handlers insert into. *)
Inductive table : Type := Diamonds | Designs | Listings.

(** Calls observable from outside, in the order they happen. *)
Inductive effect : Type :=
| Sent (to : string) (m : outmsg) (delivered : bool)
| Saved (user_id direction message_type : string) (content : string)
| Classified (text : string)
| SessionWrite (user_id : string) (u : updates)
| InsertCall (t : table) (record : dict).

Record world : Type := mkWorld {
  users : gmap string session;
  diamonds : list dict;
  designs : list dict;
  listings : list dict;
  trace : list effect
}.

Definition log (e : effect) (w : world) : world :=
  mkWorld (users w) (diamonds w) (designs w) (listings w) (trace w ++ [e]).

Definition with_users (f : gmap string session → gmap string session)
    (w : world) : world :=
  mkWorld (f (users w)) (diamonds w) (designs w) (listings w) (trace w).

Definition add_diamond (r : dict) (w : world) : world :=
  mkWorld (users w) (diamonds w ++ [r]) (designs w) (listings w) (trace w).

Definition add_design (r : dict) (w : world) : world :=
  mkWorld (users w) (diamonds w) (designs w ++ [r]) (listings w) (trace w).

Definition add_listing (r : dict) (w : world) : world :=
  mkWorld (users w) (diamonds w) (designs w) (listings w ++ [r]) (trace w).

Definition add_row (t : table) (r : dict) (w : world) : world :=
  match t with
  | Diamonds => add_diamond r w
  | Designs => add_design r w
  | Listings => add_listing r w
  end.

(** The messages the channel was asked to deliver. *)
Definition outbox (w : world) : list outmsg :=
  omap (fun e => match e with Sent _ m _ => Some m | _ => None end) (trace w).

(** The rows of the [messages] table: user, direction, type, content. *)
Definition audit_log (w : world) : list (string * string * string * string) :=
  omap (fun e => match e with
                 | Saved u d t c => Some (u, d, t, c)
                 | _ => None
                 end) (trace w).

(** ** Computations *)

(** A result or a raised exception; the state reached so far is kept in
    both cases. *)
Inductive res (A : Type) : Type :=
| Ok (a : A)
| Exn.
Arguments Ok {A} a.
Arguments Exn {A}.

Definition M (A : Type) : Type := world → res A * world.

#[global] Instance M_ret : MRet M := fun A a w => (Ok a, w).

#[global] Instance M_bind : MBind M := fun A B f m w =>
  match m w with
  | (Ok a, w') => f a w'
  | (Exn, w') => (Exn, w')
  end.

Definition raise {A : Type} : M A := fun w => (Exn, w).

(** [try: body / except Exception: handler]. *)
Definition try_except {A : Type} (body handler : M A) : M A := fun w =>
  match body w with
  | (Ok a, w') => (Ok a, w')
  | (Exn, w') => handler w'
  end.

Definition effect_ (f : world → world) : M unit := fun w => (Ok tt, f w).

Definition skip : M unit := mret tt.

(** The world a computation leaves behind. *)
Definition exec {A : Type} (m : M A) (w : world) : world := snd (m w).

(** ** Collaborators *)

Inductive insert_outcome : Type :=
| InsertRaises
| InsertNoData
| InsertRow (id : string).

Inductive gen_outcome : Type :=
| Generated (image_url prompt : string)
| GenFailed (error : string).

(** The answers of everything outside the process during one delivery of
    the webhook. *)
Record environment : Type := mkEnv {
  (** [get_or_create_user]: the id of the row for the sender, [None] when
      the lookup and the creation both fail *)
  user : option string;
  (** the [users] table answers reads and writes of the session columns *)
  store_up : bool;
  (** the [messages] table accepts inserts *)
  audit_up : bool;
  (** the chat channel accepted the message *)
  delivered : outmsg → bool;
  (** [requests.post] of [send_raw_message] raises *)
  raw_send_raises : bool;
  (** [intent_result.get("intent")] of the classifier *)
  classify : string → session → option string;
  (** [download_whatsapp_media] returned content *)
  media : bool;
  (** [upload_to_supabase]: upload id and file url *)
  upload : option (string * string);
  (** [_convert_pdf_to_image]: the url of the page image, or the text of
      the exception *)
  pdf_image : string + string;
  (** [_call_vision_api] or [_placeholder_extraction]: the parsed answer,
      or the text of the exception *)
  vision : dict + string;
  (** outcome of the [insert(...).execute()] of the handler *)
  insert : insert_outcome;
  (** a [select(...).eq("id", ...).execute()] raises *)
  fetch_raises : bool;
  (** the image generator *)
  generator : gen_outcome;
  (** [generate_360_view]: captions' angles and urls, or the error *)
  views : list (string * string) + string;
  (** [search_handler.search]: listings or the error *)
  search : list dict + string;
  (** [voice_transcriber.transcribe]: text and [confidence > 0.7] *)
  transcription : option (string * bool);
  (** [datetime.utcnow().isoformat()] *)
  now : string;
  (** [str(v)] inside an f-string *)
  fmt : jval → string
}.

Definition nl : string := String (ascii_of_nat 10) EmptyString.
Definition dquote : string := String (ascii_of_nat 34) EmptyString.

(** Row of a table with the given id, as [select("*").eq("id", id)]. *)
Definition has_id (id : string) (r : dict) : bool :=
  match r !! "id" with
  | Some (JStr s) => String.eqb s id
  | _ => false
  end.

Definition find_by_id (id : string) (table : list dict) : option dict :=
  List.find (has_id id) table.

(** ** Intent detection ([services/intent_detector.py]) *)

(** [session.get(k)] is truthy, for the dictionary [get_user_session]
    builds: it has the four keys below and no other. *)
Definition session_truthy (s : session) (k : string) : bool :=
  if String.eqb k "step" then negb (String.eqb (step s) "")
  else if String.eqb k "context" then negb (size (context s) =? 0)%nat
  else if String.eqb k "last_diamond_id" then truthy_id (last_diamond_id s)
  else if String.eqb k "last_design_id" then truthy_id (last_design_id s)
  else false.

Definition search_keywords : list string :=
  ["show me"; "find"; "search"; "looking for"; "want"; "need";
   "carat"; "oval"; "round"; "emerald"; "price"].

(** [_placeholder_detection]: the ["intent"] of the returned dictionary. *)
Definition placeholder_detection (text : string) (s : session) : string :=
  let text_lower := lower text in
  if any_in ["try again"; "variation"; "another"; "different style"]
            text_lower
  then "design_variation"
  else if any_in ["change"; "make it"; "add"; "remove"; "modify"; "edit";
                  "thicker"; "thinner"; "gold"; "silver"; "platinum"]
                 text_lower
          && session_truthy s "last_design_prompt"
  then "design_edit"
  else if any_in search_keywords text_lower
  then "search"
  else if any_in ["design"; "create"; "make"; "custom"] text_lower
  then (if session_truthy s "last_gia"
        then "design_with_gia"
        else "design_free_input")
  else if any_in ["price"; "sell"; "list"; "cost"; "contact"] text_lower
  then "listing_intent"
  else if any_in ["hi"; "hello"; "hey"; "thanks"; "thank you"; "bye";
                  "goodbye"] text_lower
  then "greeting"
  else "general_inquiry".

(** [detect] without an API key. *)
Definition placeholder_classifier (text : string) (s : session)
    : option string :=
  Some (placeholder_detection text s).

(** [a == b] for an optional string and a literal. *)
Definition is_str (o : option string) (lit : string) : bool :=
  match o with
  | Some s => String.eqb s lit
  | None => false
  end.

(** [s.replace(p, "")] for a non-empty [p]: [k] characters of a match are
    still to be dropped. *)
Fixpoint remove_all_from (p : string) (k : nat) (s : string) : string :=
  match s with
  | EmptyString => EmptyString
  | String c s' =>
      match k with
      | S k' => remove_all_from p k' s'
      | O => if starts_with p s
             then remove_all_from p (String.length p - 1) s'
             else String c (remove_all_from p 0 s')
      end
  end.

Definition remove_all (p s : string) : string := remove_all_from p 0 s.

Section Handlers.

Variable env : environment.

(** *** Database helper functions *)

(** The row is looked up by number and created with an idle session when
    it is missing; the record store names it by its id.  Of the row only
    the session columns are kept here: the refresh of [last_interaction]
    writes none of them. *)
Definition get_or_create_user (whatsapp_number : string) : M (option string) :=
  match user env with
  | None => mret None
  | Some uid =>
      effect_ (with_users (fun us =>
        match us !! uid with
        | Some _ => us
        | None => <[uid := default_session]> us
        end));;
      mret (Some uid)
  end.

(** The dictionary [get_user_session] returns: the session columns of the
    row, and the idle session when there is no row or the read fails. *)
Definition loaded_session (user_id : string) (w : world) : session :=
  if store_up env
  then default default_session (users w !! user_id)
  else default_session.

Definition get_user_session (user_id : string) : M session := fun w =>
  (Ok (loaded_session user_id w), w).

(** The [db_updates] dictionary of [update_user_session]. *)
Record db_updates : Type := mkDbUpdates {
  session_step : option string;
  session_context : option dict;
  db_last_diamond_id : option string;
  db_last_design_id : option string
}.

Definition db_updates_of (u : updates) : db_updates :=
  mkDbUpdates (u_step u) (u_context u)
              (u_last_diamond_id u) (u_last_design_id u).

(** [if db_updates:]. *)
Definition db_updates_nonempty (d : db_updates) : bool :=
  present (session_step d) || present (session_context d) ||
  present (db_last_diamond_id d) || present (db_last_design_id d).

(** [table("users").update(db_updates)] on one row. *)
Definition apply_db_updates (d : db_updates) (s : session) : session :=
  mkSession
    (default (step s) (session_step d))
    (default (context s) (session_context d))
    (match db_last_diamond_id d with
     | Some i => Some i
     | None => last_diamond_id s
     end)
    (match db_last_design_id d with
     | Some i => Some i
     | None => last_design_id s
     end).

Definition update_user_session (user_id : string) (u : updates) : M unit :=
  if store_up env then
    let d := db_updates_of u in
    if db_updates_nonempty d then
      effect_ (fun w =>
        log (SessionWrite user_id u)
            (with_users (alter (apply_db_updates d) user_id) w))
    else skip
  else skip.

Definition save_message_to_db (user_id direction message_type content : string)
    : M unit :=
  if audit_up env
  then effect_ (log (Saved user_id direction message_type content))
  else skip.

(** *** Message sending functions *)

Definition send (to : string) (m : outmsg) : M bool := fun w =>
  (Ok (delivered env m), log (Sent to m (delivered env m)) w).

Definition send_message (to text : string) : M bool := send to (Text text).

(** Only the first three buttons are sent; a button is its id. *)
Definition send_interactive_buttons (to body_text : string)
    (buttons : list string) : M bool :=
  send to (Buttons body_text (take 3 buttons)).

Definition send_image (to image_url caption : string) : M bool :=
  send to (Image image_url caption).

Definition send_raw_message (to : string) (m : outmsg) : M unit :=
  if raw_send_raises env then raise else send to m;; skip.


(** *** Certificate extraction ([services/gia_extractor.py]) *)

Record gia_result : Type := mkGia {
  success : bool;
  data : option dict;
  error : option string
}.

Definition extract_from_image (image_url : string) : gia_result :=
  match vision env with
  | inl result =>
      if truthy (py_get result "report_number")
      then mkGia true (Some result) None
      else mkGia false (Some result)
                 (Some "Could not find GIA report number in image")
  | inr e => mkGia false None (Some ("Failed to extract from image: " +:+ e))
  end.

Definition extract_from_pdf (pdf_url : string) : gia_result :=
  match pdf_image env with
  | inl image_url => extract_from_image image_url
  | inr e => mkGia false None (Some ("Failed to extract from PDF: " +:+ e))
  end.

(** *** Record store calls of the handlers *)

(** [table(t).insert(record).execute()] and the id of [result.data[0]]:
    the call is issued, and the row exists once the store answers with
    it. *)
Definition db_insert (t : table) (record : dict) : M (option string) :=
  effect_ (log (InsertCall t record));;
  match insert env with
  | InsertRaises => raise
  | InsertNoData => mret None
  | InsertRow id =>
      effect_ (add_row t (<["id" := JStr id]> record));;
      mret (Some id)
  end.

(** [table(t).select("*").eq("id", id).execute()] and [result.data[0]]. *)
Definition db_fetch (table : world → list dict) (id : string)
    : M (option dict) :=
  if fetch_raises env then raise
  else fun w => (Ok (find_by_id id (table w)), w).

(** [d.get(k, 'N/A')] inside an f-string. *)
Definition show (d : dict) (k : string) : string :=
  fmt env (py_get_or d k (JStr "N/A")).

(** *** Menu handlers *)

Definition gia_summary (diamond_data : dict) : string :=
  "✅ *GIA Certificate Processed*" +:+ nl +:+ nl +:+
  "📊 *Diamond Details:*" +:+ nl +:+
  "• Shape: " +:+ show diamond_data "shape" +:+ nl +:+
  "• Carat: " +:+ show diamond_data "carat" +:+ nl +:+
  "• Color: " +:+
    fmt env (py_or (py_get_or diamond_data "color" (JStr "N/A"))
                   (py_get_or diamond_data "primary_hue" (JStr "N/A")))
    +:+ nl +:+
  "• Clarity: " +:+ show diamond_data "clarity" +:+ nl +:+
  "• Cut: " +:+ show diamond_data "cut" +:+ nl +:+
  "• Report #: " +:+ show diamond_data "certificate_number" +:+ nl +:+ nl +:+
  "What would you like to do?".

Definition send_gia_menu (to user_id : string) (diamond_data : dict)
    : M unit :=
  let summary := gia_summary diamond_data in
  send_interactive_buttons to summary
    ["list_for_sale"; "design_jewelry"; "improve_diamond"];;
  save_message_to_db user_id "outgoing" "interactive" summary.

Definition send_main_menu (to user_id : string) : M unit :=
  let menu_body :=
    "I can help you with various diamond services. Please select an option below 👇" in
  send_raw_message to (MainMenu menu_body);;
  save_message_to_db user_id "outgoing" "interactive" menu_body.

(** *** File download and upload *)

(** [if not file_content]. *)
Definition download_whatsapp_media (media_id : string) : M bool :=
  mret (media env).

(** The upload id and the file url, [(None, None)] on failure.  The row of
    the [uploads] table is left to the storage collaborator. *)
Definition upload_to_supabase (user_id file_name file_type : string)
    : M (option (string * string)) :=
  mret (upload env).

(** [if file_url:]. *)
Definition usable_url (u : option (string * string))
    : option (string * string) :=
  match u with
  | Some (upload_id, file_url) =>
      if String.eqb file_url "" then None else Some (upload_id, file_url)
  | None => None
  end.

(** *** Feature handlers *)

Definition handle_list_for_sale (from_number user_id : string) : M unit :=
  sess ← get_user_session user_id;
  if negb (truthy_id (last_diamond_id sess)) then
    send_message from_number
      "❌ No diamond found. Please upload a GIA certificate first.";;
    skip
  else
    update_user_session user_id
      (mkUpdates (Some "listing_price") (Some ∅) None None);;
    send_message from_number
      "💰 Please provide the price for this diamond, or type 'contact' if you prefer 'Contact for Price'.";;
    skip.

Definition handle_listing_flow (from_number user_id text : string)
    (sess : session) : M unit :=
  let st := step sess in
  if String.eqb st "listing_price" then
    let price :=
      if String.eqb (lower text) "contact" then "Contact for Price"
      else text in
    let ctx := <["price" := JStr price]> (context sess) in
    update_user_session user_id
      (mkUpdates (Some "listing_contact") (Some ctx) None None);;
    send_message from_number
      "📞 Please provide contact information for buyers (phone/email):";;
    skip
  else if String.eqb st "listing_contact" then
    let ctx := <["contact_info" := JStr text]> (context sess) in
    update_user_session user_id
      (mkUpdates (Some "listing_media") (Some ctx) None None);;
    send_message from_number
      "📸 Great! Now please send one or more images of the diamond. Type 'done' when finished.";;
    skip
  else if String.eqb st "listing_media" && String.eqb (lower text) "done" then
    let ctx := context sess in
    let images := py_get_or ctx "images" (JList []) in
    if negb (truthy images) then
      send_message from_number
        "⚠️ Please send at least one image before completing the listing.";;
      skip
    else
      try_except
        (let listing_data : dict := list_to_map
           [("user_id", JStr user_id);
            ("diamond_id", jopt (last_diamond_id sess));
            ("price", py_get ctx "price");
            ("contact_info", py_get ctx "contact_info");
            ("images", images);
            ("status", JStr "pending_review");
            ("created_at", JStr (now env))] in
         db_insert Listings listing_data;;
         send_message from_number
           "✅ Listing created and submitted for admin approval. You'll be notified once it's live!";;
         update_user_session user_id
           (mkUpdates (Some "idle") (Some ∅) None None))
        (send_message from_number
           "❌ Failed to create listing. Please try again.";;
         skip)
  else skip.

(** The two follow-up buttons of a design; [design_id] is unbound when the
    insert returned no row. *)
Definition send_design_buttons (from_number body : string)
    (design_id : option string) : M unit :=
  match design_id with
  | None => raise
  | Some id =>
      send_interactive_buttons from_number body
        ["design_variation"; "design_360_" +:+ id];;
      skip
  end.

(** [if design_result_db.data: update_user_session(...)]. *)
Definition remember_design (user_id : string) (design_id : option string)
    : M unit :=
  match design_id with
  | Some id => update_user_session user_id (mkUpdates None None None (Some id))
  | None => skip
  end.

Definition generic_error (from_number : string) : M unit :=
  send_message from_number "❌ An error occurred. Please try again.";; skip.

Definition handle_auto_design (from_number user_id : string) : M unit :=
  sess ← get_user_session user_id;
  if negb (truthy_id (last_diamond_id sess)) then
    send_message from_number
      "❌ No diamond found. Please upload a GIA certificate first.";;
    skip
  else
    let diamond_id := default "" (last_diamond_id sess) in
    try_except
      (found ← db_fetch diamonds diamond_id;
       match found with
       | None => send_message from_number "❌ Diamond data not found.";; skip
       | Some diamond_data =>
         send_message from_number
           "🎨 Generating jewelry design based on your diamond characteristics...";;
         match generator env with
         | Generated image_url prompt =>
           let design_record : dict := list_to_map
             [("user_id", JStr user_id);
              ("diamond_id", JStr diamond_id);
              ("type", JStr "auto_design");
              ("generated_prompt", JStr prompt);
              ("generated_image_url", JStr image_url);
              ("status", JStr "completed");
              ("created_at", JStr (now env))] in
           design_id ← db_insert Designs design_record;
           remember_design user_id design_id;;
           send_image from_number image_url
             ("✨ Your custom jewelry design" +:+ nl +:+ nl +:+ "Based on: "
              +:+ fmt env (py_get diamond_data "shape") +:+ " "
              +:+ fmt env (py_get diamond_data "carat") +:+ "ct");;
           send_design_buttons from_number
             "What would you like to do with this design?" design_id
         | GenFailed e =>
           send_message from_number
             ("❌ Failed to generate design: " +:+ e);;
           skip
         end
       end)
      (generic_error from_number).

Definition handle_free_design (from_number user_id description : string)
    : M unit :=
  send_message from_number "🎨 Creating your custom jewelry design...";;
  match generator env with
  | Generated image_url prompt =>
    try_except
      (let design_record : dict := list_to_map
         [("user_id", JStr user_id);
          ("diamond_id", JNull);
          ("type", JStr "free_input");
          ("user_input", JStr description);
          ("generated_prompt", JStr prompt);
          ("generated_image_url", JStr image_url);
          ("status", JStr "completed");
          ("created_at", JStr (now env))] in
       design_id ← db_insert Designs design_record;
       remember_design user_id design_id;;
       send_image from_number image_url "✨ Your custom jewelry design";;
       send_design_buttons from_number "What would you like to do?" design_id)
      skip
  | GenFailed e =>
    send_message from_number ("❌ Failed to generate design: " +:+ e);;
    skip
  end.

Definition handle_gia_custom_design (from_number user_id description : string)
    : M unit :=
  sess ← get_user_session user_id;
  if negb (truthy_id (last_diamond_id sess)) then
    send_message from_number
      "❌ No diamond found. Please upload a GIA certificate first.";;
    skip
  else
    let diamond_id := default "" (last_diamond_id sess) in
    try_except
      (found ← db_fetch diamonds diamond_id;
       match found with
       | None => send_message from_number "❌ Diamond data not found.";; skip
       | Some diamond_data =>
         send_message from_number
           "🎨 Creating custom design with your diamond...";;
         match generator env with
         | Generated image_url prompt =>
           let design_record : dict := list_to_map
             [("user_id", JStr user_id);
              ("diamond_id", JStr diamond_id);
              ("type", JStr "gia_custom");
              ("user_input", JStr description);
              ("generated_prompt", JStr prompt);
              ("generated_image_url", JStr image_url);
              ("status", JStr "completed");
              ("created_at", JStr (now env))] in
           design_id ← db_insert Designs design_record;
           remember_design user_id design_id;;
           send_image from_number image_url
             ("✨ Custom design featuring your "
              +:+ fmt env (py_get diamond_data "shape") +:+ " diamond");;
           send_design_buttons from_number "What would you like to do?"
             design_id
         | GenFailed e =>
           send_message from_number
             ("❌ Failed to generate design: " +:+ e);;
           skip
         end
       end)
      (generic_error from_number).

Definition handle_design_edit (from_number user_id edit_description : string)
    : M unit :=
  sess ← get_user_session user_id;
  if negb (truthy_id (last_design_id sess)) then
    send_message from_number
      "❌ No previous design found. Please create a design first.";;
    skip
  else
    let design_id := default "" (last_design_id sess) in
    try_except
      (found ← db_fetch designs design_id;
       match found with
       | None => send_message from_number "❌ Design not found.";; skip
       | Some previous_design =>
         let original_prompt := py_get previous_design "generated_prompt" in
         send_message from_number "✏️ Applying your changes...";;
         match generator env with
         | Generated image_url prompt =>
           let design_record : dict := list_to_map
             [("user_id", JStr user_id);
              ("diamond_id", py_get previous_design "diamond_id");
              ("type", JStr "edit");
              ("user_input", JStr edit_description);
              ("previous_prompt", original_prompt);
              ("generated_prompt", JStr prompt);
              ("generated_image_url", JStr image_url);
              ("status", JStr "completed");
              ("created_at", JStr (now env))] in
           new_design_id ← db_insert Designs design_record;
           remember_design user_id new_design_id;;
           send_image from_number image_url "✨ Updated design";;
           skip
         | GenFailed e =>
           send_message from_number ("❌ Failed to edit design: " +:+ e);;
           skip
         end
       end)
      (generic_error from_number).

Definition handle_design_variation (from_number user_id : string) : M unit :=
  sess ← get_user_session user_id;
  if negb (truthy_id (last_design_id sess)) then
    send_message from_number "❌ No previous design found.";;
    skip
  else
    let design_id := default "" (last_design_id sess) in
    try_except
      (found ← db_fetch designs design_id;
       match found with
       | None => send_message from_number "❌ Design not found.";; skip
       | Some previous_design =>
         let original_prompt := py_get previous_design "generated_prompt" in
         send_message from_number "🎨 Generating variation...";;
         match generator env with
         | Generated image_url prompt =>
           let design_record : dict := list_to_map
             [("user_id", JStr user_id);
              ("diamond_id", py_get previous_design "diamond_id");
              ("type", JStr "variation");
              ("previous_prompt", original_prompt);
              ("generated_prompt", JStr prompt);
              ("generated_image_url", JStr image_url);
              ("status", JStr "completed");
              ("created_at", JStr (now env))] in
           new_design_id ← db_insert Designs design_record;
           remember_design user_id new_design_id;;
           send_image from_number image_url "✨ Design variation";;
           skip
         | GenFailed e =>
           send_message from_number
             ("❌ Failed to create variation: " +:+ e);;
           skip
         end
       end)
      (generic_error from_number).

(** [for x in xs: body(x)]. *)
Fixpoint for_each {A : Type} (body : A → M unit) (xs : list A) : M unit :=
  match xs with
  | [] => skip
  | x :: rest => body x;; for_each body rest
  end.

Definition handle_360_view (from_number user_id design_id : string)
    : M unit :=
  try_except
    (found ← db_fetch designs design_id;
     match found with
     | None => send_message from_number "❌ Design not found.";; skip
     | Some design_data =>
       send_message from_number
         "🔄 Generating 360° view... This may take a moment.";;
       match views env with
       | inl images =>
         for_each (fun '(angle, image_url) =>
                     send_image from_number image_url
                       ("View: " +:+ angle +:+ "°");; skip)
                  images
       | inr e =>
         send_message from_number
           ("❌ Failed to generate 360° view: " +:+ e);;
         skip
       end
     end)
    (generic_error from_number).

Definition handle_improve_diamond (from_number user_id : string) : M unit :=
  sess ← get_user_session user_id;
  if negb (truthy_id (last_diamond_id sess)) then
    send_message from_number
      "❌ No diamond found. Please upload a GIA certificate first.";;
    skip
  else
    let diamond_id := default "" (last_diamond_id sess) in
    try_except
      (found ← db_fetch diamonds diamond_id;
       match found with
       | None => send_message from_number "❌ Diamond data not found.";; skip
       | Some diamond_data =>
         let improvements :=
           "💎 *Diamond Enhancement Analysis*" +:+ nl +:+ nl +:+
           "Current Specifications:" +:+ nl +:+
           "• Shape: " +:+ show diamond_data "shape" +:+ nl +:+
           "• Carat: " +:+ show diamond_data "carat" +:+ nl +:+
           "• Color: " +:+ show diamond_data "primary_hue" +:+ nl +:+
           "• Clarity: " +:+ show diamond_data "clarity" +:+ nl +:+
           "• Cut: " +:+ show diamond_data "cut" +:+ nl +:+ nl +:+
           "🔬 Potential Enhancements:" +:+ nl +:+
           "[This feature will provide AI-powered recommendations for diamond treatment, recut options, and value optimization strategies]"
           +:+ nl +:+ nl +:+
           "Would you like to consult with our diamond experts?" in
         send_message from_number improvements;;
         skip
       end)
      (generic_error from_number).

(** One result of a search: the diamond of the listing with its first
    image, or as text.  An exception is logged and the loop goes on. *)
Definition send_search_result (from_number : string) (listing : dict)
    : M unit :=
  try_except
    (found ← match py_get listing "diamond_id" with
             | JStr id => db_fetch diamonds id
             | _ => if fetch_raises env then raise else mret None
             end;
     match found with
     | None => skip
     | Some diamond =>
       let message :=
         "💎 " +:+ show diamond "shape" +:+ " Diamond" +:+ nl +:+ nl +:+
         "📊 Specs:" +:+ nl +:+
         "• Carat: " +:+ show diamond "carat" +:+ nl +:+
         "• Color: " +:+ show diamond "primary_hue" +:+ nl +:+
         "• Clarity: " +:+ show diamond "clarity" +:+ nl +:+
         "• Cut: " +:+ show diamond "cut" +:+ nl +:+
         "• Price: " +:+
           fmt env (py_get_or listing "price" (JStr "Contact for Price"))
           +:+ nl +:+ nl +:+
         "Report: " +:+ show diamond "certificate_number" in
       let images := py_get_or listing "images" (JList []) in
       if truthy images then
         match images with
         | JList (first :: _) => send_image from_number first message;; skip
         | JStr (String c _) =>
             send_image from_number (String c EmptyString) message;; skip
         | _ => raise
         end
       else send_message from_number message;; skip
     end)
    skip.

Definition handle_search_query (from_number user_id query : string)
    : M unit :=
  send_message from_number "🔍 Searching for diamonds...";;
  match search env with
  | inl found =>
    match found with
    | [] =>
      send_message from_number
        "😔 No diamonds found matching your criteria. Try adjusting your search.";;
      skip
    | _ :: _ =>
      for_each (send_search_result from_number) (take 3 found);;
      if (3 <? length found)%nat then
        send_interactive_buttons from_number
          ("Showing 3 of " +:+ str_of_nat (length found) +:+ " results")
          ["view_more_results"];;
        skip
      else skip
    end
  | inr e =>
    send_message from_number ("❌ Search failed: " +:+ e);;
    skip
  end.

Definition handle_view_more_results (from_number user_id : string) : M unit :=
  send_message from_number
    "📋 Here are more results... [Implementation needed: retrieve cached search results]";;
  skip.

Definition handle_general_inquiry (from_number user_id question : string)
    : M unit :=
  let response :=
    "Thank you for your question! " +:+ nl +:+ nl +:+
    "Our diamond experts are here to help. For immediate assistance:"
    +:+ nl +:+
    "• Email: support@diamondbot.com" +:+ nl +:+
    "• Phone: +1-XXX-XXX-XXXX" +:+ nl +:+ nl +:+
    "Or continue chatting - I'll do my best to assist you!" in
  send_message from_number response;;
  skip.

(** *** Message handlers *)

(** [intent_detector.detect] and the [intent] read from its answer. *)
Definition detect (text : string) (sess : session) : M (option string) :=
  effect_ (log (Classified text));;
  mret (classify env text sess).

(** The [if]/[elif] chain on the intent in [handle_text_message]. *)
Definition route_intent (from_number user_id text : string) (sess : session)
    (intent : option string) : M unit :=
  if is_str intent "search" then
    handle_search_query from_number user_id text
  else if is_str intent "design_free_input" then
    handle_free_design from_number user_id text
  else if is_str intent "design_with_gia" then
    if truthy_id (last_diamond_id sess) then
      handle_gia_custom_design from_number user_id text
    else
      send_message from_number
        "Please upload a GIA certificate first to design jewelry with your diamond.";;
      skip
  else if is_str intent "design_edit" then
    handle_design_edit from_number user_id text
  else if is_str intent "design_variation" then
    handle_design_variation from_number user_id
  else if is_str intent "listing_intent" then
    handle_listing_flow from_number user_id text sess
  else if is_str intent "general_inquiry" then
    handle_general_inquiry from_number user_id text
  else
    send_main_menu from_number user_id.

Definition handle_text_message (from_number text : string) : M unit :=
  found ← get_or_create_user from_number;
  match found with
  | None =>
    send_message from_number
      "❌ Error connecting to system. Please try again.";;
    skip
  | Some user_id =>
    sess ← get_user_session user_id;
    save_message_to_db user_id "incoming" "text" text;;
    intent ← detect text sess;
    route_intent from_number user_id text sess intent
  end.

Definition handle_voice_message (from_number media_id : string) : M unit :=
  found ← get_or_create_user from_number;
  match found with
  | None => skip
  | Some user_id =>
    send_message from_number "🎤 Processing your voice message...";;
    voice_content ← download_whatsapp_media media_id;
    if negb voice_content then
      send_message from_number
        "❌ Failed to download voice message. Please try again.";;
      skip
    else
      match transcription env with
      | Some (text, confident) =>
        save_message_to_db user_id "incoming" "audio" text;;
        if confident then
          send_message from_number
            ("📝 Transcription: " +:+ dquote +:+ text +:+ dquote
             +:+ nl +:+ nl +:+ "Processing your request...");;
          handle_text_message from_number text
        else
          send_message from_number
            ("📝 Transcription (low confidence): " +:+ dquote +:+ text
             +:+ dquote +:+ nl +:+ nl
             +:+ "Is this correct? Please confirm or rephrase.");;
          skip
      | None =>
        send_message from_number
          "❌ Could not transcribe voice message. Please try sending text instead.";;
        skip
      end
  end.

Definition handle_document_message
    (from_number media_id filename mime_type : string) : M unit :=
  found ← get_or_create_user from_number;
  match found with
  | None => skip
  | Some user_id =>
    send_message from_number "📄 Processing your document...";;
    file_content ← download_whatsapp_media media_id;
    if negb file_content then
      send_message from_number
        "❌ Failed to download document. Please try again.";;
      skip
    else
      uploaded ← upload_to_supabase user_id filename "document";
      match usable_url uploaded with
      | None =>
        send_message from_number
          "❌ Failed to process document. Please try again.";;
        skip
      | Some (upload_id, file_url) =>
        send_message from_number "🔍 Extracting diamond information...";;
        let gia_data := extract_from_pdf file_url in
        if success gia_data then
          let diamond_data := default ∅ (data gia_data) in
          try_except
            (let diamond_record : dict := list_to_map
               [("upload_id", JStr upload_id);
                ("user_id", JStr user_id);
                ("shape", py_get diamond_data "shape");
                ("carat", py_get diamond_data "carat");
                ("color_type", py_get diamond_data "color_type");
                ("primary_hue", py_get diamond_data "primary_hue");
                ("modifier", py_get diamond_data "modifier");
                ("intensity", py_get diamond_data "intensity");
                ("clarity", py_get diamond_data "clarity");
                ("cut", py_get diamond_data "cut");
                ("polish", py_get diamond_data "polish");
                ("symmetry", py_get diamond_data "symmetry");
                ("fluorescence", py_get diamond_data "fluorescence");
                ("certificate_number",
                 py_or (py_get diamond_data "report_number")
                       (py_get diamond_data "certificate_number"));
                ("parsed_confidence",
                 py_get_or diamond_data "confidence" (JNum 95 (-2)));
                ("created_at", JStr (now env))] in
             inserted ← db_insert Diamonds diamond_record;
             match inserted with
             | Some diamond_id =>
               update_user_session user_id
                 (mkUpdates (Some "gia_menu") None (Some diamond_id) None);;
               send_gia_menu from_number user_id diamond_data
             | None =>
               send_message from_number "❌ Failed to save diamond data.";;
               skip
             end)
            (send_message from_number "❌ Failed to save diamond data.";;
             skip)
        else
          let error_msg := default "Unknown error" (error gia_data) in
          send_message from_number
            ("❌ Failed to extract GIA data: " +:+ error_msg +:+ nl +:+ nl
             +:+ "Please ensure the document is a valid GIA certificate.");;
          skip
      end
  end.

(** [images = context.get("images", [])] followed by [images.append]:
    anything but a list has no [append]. *)
Definition images_to_extend (ctx : dict) : option (list string) :=
  match ctx !! "images" with
  | None => Some []
  | Some (JList l) => Some l
  | Some _ => None
  end.

Definition handle_image_message (from_number media_id : string) : M unit :=
  found ← get_or_create_user from_number;
  match found with
  | None => skip
  | Some user_id =>
    sess ← get_user_session user_id;
    send_message from_number "🖼️ Processing your image...";;
    image_content ← download_whatsapp_media media_id;
    if negb image_content then
      send_message from_number
        "❌ Failed to download image. Please try again.";;
      skip
    else if String.eqb (step sess) "listing_media" then
      uploaded ← upload_to_supabase user_id "listing.jpg" "image";
      match usable_url uploaded with
      | Some (upload_id, file_url) =>
        match images_to_extend (context sess) with
        | None => raise
        | Some old =>
          let images := (old ++ [file_url])%list in
          let ctx := <["images" := JList images]> (context sess) in
          update_user_session user_id (mkUpdates None (Some ctx) None None);;
          send_message from_number
            ("✅ Image " +:+ str_of_nat (length images)
             +:+ " added! Send more images or type 'done' to complete the listing.");;
          skip
        end
      | None => skip
      end
    else
      uploaded ← upload_to_supabase user_id "image.jpg" "image";
      match usable_url uploaded with
      | None =>
        send_message from_number
          "❌ Failed to process image. Please try again.";;
        skip
      | Some (upload_id, file_url) =>
        send_message from_number "🔍 Analyzing image...";;
        let gia_data := extract_from_image file_url in
        if success gia_data
           && truthy (py_get (default ∅ (data gia_data)) "certificate_number")
        then
          let diamond_data := default ∅ (data gia_data) in
          try_except
            (let diamond_record : dict := list_to_map
               [("upload_id", JStr upload_id);
                ("user_id", JStr user_id);
                ("shape", py_get diamond_data "shape");
                ("carat", py_get diamond_data "carat");
                ("clarity", py_get diamond_data "clarity");
                ("cut", py_get diamond_data "cut");
                ("certificate_number",
                 py_get diamond_data "certificate_number");
                ("created_at", JStr (now env))] in
             inserted ← db_insert Diamonds diamond_record;
             match inserted with
             | Some diamond_id =>
               update_user_session user_id
                 (mkUpdates (Some "gia_menu") None (Some diamond_id) None);;
               send_gia_menu from_number user_id diamond_data
             | None => skip
             end)
            skip
        else
          send_message from_number
            "This doesn't appear to be a GIA certificate. If you'd like to use this as a design reference, please describe what you'd like to create.";;
          skip
      end
  end.

Definition handle_button_response (from_number button_id : string)
    : M unit :=
  found ← get_or_create_user from_number;
  match found with
  | None => skip
  | Some user_id =>
    if String.eqb button_id "upload_gia" then
      send_message from_number
        "📄 Please upload your GIA certificate (PDF).";;
      skip
    else if String.eqb button_id "design_jewelry" then
      send_message from_number
        "💍 Let's design your custom jewelry! Please describe your design idea.";;
      skip
    else if String.eqb button_id "search_diamonds" then
      send_message from_number
        "🔍 Please provide your diamond search criteria (e.g., 1.0ct, D color, VS1).";;
      skip
    else if String.eqb button_id "general_inquiry" then
      send_message from_number "💬 How can I assist you today?";;
      skip
    else if String.eqb button_id "list_for_sale" then
      handle_list_for_sale from_number user_id
    else if String.eqb button_id "design_jewelry" then
      handle_auto_design from_number user_id
    else if String.eqb button_id "improve_diamond" then
      handle_improve_diamond from_number user_id
    else if String.eqb button_id "view_more_results" then
      handle_view_more_results from_number user_id
    else if starts_with "design_360_" button_id then
      let design_id := remove_all "design_360_" button_id in
      handle_360_view from_number user_id design_id
    else
      send_message from_number
        "⚠️ Unknown option selected. Please try again.";;
      skip
  end.

(** *** The webhook *)

(** One entry of [messages] in the payload, by its [type].  An
    interactive message carries the id of its button or list reply, or no
    reply at all ([None]), or a reply that has no id: then
    [handle_button_response] is called with [None] and its
    [button_id.startswith] raises once the user is known. *)
Inductive inbound : Type :=
| InText (body : string)
| InAudio (media_id : string)
| InDocument (media_id filename mime_type : string)
| InImage (media_id : string)
| InInteractive (reply_id : option string)
| InReplyWithoutId
| InOther.

(** The body of the loop over [messages] in [handle_webhook]. *)
Definition handle_message (from_number : string) (message : inbound)
    : M unit :=
  try_except
    (match message with
     | InText text => handle_text_message from_number text
     | InAudio media_id => handle_voice_message from_number media_id
     | InDocument media_id filename mime_type =>
         handle_document_message from_number media_id filename mime_type
     | InImage media_id => handle_image_message from_number media_id
     | InInteractive (Some id) => handle_button_response from_number id
     | InInteractive None => skip
     | InReplyWithoutId =>
         found ← get_or_create_user from_number;
         match found with
         | None => skip
         | Some _ => raise
         end
     | InOther =>
         send_message from_number
           "⚠️ Sorry, I can only process text, voice, images, and documents.";;
         skip
     end)
    (send_message from_number
       "❌ An error occurred while processing your message. Please try again.";;
     skip).

End Handlers.

(** ** A concrete deployment

    No API key is configured, so the classifier is the keyword matcher and
    the extractor answers with its sample certificate; every collaborator
    is up. *)

Definition placeholder_extraction : dict :=
  list_to_map
    [("report_number", JStr "PLACEHOLDER_12345");
     ("shape", JStr "Round Brilliant");
     ("measurements", JStr "6.52 x 6.47 x 4.01");
     ("carat", JNum 101 (-2));
     ("color", JStr "E");
     ("clarity", JStr "VS2");
     ("cut", JStr "Excellent");
     ("polish", JStr "Excellent");
     ("symmetry", JStr "Very Good");
     ("fluorescence", JStr "None");
     ("depth_percent", JNum 618 (-1));
     ("table_percent", JNum 570 (-1));
     ("girdle", JStr "Medium to Slightly Thick");
     ("culet", JStr "None");
     ("clarity_characteristics", JList ["Crystal"; "Feather"; "Cloud"]);
     ("inscription", JStr "GIA PLACEHOLDER_12345");
     ("crown_angle", JNum 345 (-1));
     ("crown_height", JNum 155 (-1));
     ("pavilion_angle", JNum 408 (-1));
     ("pavilion_depth", JNum 430 (-1));
     ("star_length", JNum 50 0);
     ("lower_half", JNum 80 0);
     ("girdle_min", JStr "Medium");
     ("girdle_max", JStr "Slightly Thick")].

(** Strings print as themselves. *)
Definition demo_fmt (v : jval) : string :=
  match v with
  | JStr s => s
  | _ => "?"
  end.

Definition demo_env : environment :=
  mkEnv (Some "u1") true true (fun _ => true) false placeholder_classifier
        true (Some ("up1", "https://files.example/1.jpg"))
        (inl "https://files.example/1.jpg")
        (inl placeholder_extraction) (InsertRow "row1") false
        (Generated "https://img.example/1.png" "a ring, restyled")
        (inl []) (inl []) None "2024-01-01T00:00:00" demo_fmt.

(** The same deployment with a remote classifier that answers [intent]. *)
Definition remote_env (intent : string) : environment :=
  mkEnv (Some "u1") true true (fun _ => true) false (fun _ _ => Some intent)
        true (Some ("up1", "https://files.example/1.jpg"))
        (inl "https://files.example/1.jpg")
        (inl placeholder_extraction) (InsertRow "row1") false
        (Generated "https://img.example/1.png" "a ring, restyled")
        (inl []) (inl []) None "2024-01-01T00:00:00" demo_fmt.

(** One user, whose session is [sess], and empty tables. *)
Definition demo_world (sess : session) : world :=
  mkWorld {[ "u1" := sess ]} [] [] [] [].

Definition demo_design : dict :=
  list_to_map [("id", JStr "g1"); ("generated_prompt", JStr "a ring")].

(** ** The flow order *)

Definition flow_rank (st : string) : option nat :=
  if String.eqb st "idle" then Some 0
  else if String.eqb st "gia_menu" then Some 1
  else if String.eqb st "listing_price" then Some 2
  else if String.eqb st "listing_contact" then Some 3
  else if String.eqb st "listing_media" then Some 4
  else None.

(** [b] is not earlier than [a] in
    idle < gia_menu < listing_price < listing_contact < listing_media. *)
Definition not_backward (a b : string) : Prop :=
  ∃ i j : nat, flow_rank a = Some i ∧ flow_rank b = Some j ∧ (i ≤ j)%nat.

(** The message is a certificate upload. *)
Definition is_ingestion (message : inbound) : Prop :=
  match message with
  | InDocument _ _ _ | InImage _ => True
  | _ => False
  end.

(** ** Vocabulary of the properties *)

(** [context.get("images", [])] of a session. *)
Definition listing_images (sess : session) : jval :=
  py_get_or (context sess) "images" (JList []).

Definition listing_warning : string :=
  "⚠️ Please send at least one image before completing the listing.".

(** The records the handlers asked the [listings] table to insert. *)
Definition listing_inserts (w : world) : list dict :=
  omap (fun e => match e with
                 | InsertCall Listings r => Some r
                 | _ => None
                 end) (trace w).

Definition price_sentinel : string := "Contact for Price".

Definition prerequisite_missing : string :=
  "Please upload a GIA certificate first to design jewelry with your diamond.".

(** The world in which the intent of a text is routed: the incoming
    message is in the audit log and the classifier has been called. *)
Definition received (env : environment) (uid text : string) (w : world)
    : world :=
  log (Classified text)
      (if audit_up env then log (Saved uid "incoming" "text" text) w else w).

Definition document_rejection (reason : string) : string :=
  "❌ Failed to extract GIA data: " +:+ reason +:+ nl +:+ nl
  +:+ "Please ensure the document is a valid GIA certificate.".

Definition image_rejection : string :=
  "This doesn't appear to be a GIA certificate. If you'd like to use this as a design reference, please describe what you'd like to create.".

(** The extraction result has no report number (or there is no result). *)
Definition lacks_report_number (env : environment) : Prop :=
  match vision env with
  | inl raw => truthy (py_get raw "report_number") = false
  | inr _ => True
  end.

(** The demo deployment when the vision model reads everything but the
    report number. *)
Definition unnumbered_env : environment :=
  mkEnv (Some "u1") true true (fun _ => true) false placeholder_classifier
        true (Some ("up1", "https://files.example/1.jpg"))
        (inl "https://files.example/1.jpg")
        (inl (delete "report_number" placeholder_extraction))
        (InsertRow "row1") false
        (Generated "https://img.example/1.png" "a ring, restyled")
        (inl []) (inl []) None "2024-01-01T00:00:00" demo_fmt.

(** Every stored session is still stored, and its step either stayed or
    moved as [allowed] says. *)
Definition moved (allowed : string → string → Prop)
    (us us' : gmap string session) : Prop :=
  ∀ uid s, us !! uid = Some s →
    ∃ s', us' !! uid = Some s' ∧
          (step s' = step s ∨ allowed (step s) (step s')).

Definition never : string → string → Prop := fun _ _ => False.

(** The computation moves the steps of the stored sessions as [allowed]
    says, from every world. *)
Definition moves {A : Type} (allowed : string → string → Prop) (m : M A)
    : Prop :=
  ∀ w, moved allowed (users w) (users (snd (m w))).

(** The computation leaves every step where it was. *)
Abbreviation keeps m := (moves never m).

(** Between [w] and [w'] a listing was committed: the insert of the
    listing was issued and did not raise. *)
Definition listing_committed (env : environment) (w w' : world) : Prop :=
  insert env ≠ InsertRaises ∧
  ∃ data, listing_inserts w' = listing_inserts w ++ [data].

(** The moves of the listing flow between [w] and [w']: forward, or from
    [listing_media] back to [idle] when the listing was committed. *)
Definition flow_move (env : environment) (w w' : world) (a b : string)
    : Prop :=
  not_backward a b ∨
  (a = "listing_media" ∧ b = "idle" ∧ listing_committed env w w').

(** Between [w] and [w'] a diamond was stored. *)
Definition diamond_stored (w w' : world) : Prop :=
  ∃ r, diamonds w' = diamonds w ++ [r].

(** The move of a certificate upload between [w] and [w']: to [gia_menu],
    when the diamond was stored. *)
Definition ingest_move (w w' : world) (a b : string) : Prop :=
  b = "gia_menu" ∧ diamond_stored w w'.

(** No listing was asked for and no diamond stored between [w] and
    [w']. *)
Definition same_records (w w' : world) : Prop :=
  listing_inserts w' = listing_inserts w ∧ diamonds w' = diamonds w.

(** The computation asks for no listing and stores no diamond. *)
Definition quiet {A : Type} (m : M A) : Prop :=
  ∀ w, same_records w (snd (m w)).

(** The computation moves the steps as [allowed] says of the world it
    starts from and the world it leaves. *)
Definition moves_in {A : Type}
    (allowed : world → world → string → string → Prop) (m : M A) : Prop :=
  ∀ w, moved (allowed w (snd (m w))) (users w) (users (snd (m w))).

(** [allowed] only looks at the listings asked for and the diamonds
    stored. *)
Definition stable (allowed : world → world → string → string → Prop)
    : Prop :=
  ∀ w0 w1 w2 w3 a b,
    same_records w0 w1 → same_records w2 w3 →
    allowed w1 w2 a b → allowed w0 w3 a b.

(** Several deliveries in a row. *)
Definition deliveries (env : environment) (from : string)
    (messages : list inbound) (w : world) : world :=
  fold_left (fun w message => exec (handle_message env from message) w)
            messages w.

(** A conversation that reaches [listing_media]: a certificate, the choice
    "list for sale", a price and a contact. *)
Definition until_media : list inbound :=
  [InDocument "m1" "gia.pdf" "application/pdf";
   InInteractive (Some "list_for_sale");
   InText "contact";
   InText "contact me on 555 0100"].

Definition fresh_world : world := mkWorld ∅ [] [] [] [].

(** ** More vocabulary: the session store and the listing flow *)

(** The later of two values of a key. *)
Definition later_of {A : Type} (first second : option A) : option A :=
  match second with
  | Some _ => second
  | None => first
  end.

(** One update that stands for [first] followed by [second]. *)
Definition merge_updates (first second : updates) : updates :=
  mkUpdates (later_of (u_step first) (u_step second))
            (later_of (u_context first) (u_context second))
            (later_of (u_last_diamond_id first) (u_last_diamond_id second))
            (later_of (u_last_design_id first) (u_last_design_id second)).

(** The stored columns and tables, without the trace. *)
Definition store (w : world)
    : gmap string session * list dict * list dict * list dict :=
  (users w, diamonds w, designs w, listings w).

(** The tables the handlers insert into. *)
Definition tables (w : world) : list dict * list dict * list dict :=
  (diamonds w, designs w, listings w).

(** The deployment [base] on a delivery where the storage answers
    [uploaded]. *)
Definition with_upload (base : environment)
    (uploaded : option (string * string)) : environment :=
  mkEnv (user base) (store_up base) (audit_up base) (delivered base)
        (raw_send_raises base) (classify base) (media base) uploaded
        (pdf_image base) (vision base) (insert base) (fetch_raises base)
        (generator base) (views base) (search base) (transcription base)
        (now base) (fmt base).

(** The deployment [base] on a delivery where the record store answers an
    insert with [outcome] and the generator with [generated]. *)
Definition with_answers (base : environment) (outcome : insert_outcome)
    (generated : gen_outcome) : environment :=
  mkEnv (user base) (store_up base) (audit_up base) (delivered base)
        (raw_send_raises base) (classify base) (media base) (upload base)
        (pdf_image base) (vision base) outcome (fetch_raises base)
        generated (views base) (search base) (transcription base)
        (now base) (fmt base).

(** The images of a listing arrive one delivery after the other, stored
    under the urls [urls]. *)
Definition send_images (base : environment) (from : string)
    (urls : list string) (w : world) : world :=
  fold_left
    (fun w url =>
       exec (handle_message (with_upload base (Some ("upload", url))) from
                            (InImage "media")) w)
    urls w.

Definition image_processing : outmsg := Text "🖼️ Processing your image...".

(** The confirmation of the [n]-th image of a listing. *)
Definition image_added (n : nat) : outmsg :=
  Text ("✅ Image " +:+ str_of_nat n
        +:+ " added! Send more images or type 'done' to complete the listing.").

(** The answers to [k] images sent when [n] are already stored. *)
Fixpoint image_replies (n k : nat) : list outmsg :=
  match k with
  | O => []
  | S k' => image_processing :: image_added (S n) :: image_replies (S n) k'
  end.

Definition no_diamond_found : string :=
  "❌ No diamond found. Please upload a GIA certificate first.".

Definition price_prompt : string :=
  "💰 Please provide the price for this diamond, or type 'contact' if you prefer 'Contact for Price'.".

Definition listing_failed : string :=
  "❌ Failed to create listing. Please try again.".

(** A listing from the first choice to "done", each message delivered to
    the webhook: the choice "list for sale", the price, the contact, the
    images and the word "done"; the record store answers the final insert
    with the row [id]. *)
Definition listing_conversation (base : environment)
    (from price contact : string) (urls : list string) (id : string)
    (w : world) : world :=
  let w1 := exec (handle_message base from
                    (InInteractive (Some "list_for_sale"))) w in
  let w2 := exec (handle_message base from (InText price)) w1 in
  let w3 := exec (handle_message base from (InText contact)) w2 in
  let w4 := send_images base from urls w3 in
  exec (handle_message (with_answers base (InsertRow id) (generator base))
          from (InText "done")) w4.

(** The [listing_data] dictionary of [handle_listing_flow]. *)
Definition listing_data (env : environment) (uid : string) (sess : session)
    : dict :=
  list_to_map
    [("user_id", JStr uid);
     ("diamond_id", jopt (last_diamond_id sess));
     ("price", py_get (context sess) "price");
     ("contact_info", py_get (context sess) "contact_info");
     ("images", listing_images sess);
     ("status", JStr "pending_review");
     ("created_at", JStr (now env))].

Definition listing_created : string :=
  "✅ Listing created and submitted for admin approval. You'll be notified once it's live!".

(** ** More vocabulary: what a delivery may do to the world *)

(** One elementary change of the world: an entry of the trace, a call
    of an insert and the row it adds when [may_insert] holds, and, for the
    user [who], a
    write of session columns or the creation of the row with the idle
    session. *)
Definition is_insert_call (e : effect) : bool :=
  match e with
  | InsertCall _ _ => true
  | _ => false
  end.

Inductive change (who : option string) (may_insert : bool)
    : world → world → Prop :=
| change_log e w :
    (is_insert_call e = true → may_insert = true) →
    change who may_insert w (log e w)
| change_row t r w :
    may_insert = true →
    change who may_insert w (add_row t r w)
| change_write uid d w :
    who = Some uid →
    change who may_insert w
      (with_users (alter (apply_db_updates d) uid) w)
| change_create uid w :
    who = Some uid → users w !! uid = None →
    change who may_insert w
      (with_users (fun us => <[uid := default_session]> us) w).

(** The computation only makes such changes, from every world. *)
Definition does {A : Type} (who : option string) (may_insert : bool)
    (m : M A) : Prop :=
  ∀ w, rtc (change who may_insert) w (snd (m w)).

(** ** More vocabulary: ingestion and designs *)

Definition document_processing : outmsg := Text "📄 Processing your document...".

Definition extracting : outmsg := Text "🔍 Extracting diamond information...".

Definition analyzing : outmsg := Text "🔍 Analyzing image...".

(** The menu sent for a parsed certificate. *)
Definition gia_menu (env : environment) (diamond_data : dict) : outmsg :=
  Buttons (gia_summary env diamond_data)
          ["list_for_sale"; "design_jewelry"; "improve_diamond"].

Definition creating_design : outmsg :=
  Text "🎨 Creating your custom jewelry design...".

(** The two choices sent with a design. *)
Definition design_choices (body id : string) : outmsg :=
  Buttons body ["design_variation"; "design_360_" +:+ id].

(** ** More vocabulary: voice messages *)

Definition voice_processing : outmsg :=
  Text "🎤 Processing your voice message...".

Definition transcription_shown (text : string) : outmsg :=
  Text ("📝 Transcription: " +:+ dquote +:+ text +:+ dquote
        +:+ nl +:+ nl +:+ "Processing your request...").

Definition transcription_doubted (text : string) : outmsg :=
  Text ("📝 Transcription (low confidence): " +:+ dquote +:+ text
        +:+ dquote +:+ nl +:+ nl
        +:+ "Is this correct? Please confirm or rephrase.").

(** The world in which a transcribed voice message is handed to the text
    handler. *)
Definition transcribed (env : environment) (from uid text : string)
    (w : world) : world :=
  log (Sent from (transcription_shown text)
            (delivered env (transcription_shown text)))
      (exec (save_message_to_db env uid "incoming" "audio" text)
            (log (Sent from voice_processing (delivered env voice_processing))
                 w)).

(** The intents the keyword matcher can answer. *)
Definition placeholder_intents : list string :=
  ["design_variation"; "search"; "design_free_input"; "listing_intent";
   "greeting"; "general_inquiry"].

(** The deployment [base] on a delivery whose voice note is transcribed
    as [heard]. *)
Definition with_transcription (base : environment)
    (heard : option (string * bool)) : environment :=
  mkEnv (user base) (store_up base) (audit_up base) (delivered base)
        (raw_send_raises base) (classify base) (media base) (upload base)
        (pdf_image base) (vision base) (insert base) (fetch_raises base)
        (generator base) (views base) (search base) heard
        (now base) (fmt base).

(** ** More vocabulary: search *)

Definition searching : outmsg := Text "🔍 Searching for diamonds...".

Definition none_found : outmsg :=
  Text "😔 No diamonds found matching your criteria. Try adjusting your search.".

Definition view_more (n : nat) : outmsg :=
  Buttons ("Showing 3 of " +:+ str_of_nat n +:+ " results")
          ["view_more_results"].

(** The deployment [base] on a delivery where the search answers
    [found]. *)
Definition with_search (base : environment)
    (found : list dict + string) : environment :=
  mkEnv (user base) (store_up base) (audit_up base) (delivered base)
        (raw_send_raises base) (classify base) (media base) (upload base)
        (pdf_image base) (vision base) (insert base) (fetch_raises base)
        (generator base) (views base) found (transcription base)
        (now base) (fmt base).

(** ** Certificate validation ([services/gia_extractor.py]) *)

Definition required_fields : list string :=
  ["report_number"; "shape"; "carat"; "color"; "clarity"].

(** [validate_gia_data]: every required field is there and truthy. *)
Definition validate_gia_data (data : dict) : bool :=
  forallb (fun field => truthy (py_get data field)) required_fields.

(** ** Search entities ([services/intent_detector.py]) *)

Definition upper_ascii (c : ascii) : ascii :=
  let n := nat_of_ascii c in
  if ((97 <=? n) && (n <=? 122))%nat then ascii_of_nat (n - 32) else c.

Fixpoint upper (s : string) : string :=
  match s with
  | EmptyString => EmptyString
  | String c r => String (upper_ascii c) (upper r)
  end.

(** [s.capitalize()] for an ASCII word. *)
Definition capitalize (s : string) : string :=
  match s with
  | EmptyString => EmptyString
  | String c r => String (upper_ascii c) (lower r)
  end.

Definition shapes : list string :=
  ["round"; "oval"; "emerald"; "princess"; "cushion"; "radiant";
   "asscher"; "marquise"; "pear"; "heart"].

Definition colors : list string :=
  ["d"; "e"; "f"; "g"; "h"; "i"; "j"; "yellow"; "pink"; "blue"].

(** The [entities] of [_extract_search_entities] after its two loops over
    words: every shape and every colour found in the text overwrites the
    entry of the one before.  The two pattern matches that follow add
    [carat_min] and [price_max] and leave these entries alone. *)
Definition search_words (text : string) : dict :=
  let entities : dict := ∅ in
  let entities :=
    fold_left (fun entities shape =>
                 if contains shape text
                 then <["shape" := JStr (capitalize shape)]> entities
                 else entities)
              shapes entities in
  fold_left (fun entities color =>
               if contains color text
               then <["color" := JStr (if (String.length color =? 1)%nat
                                       then upper color
                                       else capitalize color)]> entities
               else entities)
            colors entities.

(** The deployment [base] on a delivery where the vision model answers
    [seen]. *)
Definition with_vision (base : environment) (seen : dict + string)
    : environment :=
  mkEnv (user base) (store_up base) (audit_up base) (delivered base)
        (raw_send_raises base) (classify base) (media base) (upload base)
        (pdf_image base) seen (insert base) (fetch_raises base)
        (generator base) (views base) (search base) (transcription base)
        (now base) (fmt base).

(** The answer of [handle_general_inquiry]. *)
Definition general_answer : string :=
  "Thank you for your question! " +:+ nl +:+ nl +:+
  "Our diamond experts are here to help. For immediate assistance:"
  +:+ nl +:+
  "• Email: support@diamondbot.com" +:+ nl +:+
  "• Phone: +1-XXX-XXX-XXXX" +:+ nl +:+ nl +:+
  "Or continue chatting - I'll do my best to assist you!".

(** ** The users table, row by row

    [get_or_create_user] as it reads and writes the rows of [users]: the
    lookup by number, the refresh of [last_interaction] on the row it
    found, and the insert of a new row.  The handlers above only see the
    id of the row and its session columns. *)

Module UsersTable.

(** A row of [users] with the columns [get_or_create_user] reads or
    writes and the session columns; a new row is given the step and the
    context, and its two ids are null. *)
Record row : Type := mkRow {
  row_id : string;
  row_number : string;
  last_interaction : string;
  created_at : string;
  (** [session_step], [session_context], [last_diamond_id] and
      [last_design_id] *)
  columns : session
}.

(** The answers of the record store and of the clock during one call. *)
Record answers : Type := mkAnswers {
  select_raises : bool;
  update_raises : bool;
  inserted : insert_outcome;
  (** [datetime.utcnow().isoformat()], first and second reading *)
  utcnow : string * string
}.

(** [update({"last_interaction": now}).eq("id", id)] on one row. *)
Definition touch (id now : string) (r : row) : row :=
  if String.eqb (row_id r) id
  then mkRow (row_id r) (row_number r) now (created_at r) (columns r)
  else r.

(** The row returned, if any, and the table afterwards; [result.data] is
    in the order of the table. *)
Definition get_or_create_user (a : answers) (whatsapp_number : string)
    (table : list row) : option row * list row :=
  if select_raises a then (None, table)
  else
    match List.filter (fun r => String.eqb (row_number r) whatsapp_number)
                      table with
    | user :: _ =>
        if update_raises a then (None, table)
        else (Some user,
              List.map (touch (row_id user) (fst (utcnow a))) table)
    | [] =>
        let new_user id :=
          mkRow id whatsapp_number (fst (utcnow a)) (snd (utcnow a))
                default_session in
        match inserted a with
        | InsertRow id => (Some (new_user id), table ++ [new_user id])
        | InsertNoData => (None, table)
        | InsertRaises => (None, table)
        end
    end.

(** What a call never writes on a row that exists. *)
Definition kept (r : row) : string * string * string * session :=
  (row_id r, row_number r, created_at r, columns r).

End UsersTable.

(** * Properties *)


(** ** The session store *)

Lemma update_user_session_up env uid u w :
  store_up env = true →
  db_updates_nonempty (db_updates_of u) = true →
  update_user_session env uid u w =
    (Ok tt, log (SessionWrite uid u)
                (with_users (alter (apply_db_updates (db_updates_of u)) uid) w)).
Proof. intros H1 H2. unfold update_user_session. now rewrite H1, H2. Qed.

Lemma update_user_session_returns env uid u w :
  fst (update_user_session env uid u w) = Ok tt.
Proof.
  unfold update_user_session.
  destruct (store_up env); [|reflexivity].
  destruct (db_updates_nonempty _); reflexivity.
Qed.

(** C7.  [update_user_session] is a partial merge: a field of the stored
    session takes the value of its key when the key is present in the
    update and keeps its value otherwise, a context given in the update
    replaces the stored context as a whole, the rows of other users are not
    touched, and an empty update changes nothing and writes nothing. *)
Theorem update_user_session_partial_merge
    (env : environment) (uid : string) (u : updates) (w : world) (s : session) :
  store_up env = true →
  users w !! uid = Some s →
  let w' := exec (update_user_session env uid u) w in
  (∃ s', users w' !! uid = Some s' ∧
     (∀ st, u_step u = Some st → step s' = st) ∧
     (u_step u = None → step s' = step s) ∧
     (∀ c, u_context u = Some c → context s' = c) ∧
     (u_context u = None → context s' = context s) ∧
     (∀ d, u_last_diamond_id u = Some d → last_diamond_id s' = Some d) ∧
     (u_last_diamond_id u = None → last_diamond_id s' = last_diamond_id s) ∧
     (∀ d, u_last_design_id u = Some d → last_design_id s' = Some d) ∧
     (u_last_design_id u = None → last_design_id s' = last_design_id s)) ∧
  (∀ other, other ≠ uid → users w' !! other = users w !! other) ∧
  diamonds w' = diamonds w ∧ designs w' = designs w ∧
  listings w' = listings w ∧
  exec (update_user_session env uid no_updates) w = w.
Proof.
  intros Hup Hrow w'. subst w'. unfold exec.
  split; [|split; [|split; [|split; [|split]]]].
  - unfold update_user_session. rewrite Hup.
    destruct u as [[st|] [c|] [d|] [g|]]; cbn;
      rewrite ?lookup_alter_eq, ?Hrow; cbn;
      (eexists; split; [reflexivity|]); cbn;
      repeat split; intros; congruence.
  - intros other Hne. unfold update_user_session. rewrite Hup.
    destruct (db_updates_nonempty _); cbn; [|reflexivity].
    now rewrite lookup_alter_ne.
  - unfold update_user_session. rewrite Hup.
    destruct (db_updates_nonempty _); reflexivity.
  - unfold update_user_session. rewrite Hup.
    destruct (db_updates_nonempty _); reflexivity.
  - unfold update_user_session. rewrite Hup.
    destruct (db_updates_nonempty _); reflexivity.
  - unfold update_user_session. rewrite Hup. reflexivity.
Qed.

Lemma update_user_session_partial_merge_witness :
  let s := mkSession "listing_price" {[ "note" := JStr "kept" ]} (Some "d1") None in
  let u := mkUpdates (Some "listing_contact") None None (Some "g7") in
  let w' := exec (update_user_session demo_env "u1" u) (demo_world s) in
  store_up demo_env = true ∧
  users (demo_world s) !! "u1" = Some s ∧
  (∃ s', users w' !! "u1" = Some s' ∧
         step s' = "listing_contact" ∧ context s' = context s ∧
         last_diamond_id s' = Some "d1" ∧ last_design_id s' = Some "g7") ∧
  exec (update_user_session demo_env "u1" no_updates) (demo_world s)
    = demo_world s.
Proof.
  intros s u w'.
  destruct (update_user_session_partial_merge demo_env "u1" u (demo_world s) s
              eq_refl eq_refl)
    as [[s' [Hrow [Hst [_ [_ [Hctx [_ [Hdia [Hdes _]]]]]]]]]
        [_ [_ [_ [_ Hempty]]]]].
  split; [reflexivity|]. split; [reflexivity|]. split; [|exact Hempty].
  exists s'. split; [exact Hrow|].
  split; [exact (Hst _ eq_refl)|]. split; [exact (Hctx eq_refl)|].
  split; [exact (Hdia eq_refl)|exact (Hdes _ eq_refl)].
Defined.

(** ** The listing flow *)

Ltac run :=
  unfold exec, handle_listing_flow, send_message, send, skip, effect_,
         try_except, db_insert, raise;
  unfold mbind, M_bind, mret, M_ret; cbn.

Lemma truthy_images_nonempty (l : list string) :
  truthy (JList l) = true ↔ l ≠ [].
Proof. destruct l; cbn; split; intros; congruence. Qed.

Lemma not_grown {X} (l : list X) (x : X) : l ≠ l ++ [x].
Proof.
  intros H. apply (f_equal length) in H. rewrite length_app in H.
  cbn in H. lia.
Qed.

(** C1.  At step [listing_media] a text that lowers to "done" makes the
    handler insert a listing exactly when the images of the context are
    non-empty, and the row is then in the table exactly when the record
    store takes the insert.  With no image the warning is sent and the
    stored sessions are left as they were; with images and an accepted
    insert the new row carries the price, the contact, the images and the
    last diamond of the session, and the session goes back to [idle]
    with an empty context. *)
Theorem listing_done_commits_iff_images
    (env : environment) (from uid text : string) (sess : session) (w : world) :
  step sess = "listing_media" →
  lower text = "done" →
  let w' := exec (handle_listing_flow env from uid text sess) w in
  ((∃ r, listing_inserts w' = listing_inserts w ++ [r]) ↔
     truthy (listing_images sess) = true) ∧
  (length (listings w') = S (length (listings w)) ↔
     truthy (listing_images sess) = true ∧ ∃ id, insert env = InsertRow id) ∧
  (truthy (listing_images sess) = false →
     listings w' = listings w ∧ users w' = users w ∧
     outbox w' = outbox w ++ [Text listing_warning]) ∧
  (∀ id, truthy (listing_images sess) = true → insert env = InsertRow id →
     (∃ r, listings w' = listings w ++ [r] ∧
           r !! "id" = Some (JStr id) ∧
           r !! "price" = Some (py_get (context sess) "price") ∧
           r !! "contact_info" = Some (py_get (context sess) "contact_info") ∧
           r !! "images" = Some (listing_images sess) ∧
           r !! "diamond_id" = Some (jopt (last_diamond_id sess))) ∧
     (store_up env = true → users w !! uid = Some sess →
      users w' !! uid =
        Some (mkSession "idle" ∅ (last_diamond_id sess)
                        (last_design_id sess)))).
Proof.
  intros Hstep Hdone w'. subst w'.
  unfold listing_images.
  unfold exec, handle_listing_flow. rewrite Hstep, Hdone.
  change (("listing_media" =? "listing_price")%string) with false.
  change (("listing_media" =? "listing_contact")%string) with false.
  change (("listing_media" =? "listing_media")%string) with true.
  change (("done" =? "done")%string) with true.
  cbn [andb].
  destruct (truthy (py_get_or (context sess) "images" (JList []))) eqn:Himg;
    cbn [negb].
  - (* images were supplied *)
    run. unfold update_user_session.
    destruct (insert env) as [| |id] eqn:Hins; cbn;
      destruct (store_up env) eqn:Hup; cbn;
      (split; [split; [reflexivity|intros _];
               unfold listing_inserts; cbn; rewrite !omap_app; cbn;
               rewrite ?app_nil_r; eexists; reflexivity|]).
    all: try (split; [split; [lia|intros [_ [? ?]]; congruence]|];
              split; [congruence|]; intros ? _ ?; congruence).
    all: split; [rewrite length_app; cbn; split; [eauto|lia]|];
         (split; [congruence|]);
         intros id' _ Hid; injection Hid as <-;
         (split; [eexists; split; [reflexivity|]; repeat split; reflexivity|]).
    + intros _ Hrow. now rewrite lookup_alter_eq, Hrow.
    + congruence.
  - (* no image yet *)
    run.
    split; [split; [intros [r Hr]|congruence];
            unfold listing_inserts in Hr; cbn in Hr;
            rewrite omap_app, app_nil_r in Hr; now apply not_grown in Hr|].
    split; [split; [lia|intros [? _]; congruence]|].
    split; [|congruence].
    intros _. split; [reflexivity|]. split; [reflexivity|].
    unfold outbox. cbn. now rewrite omap_app.
Qed.

Lemma listing_done_commits_iff_images_witness :
  let sess :=
    mkSession "listing_media"
      (list_to_map [("price", JStr "5000"); ("contact_info", JStr "a@b.example");
                    ("images", JList ["https://files.example/1.jpg"])])
      (Some "d1") None in
  let w' := exec (handle_listing_flow demo_env "15550001" "u1" "Done" sess)
                 (demo_world sess) in
  step sess = "listing_media" ∧ lower "Done" = "done" ∧
  (∃ r, listing_inserts w' = listing_inserts (demo_world sess) ++ [r]) ∧
  length (listings w') = 1 ∧
  users w' !! "u1" = Some (mkSession "idle" ∅ (Some "d1") None).
Proof.
  intros sess w'.
  destruct (listing_done_commits_iff_images demo_env "15550001" "u1" "Done"
              sess (demo_world sess) eq_refl eq_refl)
    as [Hcall [Hiff [_ Hcommit]]].
  split; [reflexivity|]. split; [reflexivity|].
  split; [apply Hcall; reflexivity|]. split.
  - apply Hiff. split; [reflexivity|]. exists "row1". reflexivity.
  - apply (Hcommit "row1" eq_refl eq_refl); reflexivity.
Defined.

Lemma listing_price_run env from uid text sess w :
  step sess = "listing_price" →
  handle_listing_flow env from uid text sess w =
    let price := if String.eqb (lower text) "contact"
                 then price_sentinel else text in
    let u := mkUpdates (Some "listing_contact")
                       (Some (<["price" := JStr price]> (context sess)))
                       None None in
    (Ok tt,
     log (Sent from
            (Text "📞 Please provide contact information for buyers (phone/email):")
            (delivered env
               (Text "📞 Please provide contact information for buyers (phone/email):")))
         (snd (update_user_session env uid u w))).
Proof.
  intros Hstep. unfold handle_listing_flow. rewrite Hstep.
  change (("listing_price" =? "listing_price")%string) with true. cbn iota.
  unfold mbind, M_bind.
  pose proof (update_user_session_returns env uid
    (mkUpdates (Some "listing_contact")
       (Some (<["price" := JStr (if String.eqb (lower text) "contact"
                                 then "Contact for Price" else text)]>
                (context sess))) None None) w) as Hret.
  destruct (update_user_session env uid _ w) as [r w1]. cbn in Hret. subst r.
  reflexivity.
Qed.

Lemma listing_price_row env from uid text sess w :
  step sess = "listing_price" →
  store_up env = true →
  users w !! uid = Some sess →
  users (exec (handle_listing_flow env from uid text sess) w) !! uid =
    Some (mkSession "listing_contact"
            (<["price" := JStr (if String.eqb (lower text) "contact"
                                then price_sentinel else text)]>
               (context sess))
            (last_diamond_id sess) (last_design_id sess)).
Proof.
  intros Hstep Hup Hrow. unfold exec.
  rewrite listing_price_run by exact Hstep. cbn zeta.
  rewrite update_user_session_up by (exact Hup || reflexivity).
  cbn. rewrite lookup_alter_eq, Hrow. reflexivity.
Qed.

(** C9, as the code has it.  At step [listing_price] a text whose lowercased
    form is "contact" stores the sentinel "Contact for Price" as the price
    of the context and every other text is stored as it was typed; in
    both cases the step becomes [listing_contact] and the rest of the
    session is kept. *)
Theorem listing_price_stores_price
    (env : environment) (from uid text : string) (sess : session) (w : world) :
  step sess = "listing_price" →
  store_up env = true →
  users w !! uid = Some sess →
  let w' := exec (handle_listing_flow env from uid text sess) w in
  ∃ s', users w' !! uid = Some s' ∧
        step s' = "listing_contact" ∧
        (lower text = "contact" →
           context s' = <["price" := JStr "Contact for Price"]> (context sess)) ∧
        (lower text ≠ "contact" →
           context s' = <["price" := JStr text]> (context sess)) ∧
        last_diamond_id s' = last_diamond_id sess ∧
        last_design_id s' = last_design_id sess.
Proof.
  intros Hstep Hup Hrow w'. subst w'.
  eexists. split; [exact (listing_price_row env from uid text sess w
                            Hstep Hup Hrow)|]. cbn.
  split; [reflexivity|].
  split; [intros ->; reflexivity|].
  split; [|split; reflexivity].
  intros Hne. destruct (String.eqb_spec (lower text) "contact"); [contradiction|].
  reflexivity.
Qed.

Lemma listing_price_stores_price_witness :
  let sess := mkSession "listing_price" ∅ (Some "d1") None in
  let w' := exec (handle_listing_flow demo_env "15550001" "u1" "12,500 USD" sess)
                 (demo_world sess) in
  step sess = "listing_price" ∧ store_up demo_env = true ∧
  users (demo_world sess) !! "u1" = Some sess ∧
  ∃ s', users w' !! "u1" = Some s' ∧ step s' = "listing_contact" ∧
        context s' = {[ "price" := JStr "12,500 USD" ]}.
Proof.
  intros sess w'.
  destruct (listing_price_stores_price demo_env "15550001" "u1" "12,500 USD"
              sess (demo_world sess) eq_refl eq_refl eq_refl)
    as [s' [Hrow [Hst [_ [Hverb _]]]]].
  split; [reflexivity|]. split; [reflexivity|]. split; [reflexivity|].
  exists s'. split; [exact Hrow|]. split; [exact Hst|].
  apply Hverb. vm_compute. discriminate.
Defined.

(** C9 as stated fails: "CONTACT" is a text other than "contact", and it is
    not stored as typed. *)
Lemma listing_price_uppercase_not_verbatim :
  let sess := mkSession "listing_price" ∅ (Some "d1") None in
  let w' := exec (handle_listing_flow demo_env "15550001" "u1" "CONTACT" sess)
                 (demo_world sess) in
  "CONTACT" ≠ "contact" ∧
  (users w' !! "u1" ≫= fun s' => context s' !! "price")
    = Some (JStr "Contact for Price") ∧
  (users w' !! "u1" ≫= fun s' => context s' !! "price")
    ≠ Some (JStr "CONTACT").
Proof.
  intros sess w'. split; [discriminate|].
  assert (H : (users w' !! "u1" ≫= fun s' => context s' !! "price")
              = Some (JStr "Contact for Price")) by (vm_compute; reflexivity).
  split; [exact H|]. rewrite H. discriminate.
Qed.

Lemma listing_commit_run env from uid text sess w :
  step sess = "listing_media" → lower text = "done" →
  truthy (listing_images sess) = true →
  exec (handle_listing_flow env from uid text sess) w =
    let asked := log (InsertCall Listings (listing_data env uid sess)) w in
    let reset := mkUpdates (Some "idle") (Some ∅) None None in
    match insert env with
    | InsertRaises =>
        log (Sent from (Text listing_failed)
                  (delivered env (Text listing_failed))) asked
    | InsertNoData =>
        exec (update_user_session env uid reset)
             (log (Sent from (Text listing_created)
                       (delivered env (Text listing_created))) asked)
    | InsertRow id =>
        exec (update_user_session env uid reset)
             (log (Sent from (Text listing_created)
                       (delivered env (Text listing_created)))
                  (add_listing (<["id" := JStr id]> (listing_data env uid sess))
                               asked))
    end.
Proof.
  intros Hstep Hdone Himg. unfold listing_images in Himg.
  unfold exec, handle_listing_flow. rewrite Hstep, Hdone.
  change (("listing_media" =? "listing_price")%string) with false.
  change (("listing_media" =? "listing_contact")%string) with false.
  change (("listing_media" =? "listing_media")%string) with true.
  change (("done" =? "done")%string) with true.
  cbn [andb]. cbn iota. rewrite Himg. cbn [negb]. cbn iota.
  unfold try_except, db_insert, send_message, send, skip, effect_, raise.
  unfold mbind, M_bind, mret, M_ret. cbn [fst snd].
  destruct (insert env); unfold exec, update_user_session;
    destruct (store_up env); reflexivity.
Qed.

(** C10.  The trigger words of the listing flow are compared after
    lowering.  At [listing_price] a text that lowers to "contact" does what
    "contact" does and stores the sentinel price.  At [listing_media] a
    text that lowers to "done" does what "done" does, and that is the
    attempt to commit: with images in the context the insert of the
    listing is issued, with none the warning is sent.  Any other text at
    [listing_media] has no effect at all: nothing is sent, written or
    inserted. *)
Theorem listing_trigger_words_case_insensitive
    (env : environment) (from uid text : string) (sess : session) (w : world) :
  (step sess = "listing_price" → lower text = "contact" →
     handle_listing_flow env from uid text sess w
       = handle_listing_flow env from uid "contact" sess w ∧
     (store_up env = true → users w !! uid = Some sess →
      users (exec (handle_listing_flow env from uid text sess) w) !! uid ≫=
        (fun s' => context s' !! "price") = Some (JStr "Contact for Price"))) ∧
  (step sess = "listing_media" → lower text = "done" →
     let w' := exec (handle_listing_flow env from uid text sess) w in
     handle_listing_flow env from uid text sess w
       = handle_listing_flow env from uid "done" sess w ∧
     (truthy (listing_images sess) = true →
      listing_inserts w' = listing_inserts w ++ [listing_data env uid sess]) ∧
     (truthy (listing_images sess) = false →
      listing_inserts w' = listing_inserts w ∧
      outbox w' = outbox w ++ [Text listing_warning])) ∧
  (step sess = "listing_media" → lower text ≠ "done" →
     handle_listing_flow env from uid text sess w = (Ok tt, w)).
Proof.
  split; [|split].
  - intros Hstep Hlow. split.
    + rewrite !listing_price_run by exact Hstep. cbn zeta. now rewrite Hlow.
    + intros Hup Hrow.
      rewrite (listing_price_row env from uid text sess w Hstep Hup Hrow).
      cbn. rewrite Hlow. apply lookup_insert_eq.
  - intros Hstep Hlow w'. subst w'. split; [|split].
    + unfold handle_listing_flow. rewrite Hstep, Hlow. reflexivity.
    + intros Himg.
      rewrite (listing_commit_run env from uid text sess w Hstep Hlow Himg).
      cbn zeta.
      destruct (insert env); unfold exec, update_user_session;
        destruct (store_up env); unfold listing_inserts; cbn;
        rewrite !omap_app; cbn; now rewrite ?app_nil_r.
    + intros Himg. unfold listing_images in Himg.
      unfold exec, handle_listing_flow. rewrite Hstep, Hlow.
      change (("listing_media" =? "listing_price")%string) with false.
      change (("listing_media" =? "listing_contact")%string) with false.
      change (("listing_media" =? "listing_media")%string) with true.
      change (("done" =? "done")%string) with true.
      cbn [andb]. cbn iota. rewrite Himg. cbn [negb]. cbn iota.
      unfold send_message, send, skip. unfold mbind, M_bind, mret, M_ret.
      cbn [fst snd]. split; [|unfold outbox, log; cbn; now rewrite omap_app].
      unfold listing_inserts. cbn. rewrite omap_app. cbn. apply app_nil_r.
  - intros Hstep Hlow. unfold handle_listing_flow. rewrite Hstep.
    change (("listing_media" =? "listing_price")%string) with false.
    change (("listing_media" =? "listing_contact")%string) with false.
    destruct (String.eqb_spec (lower text) "done"); [contradiction|].
    rewrite andb_false_r. reflexivity.
Qed.

Lemma listing_trigger_words_case_insensitive_witness :
  let sess :=
    mkSession "listing_media"
      (list_to_map [("price", JStr "5000");
                    ("images", JList ["https://files.example/1.jpg"])])
      (Some "d1") None in
  let bare := mkSession "listing_media" ∅ (Some "d1") None in
  step sess = "listing_media" ∧ lower "Done" = "done" ∧
  lower "done?" ≠ "done" ∧
  listing_inserts
    (exec (handle_listing_flow demo_env "15550001" "u1" "Done" sess)
          (demo_world sess))
    = [listing_data demo_env "u1" sess] ∧
  outbox
    (exec (handle_listing_flow demo_env "15550001" "u1" "Done" bare)
          (demo_world bare))
    = [Text listing_warning] ∧
  handle_listing_flow demo_env "15550001" "u1" "done?" sess (demo_world sess)
    = (Ok tt, demo_world sess).
Proof.
  intros sess bare.
  destruct (listing_trigger_words_case_insensitive demo_env "15550001" "u1"
              "Done" sess (demo_world sess)) as [_ [Hdone _]].
  destruct (listing_trigger_words_case_insensitive demo_env "15550001" "u1"
              "Done" bare (demo_world bare)) as [_ [Hbare _]].
  destruct (listing_trigger_words_case_insensitive demo_env "15550001" "u1"
              "done?" sess (demo_world sess)) as [_ [_ Hother]].
  split; [reflexivity|]. split; [reflexivity|].
  assert (Hne : lower "done?" ≠ "done") by (vm_compute; discriminate).
  split; [exact Hne|].
  split; [exact (proj1 (proj2 (Hdone eq_refl eq_refl)) eq_refl)|].
  split; [exact (proj2 (proj2 (proj2 (Hbare eq_refl eq_refl)) eq_refl))|].
  exact (Hother eq_refl Hne).
Defined.

(** ** Routing of text messages *)

Lemma known_user_kept env from w uid s :
  user env = Some uid →
  users w !! uid = Some s →
  get_or_create_user env from w = (Ok (Some uid), w).
Proof.
  intros Hu Hrow. unfold get_or_create_user. rewrite Hu.
  unfold mbind, M_bind, effect_, mret, M_ret, with_users. cbn.
  rewrite Hrow. now destruct w.
Qed.

Lemma outbox_log_sent w to m d :
  outbox (log (Sent to m d) w) = outbox w ++ [m].
Proof. unfold outbox, log. cbn. now rewrite omap_app. Qed.

Lemma outbox_log_saved w u d t c :
  outbox (log (Saved u d t c) w) = outbox w.
Proof. unfold outbox, log. cbn. rewrite omap_app. cbn. apply app_nil_r. Qed.

Lemma outbox_log_classified w t :
  outbox (log (Classified t) w) = outbox w.
Proof. unfold outbox, log. cbn. rewrite omap_app. cbn. apply app_nil_r. Qed.

Lemma handle_text_message_known env from text w uid s :
  user env = Some uid →
  users w !! uid = Some s →
  handle_text_message env from text w =
    route_intent env from uid text (loaded_session env uid w)
      (classify env text (loaded_session env uid w))
      (received env uid text w).
Proof.
  intros Hu Hrow. unfold handle_text_message.
  unfold mbind at 1. unfold M_bind at 1.
  rewrite (known_user_kept env from w uid s Hu Hrow).
  unfold get_user_session, save_message_to_db, detect, received.
  destruct (audit_up env); reflexivity.
Qed.

Lemma users_received env uid text w :
  users (received env uid text w) = users w.
Proof. unfold received. now destruct (audit_up env). Qed.

Lemma outbox_received env uid text w :
  outbox (received env uid text w) = outbox w.
Proof.
  unfold received. rewrite outbox_log_classified.
  destruct (audit_up env); [apply outbox_log_saved|reflexivity].
Qed.

(** C6.  When the stored session has no last diamond, a text classified
    as [design_with_gia] is answered with the fixed instruction and nothing
    else: no table changes, no design is generated and no session is
    written. *)
Theorem design_with_gia_without_diamond
    (env : environment) (from text uid : string) (w : world) (s : session) :
  user env = Some uid →
  users w !! uid = Some s →
  last_diamond_id s = None →
  classify env text (loaded_session env uid w) = Some "design_with_gia" →
  let w' := exec (handle_text_message env from text) w in
  outbox w' = outbox w ++ [Text prerequisite_missing] ∧
  users w' = users w ∧
  designs w' = designs w ∧ diamonds w' = diamonds w ∧
  listings w' = listings w ∧
  (∀ u upd, SessionWrite u upd ∈ trace w' → SessionWrite u upd ∈ trace w).
Proof.
  intros Hu Hrow Hnone Hint w'. subst w'. unfold exec.
  rewrite (handle_text_message_known env from text w uid s Hu Hrow).
  assert (Hload : last_diamond_id (loaded_session env uid w) = None).
  { unfold loaded_session. destruct (store_up env); [|reflexivity].
    now rewrite Hrow. }
  unfold route_intent. rewrite Hint, Hload.
  change (is_str (Some "design_with_gia") "search") with false.
  change (is_str (Some "design_with_gia") "design_free_input") with false.
  change (is_str (Some "design_with_gia") "design_with_gia") with true.
  cbn iota. cbn [truthy_id].
  unfold send_message, send, skip, mbind, M_bind, mret, M_ret. cbn [snd].
  rewrite outbox_log_sent, outbox_received.
  split; [reflexivity|].
  split; [apply users_received|].
  unfold received.
  destruct (audit_up env); cbn; repeat (split; [reflexivity|]);
    intros u upd Hin;
    repeat (apply elem_of_app in Hin as [Hin|Hin];
            [|apply list_elem_of_singleton in Hin; discriminate]);
    exact Hin.
Qed.

Lemma design_with_gia_without_diamond_witness :
  let s := mkSession "idle" ∅ None (Some "g1") in
  let env := remote_env "design_with_gia" in
  let w' := exec (handle_text_message env "15550001" "a ring with my stone")
                 (demo_world s) in
  user env = Some "u1" ∧ users (demo_world s) !! "u1" = Some s ∧
  last_diamond_id s = None ∧
  outbox w' = [Text prerequisite_missing] ∧
  users w' = users (demo_world s).
Proof.
  intros s env w'.
  destruct (design_with_gia_without_diamond env "15550001"
              "a ring with my stone" "u1" (demo_world s) s
              eq_refl eq_refl eq_refl eq_refl) as [Hout [Hus _]].
  split; [reflexivity|]. split; [reflexivity|]. split; [reflexivity|].
  split; [exact Hout|exact Hus].
Defined.

(** C2 fails on the code.  [handle_text_message] never looks at the step
    of the session: at step [listing_price] the text "show me oval
    diamonds" is classified as [search] and answered by the search
    handler, and the price "5000" the flow has just asked for is
    classified as [general_inquiry]; in both cases the listing flow is
    not entered, nothing is stored and the step stays [listing_price],
    whereas the listing handler would have stored the text as the price
    and moved on to [listing_contact]. *)
Theorem open_listing_step_does_not_override_intent :
  let sess := mkSession "listing_price" ∅ (Some "d1") None in
  let w := demo_world sess in
  let shown := exec (handle_message demo_env "15550001"
                       (InText "show me oval diamonds")) w in
  let priced := exec (handle_message demo_env "15550001" (InText "5000")) w in
  placeholder_detection "show me oval diamonds" sess = "search" ∧
  outbox shown =
    [Text "🔍 Searching for diamonds...";
     Text "😔 No diamonds found matching your criteria. Try adjusting your search."] ∧
  users shown !! "u1" = Some sess ∧
  placeholder_detection "5000" sess = "general_inquiry" ∧
  users priced !! "u1" = Some sess ∧
  users (exec (handle_listing_flow demo_env "15550001" "u1"
                 "show me oval diamonds" sess) w) !! "u1" =
    Some (mkSession "listing_contact"
            {[ "price" := JStr "show me oval diamonds" ]} (Some "d1") None).
Proof. vm_compute. repeat split; reflexivity. Qed.

(** C8 fails on the code.  Only the two menus are written to the audit
    log after they are sent; [send_message] writes nothing.  At step
    [listing_price] the text "contact" is saved on receipt, before the
    classifier is called, but the prompt sent in answer is never saved;
    and an incoming image is not saved at all. *)
Theorem plain_messages_are_not_audited :
  let priced := mkSession "listing_price" ∅ (Some "d1") None in
  let w1 := exec (handle_message demo_env "15550001" (InText "contact"))
                 (demo_world priced) in
  let media := mkSession "listing_media" ∅ (Some "d1") None in
  let w2 := exec (handle_message demo_env "15550001" (InImage "m1"))
                 (demo_world media) in
  (∃ write,
     trace w1 =
       [Saved "u1" "incoming" "text" "contact";
        Classified "contact";
        write;
        Sent "15550001"
          (Text "📞 Please provide contact information for buyers (phone/email):")
          true]) ∧
  audit_log w1 = [("u1", "incoming", "text", "contact")] ∧
  outbox w2 =
    [Text "🖼️ Processing your image...";
     Text "✅ Image 1 added! Send more images or type 'done' to complete the listing."] ∧
  audit_log w2 = [].
Proof.
  vm_compute. split; [eexists; reflexivity|]. repeat split; reflexivity.
Qed.

(** ** Certificate ingestion *)

Lemma extract_from_image_success env url :
  success (extract_from_image env url) = true ↔
  ∃ raw, vision env = inl raw ∧ truthy (py_get raw "report_number") = true.
Proof.
  unfold extract_from_image. destruct (vision env) as [raw|e]; cbn.
  - destruct (truthy (py_get raw "report_number")) eqn:Ht; cbn; split;
      try congruence; eauto.
    intros [raw' [Heq Ht']]. congruence.
  - split; [congruence|]. intros [raw' [Heq _]]. congruence.
Qed.

Lemma extract_from_image_rejects env url :
  lacks_report_number env →
  ∃ dat reason, extract_from_image env url = mkGia false dat (Some reason).
Proof.
  unfold lacks_report_number, extract_from_image.
  destruct (vision env) as [raw|e]; [|eauto].
  intros ->. eauto.
Qed.

Lemma extract_from_pdf_rejects env url :
  lacks_report_number env →
  ∃ dat reason, extract_from_pdf env url = mkGia false dat (Some reason).
Proof.
  intros Hlack. unfold extract_from_pdf.
  destruct (pdf_image env); [now apply extract_from_image_rejects|eauto].
Qed.

Ltac step_monad :=
  unfold send_message, send, skip, effect_, raise, try_except,
         download_whatsapp_media, upload_to_supabase, get_user_session,
         save_message_to_db;
  unfold mbind, M_bind, mret, M_ret; cbn.

(** C4.  Extraction succeeds exactly when the answer of the vision model
    has a report number.  When it has none, whatever else it holds, a
    document or an image sent for ingestion adds no row to [diamonds], and
    once the file has been fetched and stored the last message sent is the
    rejection. *)
Theorem ingestion_needs_report_number
    (env : environment) (from : string) (w : world) :
  (∀ url, success (extract_from_image env url) = true ↔
          ∃ raw, vision env = inl raw ∧
                 truthy (py_get raw "report_number") = true) ∧
  (lacks_report_number env →
   (∀ media_id filename mime_type,
      let w' := exec (handle_message env from
                        (InDocument media_id filename mime_type)) w in
      diamonds w' = diamonds w ∧
      (∀ uid up, user env = Some uid → media env = true →
                 usable_url (upload env) = Some up →
         ∃ reason,
           outbox w' = outbox w ++
             [Text "📄 Processing your document...";
              Text "🔍 Extracting diamond information...";
              Text (document_rejection reason)])) ∧
   (∀ media_id,
      let w' := exec (handle_message env from (InImage media_id)) w in
      diamonds w' = diamonds w ∧
      (∀ uid up, user env = Some uid → media env = true →
                 usable_url (upload env) = Some up →
                 step (loaded_session env uid
                         (exec (get_or_create_user env from) w))
                   ≠ "listing_media" →
         outbox w' = outbox w ++
           [Text "🖼️ Processing your image...";
            Text "🔍 Analyzing image...";
            Text image_rejection]))).
Proof.
  split; [intros url; apply extract_from_image_success|].
  intros Hlack. split.
  - intros media_id filename mime_type w'. subst w'.
    unfold exec, handle_message, handle_document_message, get_or_create_user.
    destruct (user env) as [uid|] eqn:Hu; step_monad;
      [|split; [reflexivity|intros; congruence]].
    destruct (media env) eqn:Hm; cbn;
      [|split; [reflexivity|intros; congruence]].
    destruct (usable_url (upload env)) as [[upload_id file_url]|] eqn:Hup;
      cbn; [|split; [reflexivity|intros; congruence]].
    destruct (extract_from_pdf_rejects env file_url Hlack)
      as [dat [reason Hex]].
    rewrite Hex. cbn.
    split; [reflexivity|].
    intros uid' up' _ _ _. exists reason.
    unfold outbox. cbn. rewrite !omap_app. cbn.
    now rewrite <- !app_assoc.
  - intros media_id w'. subst w'.
    unfold exec, handle_message, handle_image_message, get_or_create_user.
    destruct (user env) as [uid|] eqn:Hu; step_monad;
      [|split; [reflexivity|intros; congruence]].
    destruct (media env) eqn:Hm; cbn;
      [|split; [reflexivity|intros; congruence]].
    match goal with
    | |- context [String.eqb (step ?s) "listing_media"] =>
        destruct (String.eqb_spec (step s) "listing_media") as [Heq|Hne]
    end.
    + (* the image belongs to an open listing *)
      destruct (usable_url (upload env)) as [[upload_id file_url]|] eqn:Hup;
        cbn; [|split; [reflexivity|intros; congruence]].
      match goal with
      | |- context [images_to_extend ?c] => destruct (images_to_extend c)
      end; cbn.
      * unfold update_user_session. destruct (store_up env); cbn;
          (split; [reflexivity|]); intros uid' up' Hu' _ _ Hstep;
          exfalso; apply Hstep; injection Hu' as <-; exact Heq.
      * split; [reflexivity|]. intros uid' up' Hu' _ _ Hstep.
        exfalso; apply Hstep; injection Hu' as <-; exact Heq.
    + destruct (usable_url (upload env)) as [[upload_id file_url]|] eqn:Hup;
        cbn; [|split; [reflexivity|intros; congruence]].
      destruct (extract_from_image_rejects env file_url Hlack)
        as [dat [reason Hex]].
      rewrite Hex. cbn.
      split; [reflexivity|]. intros _ _ _ _ _ _.
      unfold outbox. cbn. rewrite !omap_app. cbn.
      now rewrite <- !app_assoc.
Qed.

Lemma ingestion_needs_report_number_witness :
  let w := demo_world default_session in
  let w' := exec (handle_message unnumbered_env "15550001"
                    (InDocument "m1" "gia.pdf" "application/pdf")) w in
  lacks_report_number unnumbered_env ∧
  py_get (delete "report_number" placeholder_extraction) "shape"
    = JStr "Round Brilliant" ∧
  diamonds w' = [] ∧
  ∃ reason,
    outbox w' =
      [Text "📄 Processing your document...";
       Text "🔍 Extracting diamond information...";
       Text (document_rejection reason)].
Proof.
  intros w w'.
  assert (Hlack : lacks_report_number unnumbered_env).
  { vm_compute. reflexivity. }
  destruct (ingestion_needs_report_number unnumbered_env "15550001" w)
    as [_ Hreject].
  destruct (Hreject Hlack) as [Hdoc _].
  destruct (Hdoc "m1" "gia.pdf" "application/pdf") as [Hdia Hout].
  split; [exact Hlack|]. split; [vm_compute; reflexivity|].
  split; [exact Hdia|].
  exact (Hout "u1" ("up1", "https://files.example/1.jpg")
              eq_refl eq_refl eq_refl).
Defined.

(** ** Design lineage *)

Ltac run_design :=
  unfold db_fetch, db_insert, remember_design, update_user_session,
         send_image, send_message, send, skip, effect_, raise, try_except,
         get_user_session;
  unfold mbind, M_bind, mret, M_ret; cbn.

(** C5.  When the last design of the session has the generated prompt [P],
    the generator succeeds and the store returns the new row, an edit and a
    variation each append one design whose [previous_prompt] is [P], and
    the session's last design becomes the id of that new row. *)
Theorem edit_and_variation_keep_lineage
    (env : environment) (from uid text : string) (w : world) (s : session)
    (d P new_id image_url prompt : string) (previous : dict) :
  store_up env = true →
  users w !! uid = Some s →
  last_design_id s = Some d → d ≠ "" →
  fetch_raises env = false →
  find_by_id d (designs w) = Some previous →
  previous !! "generated_prompt" = Some (JStr P) →
  generator env = Generated image_url prompt →
  insert env = InsertRow new_id →
  (let w' := exec (handle_design_edit env from uid text) w in
   ∃ r s', designs w' = designs w ++ [r] ∧
           r !! "previous_prompt" = Some (JStr P) ∧
           r !! "id" = Some (JStr new_id) ∧
           r !! "type" = Some (JStr "edit") ∧
           users w' !! uid = Some s' ∧ last_design_id s' = Some new_id) ∧
  (let w' := exec (handle_design_variation env from uid) w in
   ∃ r s', designs w' = designs w ++ [r] ∧
           r !! "previous_prompt" = Some (JStr P) ∧
           r !! "id" = Some (JStr new_id) ∧
           r !! "type" = Some (JStr "variation") ∧
           users w' !! uid = Some s' ∧ last_design_id s' = Some new_id).
Proof.
  intros Hup Hrow Hlast Hd Hfetch Hfind Hprompt Hgen Hins.
  assert (Htruthy : truthy_id (last_design_id s) = true).
  { rewrite Hlast. cbn. destruct (String.eqb_spec d ""); [contradiction|].
    reflexivity. }
  assert (Hload : loaded_session env uid w = s).
  { unfold loaded_session. now rewrite Hup, Hrow. }
  assert (Hpy : py_get previous "generated_prompt" = JStr P).
  { unfold py_get. now rewrite Hprompt. }
  split; intros w'; subst w'.
  - unfold exec, handle_design_edit. run_design.
    rewrite Hload, Htruthy, Hlast, Hfetch, Hup. cbn.
    rewrite Hfind. cbn. rewrite Hgen, Hins. cbn.
    rewrite lookup_alter_eq, Hrow. cbn.
    eexists. eexists. split; [reflexivity|].
    rewrite Hpy. repeat split; reflexivity.
  - unfold exec, handle_design_variation. run_design.
    rewrite Hload, Htruthy, Hlast, Hfetch, Hup. cbn.
    rewrite Hfind. cbn. rewrite Hgen, Hins. cbn.
    rewrite lookup_alter_eq, Hrow. cbn.
    eexists. eexists. split; [reflexivity|].
    rewrite Hpy. repeat split; reflexivity.
Qed.

Lemma edit_and_variation_keep_lineage_witness :
  let s := mkSession "idle" ∅ None (Some "g1") in
  let w := mkWorld {[ "u1" := s ]} [] [demo_design] [] [] in
  let w' := exec (handle_design_edit (remote_env "design_edit") "15550001"
                    "u1" "make it gold") w in
  users w !! "u1" = Some s ∧
  find_by_id "g1" (designs w) = Some demo_design ∧
  demo_design !! "generated_prompt" = Some (JStr "a ring") ∧
  ∃ r s', designs w' = [demo_design; r] ∧
          r !! "previous_prompt" = Some (JStr "a ring") ∧
          users w' !! "u1" = Some s' ∧ last_design_id s' = Some "row1".
Proof.
  intros s w w'.
  assert (Hne : "g1" ≠ "") by discriminate.
  destruct (edit_and_variation_keep_lineage (remote_env "design_edit")
              "15550001" "u1" "make it gold" w s "g1" "a ring" "row1"
              "https://img.example/1.png" "a ring, restyled" demo_design
              eq_refl eq_refl eq_refl Hne eq_refl eq_refl eq_refl
              eq_refl eq_refl)
    as [[r [s' [Hd [Hp [_ [_ [Hrow Hlast]]]]]]] _].
  split; [reflexivity|]. split; [reflexivity|]. split; [reflexivity|].
  exists r, s'. split; [exact Hd|]. split; [exact Hp|].
  split; [exact Hrow|exact Hlast].
Defined.

(** ** Movement of the step *)

Lemma moved_refl allowed us : moved allowed us us.
Proof. intros uid s H. eauto. Qed.

Lemma moved_weaken (a1 a2 : string → string → Prop) us us' :
  (∀ x y, a1 x y → a2 x y) → moved a1 us us' → moved a2 us us'.
Proof.
  intros Himp Hm uid s H. destruct (Hm uid s H) as [s' [H1 [H2|H2]]]; eauto.
Qed.

Lemma moved_after_kept allowed us1 us2 us3 :
  moved never us1 us2 → moved allowed us2 us3 → moved allowed us1 us3.
Proof.
  intros H12 H23 uid s H.
  destruct (H12 uid s H) as [s2 [H2 [E2|[]]]].
  destruct (H23 uid s2 H2) as [s3 [H3 E3]].
  exists s3. split; [exact H3|]. now rewrite <- E2.
Qed.

Lemma moved_then_kept allowed us1 us2 us3 :
  moved allowed us1 us2 → moved never us2 us3 → moved allowed us1 us3.
Proof.
  intros H12 H23 uid s H.
  destruct (H12 uid s H) as [s2 [H2 E2]].
  destruct (H23 uid s2 H2) as [s3 [H3 [E3|[]]]].
  exists s3. split; [exact H3|]. now rewrite E3.
Qed.

Lemma moves_weaken {A} (a1 a2 : string → string → Prop) (m : M A) :
  (∀ x y, a1 x y → a2 x y) → moves a1 m → moves a2 m.
Proof. intros Himp Hm w. eapply moved_weaken; eauto. Qed.

Lemma keeps_moves {A} allowed (m : M A) : keeps m → moves allowed m.
Proof. apply moves_weaken. intros x y []. Qed.

Section Composition.

Context {A B : Type}.

Lemma keeps_ret (a : A) : keeps (mret a).
Proof. intros w. apply moved_refl. Qed.

Lemma keeps_raise : keeps (@raise A).
Proof. intros w. apply moved_refl. Qed.

(** Steps are kept, then moved. *)
Lemma moves_bind_l allowed (m : M A) (f : A → M B) :
  keeps m → (∀ a, moves allowed (f a)) → moves allowed (m ≫= f).
Proof.
  intros Hm Hf w. unfold mbind, M_bind.
  specialize (Hm w). destruct (m w) as [[a|] w1]; cbn in *.
  - eapply moved_after_kept; [exact Hm|apply Hf].
  - eapply moved_weaken; [|exact Hm]. intros x y [].
Qed.

(** Steps are moved, then kept. *)
Lemma moves_bind_r allowed (m : M A) (f : A → M B) :
  moves allowed m → (∀ a, keeps (f a)) → moves allowed (m ≫= f).
Proof.
  intros Hm Hf w. unfold mbind, M_bind.
  specialize (Hm w). destruct (m w) as [[a|] w1]; cbn in *.
  - eapply moved_then_kept; [exact Hm|apply Hf].
  - exact Hm.
Qed.

Lemma moves_try allowed (body handler : M A) :
  moves allowed body → keeps handler → moves allowed (try_except body handler).
Proof.
  intros Hb Hh w. unfold try_except.
  specialize (Hb w). destruct (body w) as [[a|] w1]; cbn in *.
  - exact Hb.
  - eapply moved_then_kept; [exact Hb|apply Hh].
Qed.

End Composition.

Lemma keeps_users_fixed {A} (m : M A) :
  (∀ w, users (snd (m w)) = users w) → keeps m.
Proof. intros H w. rewrite H. apply moved_refl. Qed.

Section Primitives.

Variable env : environment.

Lemma keeps_send to m : keeps (send env to m).
Proof. now apply keeps_users_fixed. Qed.

Lemma keeps_send_message to text : keeps (send_message env to text).
Proof. apply keeps_send. Qed.

Lemma keeps_send_image to url caption : keeps (send_image env to url caption).
Proof. apply keeps_send. Qed.

Lemma keeps_send_buttons to body buttons :
  keeps (send_interactive_buttons env to body buttons).
Proof. apply keeps_send. Qed.

Lemma keeps_save uid d t c : keeps (save_message_to_db env uid d t c).
Proof.
  apply keeps_users_fixed. intros w. unfold save_message_to_db.
  now destruct (audit_up env).
Qed.

Lemma keeps_detect text sess : keeps (detect env text sess).
Proof. now apply keeps_users_fixed. Qed.

Lemma keeps_get_user_session uid : keeps (get_user_session env uid).
Proof. now apply keeps_users_fixed. Qed.

Lemma keeps_download media_id : keeps (download_whatsapp_media env media_id).
Proof. now apply keeps_users_fixed. Qed.

Lemma keeps_upload uid name type : keeps (upload_to_supabase env uid name type).
Proof. now apply keeps_users_fixed. Qed.

Lemma keeps_db_fetch table id : keeps (db_fetch env table id).
Proof.
  apply keeps_users_fixed. intros w. unfold db_fetch.
  now destruct (fetch_raises env).
Qed.

Lemma keeps_db_insert t record : keeps (db_insert env t record).
Proof.
  apply keeps_users_fixed. intros w. unfold db_insert.
  unfold mbind, M_bind, effect_. cbn.
  destruct (insert env); try reflexivity. now destruct t.
Qed.

Lemma keeps_get_or_create_user from : keeps (get_or_create_user env from).
Proof.
  intros w uid s Hrow. unfold get_or_create_user.
  destruct (user env) as [u|];
    unfold mbind, M_bind, effect_, mret, M_ret, with_users; cbn; [|eauto].
  destruct (users w !! u) eqn:Hu; [eauto|].
  destruct (decide (u = uid)) as [Heq|Hne].
  - subst u. rewrite Hrow in Hu. discriminate.
  - rewrite lookup_insert_ne by exact Hne. eauto.
Qed.

(** A write moves a step to the step of the update, if it has one. *)
Lemma moves_update_user_session uid u :
  moves (fun _ b => u_step u = Some b) (update_user_session env uid u).
Proof.
  intros w uid' s Hrow. unfold update_user_session.
  destruct (store_up env); cbn; [|eauto].
  destruct (db_updates_nonempty _); cbn; [|eauto].
  destruct (decide (uid = uid')) as [->|Hne].
  - rewrite lookup_alter_eq, Hrow. cbn. eexists. split; [reflexivity|].
    cbn. destruct (u_step u); cbn; eauto.
  - rewrite lookup_alter_ne by exact Hne. eauto.
Qed.

Lemma keeps_update_user_session uid u :
  u_step u = None → keeps (update_user_session env uid u).
Proof.
  intros Hnone. eapply moves_weaken; [|apply moves_update_user_session].
  cbn. intros x y H. congruence.
Qed.

Lemma keeps_remember_design uid design_id :
  keeps (remember_design env uid design_id).
Proof.
  destruct design_id; cbn; [now apply keeps_update_user_session|].
  apply keeps_ret.
Qed.

Lemma keeps_for_each {X} (body : X → M unit) xs :
  (∀ x, keeps (body x)) → keeps (for_each body xs).
Proof.
  intros Hb. induction xs as [|x xs IH]; cbn.
  - apply keeps_ret.
  - apply moves_bind_l; [apply Hb|intros _; exact IH].
Qed.

End Primitives.

Create HintDb keeps.

#[local] Hint Resolve keeps_ret keeps_raise keeps_send keeps_send_message
  keeps_send_image keeps_send_buttons keeps_save keeps_detect
  keeps_get_user_session keeps_download keeps_upload keeps_db_fetch
  keeps_get_or_create_user keeps_remember_design : keeps.

(** Walks down a handler that writes no step. *)
Ltac keeps_walk :=
  repeat first
    [ progress (lazy zeta)
    | solve [auto with keeps]
    | apply keeps_db_insert
    | apply keeps_update_user_session; reflexivity
    | apply moves_bind_l; [|intros ?]
    | apply moves_try
    | apply keeps_for_each; intros ?
    | match goal with
      | |- moves _ (if ?b then _ else _) => destruct b
      | |- moves _ (match ?x with _ => _ end) => destruct x
      | |- moves _ skip => apply keeps_ret
      end ].

Section HandlersKeep.

Variable env : environment.

Lemma keeps_send_design_buttons from body design_id :
  keeps (send_design_buttons env from body design_id).
Proof. unfold send_design_buttons. keeps_walk. Qed.

Lemma keeps_generic_error from : keeps (generic_error env from).
Proof. unfold generic_error. keeps_walk. Qed.

Hint Resolve keeps_send_design_buttons keeps_generic_error : keeps.

Lemma keeps_send_raw_message to m : keeps (send_raw_message env to m).
Proof. unfold send_raw_message. keeps_walk. Qed.

Lemma keeps_send_main_menu to uid : keeps (send_main_menu env to uid).
Proof.
  unfold send_main_menu. lazy zeta.
  apply moves_bind_l; [apply keeps_send_raw_message|intros _].
  apply keeps_save.
Qed.

Lemma keeps_send_gia_menu to uid d : keeps (send_gia_menu env to uid d).
Proof. unfold send_gia_menu. keeps_walk. Qed.

Lemma keeps_handle_auto_design from uid :
  keeps (handle_auto_design env from uid).
Proof. unfold handle_auto_design. keeps_walk. Qed.

Lemma keeps_handle_free_design from uid text :
  keeps (handle_free_design env from uid text).
Proof. unfold handle_free_design. keeps_walk. Qed.

Lemma keeps_handle_gia_custom_design from uid text :
  keeps (handle_gia_custom_design env from uid text).
Proof. unfold handle_gia_custom_design. keeps_walk. Qed.

Lemma keeps_handle_design_edit from uid text :
  keeps (handle_design_edit env from uid text).
Proof. unfold handle_design_edit. keeps_walk. Qed.

Lemma keeps_handle_design_variation from uid :
  keeps (handle_design_variation env from uid).
Proof. unfold handle_design_variation. keeps_walk. Qed.

Lemma keeps_handle_360_view from uid design_id :
  keeps (handle_360_view env from uid design_id).
Proof. unfold handle_360_view. keeps_walk. Qed.

Lemma keeps_handle_improve_diamond from uid :
  keeps (handle_improve_diamond env from uid).
Proof. unfold handle_improve_diamond. keeps_walk. Qed.

Lemma keeps_send_search_result from listing :
  keeps (send_search_result env from listing).
Proof. unfold send_search_result. keeps_walk. Qed.

Lemma keeps_handle_search_query from uid query :
  keeps (handle_search_query env from uid query).
Proof.
  unfold handle_search_query.
  apply moves_bind_l; [apply keeps_send_message|intros _].
  destruct (search env) as [found|e]; [|keeps_walk].
  destruct found as [|l found]; [keeps_walk|].
  apply moves_bind_l.
  - apply keeps_for_each. intros x. apply keeps_send_search_result.
  - intros _. keeps_walk.
Qed.

Lemma keeps_handle_view_more_results from uid :
  keeps (handle_view_more_results env from uid).
Proof. unfold handle_view_more_results. keeps_walk. Qed.

Lemma keeps_handle_general_inquiry from uid text :
  keeps (handle_general_inquiry env from uid text).
Proof. unfold handle_general_inquiry. keeps_walk. Qed.

End HandlersKeep.

Lemma moved_alter allowed uid (f : session → session) us :
  (∀ s, us !! uid = Some s →
        step (f s) = step s ∨ allowed (step s) (step (f s))) →
  moved allowed us (alter f uid us).
Proof.
  intros Hf uid' s Hrow. destruct (decide (uid = uid')) as [->|Hne].
  - rewrite lookup_alter_eq, Hrow. cbn. eauto.
  - rewrite lookup_alter_ne by exact Hne. eauto.
Qed.

Lemma loaded_session_row env uid w0 us s :
  store_up env = true → users w0 = us → us !! uid = Some s →
  loaded_session env uid w0 = s.
Proof.
  intros Hup <- Hrow. unfold loaded_session. now rewrite Hup, Hrow.
Qed.

Lemma not_backward_price_contact : not_backward "listing_price" "listing_contact".
Proof. exists 2, 3. repeat split; lia. Qed.

Lemma not_backward_contact_media : not_backward "listing_contact" "listing_media".
Proof. exists 3, 4. repeat split; lia. Qed.

Lemma flow_move_from env w0 w1 w' a b :
  listing_inserts w1 = listing_inserts w0 →
  flow_move env w1 w' a b → flow_move env w0 w' a b.
Proof.
  intros Hsame [H|(Ha & Hb & Hraise & data & Hd)]; [now left|].
  right. repeat split; try assumption. exists data. now rewrite <- Hsame.
Qed.

Lemma flow_move_to env w w1 w' a b :
  listing_inserts w' = listing_inserts w1 →
  flow_move env w w1 a b → flow_move env w w' a b.
Proof.
  intros Hsame [H|(Ha & Hb & Hraise & data & Hd)]; [now left|].
  right. repeat split; try assumption. exists data. now rewrite Hsame.
Qed.

Lemma listing_inserts_log e w :
  (∀ r, e ≠ InsertCall Listings r) →
  listing_inserts (log e w) = listing_inserts w.
Proof.
  intros He. unfold listing_inserts, log. cbn. rewrite omap_app. cbn.
  destruct e as [| | | |[] r]; try apply app_nil_r.
  now destruct (He r).
Qed.

(** The listing flow, entered with the session that was loaded when the
    message arrived, only moves forward, or from [listing_media] back to
    [idle] when it has committed the listing. *)
Lemma moved_listing_flow env from uid text w0 w :
  users w = users w0 →
  moved (flow_move env w
           (snd (handle_listing_flow env from uid text
                   (loaded_session env uid w0) w)))
    (users w)
    (users (snd (handle_listing_flow env from uid text
                   (loaded_session env uid w0) w))).
Proof.
  intros Hsame. unfold handle_listing_flow.
  set (sess := loaded_session env uid w0).
  assert (Hsess : ∀ s, store_up env = true → users w !! uid = Some s →
                       step s = step sess).
  { intros s Hup Hrow. unfold sess.
    now rewrite (loaded_session_row env uid w0 (users w) s Hup
                   (eq_sym Hsame) Hrow). }
  destruct (String.eqb_spec (step sess) "listing_price") as [Hprice|_].
  { run. unfold update_user_session.
    destruct (store_up env) eqn:Hup; cbn; [|apply moved_refl].
    apply moved_alter. intros s Hrow. cbn. right. left.
    rewrite (Hsess s eq_refl Hrow), Hprice.
    apply not_backward_price_contact. }
  destruct (String.eqb_spec (step sess) "listing_contact") as [Hcontact|_].
  { run. unfold update_user_session.
    destruct (store_up env) eqn:Hup; cbn; [|apply moved_refl].
    apply moved_alter. intros s Hrow. cbn. right. left.
    rewrite (Hsess s eq_refl Hrow), Hcontact.
    apply not_backward_contact_media. }
  destruct (String.eqb_spec (step sess) "listing_media") as [Hmedia|_];
    cbn [andb]; [|apply moved_refl].
  destruct (String.eqb (lower text) "done"); [|apply moved_refl].
  destruct (truthy (py_get_or (context sess) "images" (JList [])));
    cbn [negb]; [|apply moved_refl].
  run. unfold update_user_session.
  destruct (insert env) eqn:Hins; cbn; try apply moved_refl;
    destruct (store_up env) eqn:Hup; cbn; try apply moved_refl;
    apply moved_alter; intros s Hrow; cbn; right; right;
    (split; [rewrite (Hsess s eq_refl Hrow); exact Hmedia|]);
    (split; [reflexivity|]); (split; [congruence|]);
    eexists; unfold listing_inserts; cbn; rewrite !omap_app; cbn;
    rewrite ?app_nil_r; reflexivity.
Qed.

Lemma moves_handle_list_for_sale env from uid :
  moves (fun _ b => b = "listing_price") (handle_list_for_sale env from uid).
Proof.
  unfold handle_list_for_sale.
  apply moves_bind_l; [apply keeps_get_user_session|intros sess].
  destruct (negb (truthy_id (last_diamond_id sess))).
  - apply keeps_moves. keeps_walk.
  - apply moves_bind_r.
    + eapply moves_weaken; [|apply moves_update_user_session].
      cbn. intros _ b H. congruence.
    + intros _. keeps_walk.
Qed.

Lemma moved_route_intent env from uid text intent w0 w :
  users w = users w0 →
  moved (flow_move env w
           (snd (route_intent env from uid text (loaded_session env uid w0)
                   intent w)))
    (users w)
    (users (snd (route_intent env from uid text (loaded_session env uid w0)
                   intent w))).
Proof.
  intros Hsame. unfold route_intent.
  destruct (is_str intent "search");
    [eapply moved_weaken; [|apply keeps_handle_search_query]; intros ? ? []|].
  destruct (is_str intent "design_free_input");
    [eapply moved_weaken; [|apply keeps_handle_free_design]; intros ? ? []|].
  destruct (is_str intent "design_with_gia").
  { destruct (truthy_id _);
      [eapply moved_weaken; [|apply keeps_handle_gia_custom_design];
       intros ? ? []|apply moved_refl]. }
  destruct (is_str intent "design_edit");
    [eapply moved_weaken; [|apply keeps_handle_design_edit]; intros ? ? []|].
  destruct (is_str intent "design_variation");
    [eapply moved_weaken; [|apply keeps_handle_design_variation];
     intros ? ? []|].
  destruct (is_str intent "listing_intent");
    [now apply moved_listing_flow|].
  destruct (is_str intent "general_inquiry");
    [eapply moved_weaken; [|apply keeps_handle_general_inquiry];
     intros ? ? []|].
  eapply moved_weaken; [|apply keeps_send_main_menu]. intros ? ? [].
Qed.

Lemma same_records_refl w : same_records w w.
Proof. now split. Qed.

Lemma same_records_trans w1 w2 w3 :
  same_records w1 w2 → same_records w2 w3 → same_records w1 w3.
Proof. intros [H1 H2] [H3 H4]. split; congruence. Qed.

Lemma same_records_log e w :
  (∀ r, e ≠ InsertCall Listings r) → same_records w (log e w).
Proof. intros He. split; [now apply listing_inserts_log|reflexivity]. Qed.

Lemma stable_flow_move env : stable (flow_move env).
Proof.
  intros w0 w1 w2 w3 a b [H01 _] [H23 _] H.
  eapply flow_move_from; [exact H01|].
  eapply flow_move_to; [exact H23|exact H].
Qed.

Lemma stable_ingest_move : stable ingest_move.
Proof.
  intros w0 w1 w2 w3 a b [_ H01] [_ H23] [Hb [r Hr]].
  split; [exact Hb|]. exists r. now rewrite H23, Hr, H01.
Qed.

Section MovesIn.

Context {A B : Type}.
Variable allowed : world → world → string → string → Prop.
Hypothesis Hstable : stable allowed.

Lemma keeps_moves_in (m : M A) : keeps m → moves_in allowed m.
Proof. intros Hk w. eapply moved_weaken; [|apply Hk]. intros x y []. Qed.

(** Nothing moves and nothing is recorded, then the steps move. *)
Lemma moves_in_bind_l (m : M A) (f : A → M B) :
  keeps m → quiet m → (∀ a, moves_in allowed (f a)) →
  moves_in allowed (m ≫= f).
Proof.
  intros Hk Hq Hf w. unfold mbind, M_bind.
  specialize (Hk w). specialize (Hq w).
  destruct (m w) as [[a|] w1]; cbn [fst snd] in *.
  - eapply moved_after_kept; [exact Hk|].
    eapply moved_weaken; [|apply Hf].
    intros x y. apply Hstable; [exact Hq|apply same_records_refl].
  - eapply moved_weaken; [|exact Hk]. intros x y [].
Qed.

(** The steps move, then nothing moves and nothing is recorded. *)
Lemma moves_in_bind_r (m : M A) (f : A → M B) :
  moves_in allowed m → (∀ a, keeps (f a)) → (∀ a, quiet (f a)) →
  moves_in allowed (m ≫= f).
Proof.
  intros Hm Hk Hq w. unfold mbind, M_bind.
  specialize (Hm w). destruct (m w) as [[a|] w1]; cbn [fst snd] in *.
  - eapply moved_then_kept; [|apply Hk].
    eapply moved_weaken; [|exact Hm].
    intros x y. apply Hstable; [apply same_records_refl|apply Hq].
  - exact Hm.
Qed.

Lemma moves_in_try (body handler : M A) :
  moves_in allowed body → keeps handler → quiet handler →
  moves_in allowed (try_except body handler).
Proof.
  intros Hb Hk Hq w. unfold try_except.
  specialize (Hb w). destruct (body w) as [[a|] w1]; cbn [fst snd] in *.
  - exact Hb.
  - eapply moved_then_kept; [|apply Hk].
    eapply moved_weaken; [|exact Hb].
    intros x y. apply Hstable; [apply same_records_refl|apply Hq].
Qed.

End MovesIn.

Section Quiet.

Context {A B : Type}.
Variable env : environment.

Lemma quiet_ret (a : A) : quiet (mret a).
Proof. intros w. apply same_records_refl. Qed.

Lemma quiet_bind (m : M A) (f : A → M B) :
  quiet m → (∀ a, quiet (f a)) → quiet (m ≫= f).
Proof.
  intros Hm Hf w. unfold mbind, M_bind.
  specialize (Hm w). destruct (m w) as [[a|] w1]; cbn [fst snd] in *.
  - eapply same_records_trans; [exact Hm|apply Hf].
  - exact Hm.
Qed.

Lemma quiet_send to m : quiet (send env to m).
Proof. intros w. now apply same_records_log. Qed.

Lemma quiet_send_message to text : quiet (send_message env to text).
Proof. apply quiet_send. Qed.

Lemma quiet_send_buttons to body buttons :
  quiet (send_interactive_buttons env to body buttons).
Proof. apply quiet_send. Qed.

Lemma quiet_get_or_create_user from : quiet (get_or_create_user env from).
Proof.
  intros w. unfold get_or_create_user.
  destruct (user env); [|apply same_records_refl].
  unfold mbind, M_bind, effect_, mret, M_ret. cbn [fst snd]. now split.
Qed.

Lemma quiet_get_user_session uid : quiet (get_user_session env uid).
Proof. intros w. apply same_records_refl. Qed.

Lemma quiet_download media_id : quiet (download_whatsapp_media env media_id).
Proof. intros w. apply same_records_refl. Qed.

Lemma quiet_upload uid name type :
  quiet (upload_to_supabase env uid name type).
Proof. intros w. apply same_records_refl. Qed.

Lemma quiet_save uid d t c : quiet (save_message_to_db env uid d t c).
Proof.
  intros w. unfold save_message_to_db.
  destruct (audit_up env);
    [now apply same_records_log|apply same_records_refl].
Qed.

Lemma quiet_update_user_session uid u :
  quiet (update_user_session env uid u).
Proof.
  intros w. unfold update_user_session.
  destruct (store_up env); [|apply same_records_refl].
  destruct (db_updates_nonempty _); [|apply same_records_refl].
  split; [|reflexivity].
  cbn [snd effect_]. now rewrite listing_inserts_log.
Qed.

End Quiet.

Lemma quiet_error_reply env to text : quiet (send_message env to text;; skip).
Proof.
  apply quiet_bind; [apply quiet_send_message|intros _; apply quiet_ret].
Qed.

Lemma quiet_send_gia_menu env to uid d : quiet (send_gia_menu env to uid d).
Proof.
  unfold send_gia_menu.
  apply quiet_bind; [apply quiet_send_buttons|intros _; apply quiet_save].
Qed.

Lemma moves_in_handle_text_message env from text :
  moves_in (flow_move env) (handle_text_message env from text).
Proof.
  unfold handle_text_message.
  apply moves_in_bind_l;
    [apply stable_flow_move|apply keeps_get_or_create_user
    |apply quiet_get_or_create_user|].
  intros [uid|]; [|apply keeps_moves_in; keeps_walk].
  intros w.
  unfold get_user_session, save_message_to_db, detect.
  destruct (audit_up env);
    unfold mbind, M_bind, effect_, skip, mret, M_ret; cbn [fst snd];
    match goal with
    | |- moved _ _ (users (snd (route_intent _ _ _ _ _ ?i ?w3))) =>
        eapply moved_weaken;
          [|exact (moved_route_intent env from uid text i w w3 eq_refl)];
        intros x y; apply flow_move_from;
        rewrite ?listing_inserts_log by discriminate; reflexivity
    end.
Qed.

Lemma moves_in_handle_voice_message env from media_id :
  moves_in (flow_move env) (handle_voice_message env from media_id).
Proof.
  pose proof (stable_flow_move env) as Hst.
  unfold handle_voice_message.
  apply moves_in_bind_l;
    [exact Hst|apply keeps_get_or_create_user
    |apply quiet_get_or_create_user|].
  intros [uid|]; [|apply keeps_moves_in; keeps_walk].
  apply moves_in_bind_l;
    [exact Hst|apply keeps_send_message|apply quiet_send_message|].
  intros _.
  apply moves_in_bind_l;
    [exact Hst|apply keeps_download|apply quiet_download|].
  intros voice_content.
  destruct (negb voice_content); [apply keeps_moves_in; keeps_walk|].
  destruct (transcription env) as [[text confident]|];
    [|apply keeps_moves_in; keeps_walk].
  apply moves_in_bind_l; [exact Hst|apply keeps_save|apply quiet_save|].
  intros _.
  destruct confident; [|apply keeps_moves_in; keeps_walk].
  apply moves_in_bind_l;
    [exact Hst|apply keeps_send_message|apply quiet_send_message|].
  intros _. apply moves_in_handle_text_message.
Qed.

Lemma bind_run {A B} (m : M A) (f : A → M B) w :
  (m ≫= f) w =
    match m w with
    | (Ok a, w1) => f a w1
    | (Exn, w1) => (Exn, w1)
    end.
Proof. reflexivity. Qed.

Lemma db_insert_run env t record w :
  db_insert env t record w =
    match insert env with
    | InsertRaises => (Exn, log (InsertCall t record) w)
    | InsertNoData => (Ok None, log (InsertCall t record) w)
    | InsertRow id =>
        (Ok (Some id),
         add_row t (<["id" := JStr id]> record) (log (InsertCall t record) w))
    end.
Proof. unfold db_insert. now destruct (insert env). Qed.

(** Storing a parsed certificate moves the step to [gia_menu], and only
    once the diamond is in the table. *)
Lemma ingests_store_diamond env from uid record diamond_data
    (otherwise : M unit) :
  keeps otherwise →
  moves_in ingest_move
    (inserted ← db_insert env Diamonds record;
     match inserted with
     | Some diamond_id =>
         update_user_session env uid
           (mkUpdates (Some "gia_menu") None (Some diamond_id) None);;
         send_gia_menu env from uid diamond_data
     | None => otherwise
     end).
Proof.
  intros Hother w. rewrite bind_run, db_insert_run.
  destruct (insert env) as [| |id]; cbn iota.
  - apply moved_refl.
  - eapply moved_weaken;
      [|exact (Hother (log (InsertCall Diamonds record) w))].
    intros x y [].
  - set (w1 := add_row Diamonds _ _).
    set (rest := (update_user_session env uid _;; send_gia_menu env from uid _)).
    assert (Hquiet : same_records w1 (snd (rest w1))).
    { apply quiet_bind;
        [apply quiet_update_user_session|intros _; apply quiet_send_gia_menu]. }
    assert (Hmoves : moved (fun _ b => b = "gia_menu")
                       (users w1) (users (snd (rest w1)))).
    { apply moves_bind_r.
      - eapply moves_weaken; [|apply moves_update_user_session].
        cbn. intros _ b H. congruence.
      - intros _. apply keeps_send_gia_menu. }
    eapply moved_weaken; [|exact Hmoves].
    intros x y ->. split; [reflexivity|].
    destruct Hquiet as [_ Hd]. eexists. rewrite Hd. reflexivity.
Qed.

Lemma ingests_handle_document_message env from media_id filename mime_type :
  moves_in ingest_move
    (handle_document_message env from media_id filename mime_type).
Proof.
  pose proof stable_ingest_move as Hst.
  unfold handle_document_message.
  apply moves_in_bind_l;
    [exact Hst|apply keeps_get_or_create_user
    |apply quiet_get_or_create_user|].
  intros [uid|]; [|apply keeps_moves_in; keeps_walk].
  apply moves_in_bind_l;
    [exact Hst|apply keeps_send_message|apply quiet_send_message|].
  intros _.
  apply moves_in_bind_l;
    [exact Hst|apply keeps_download|apply quiet_download|].
  intros file_content.
  destruct (negb file_content); [apply keeps_moves_in; keeps_walk|].
  apply moves_in_bind_l; [exact Hst|apply keeps_upload|apply quiet_upload|].
  intros uploaded.
  destruct (usable_url uploaded) as [[upload_id file_url]|];
    [|apply keeps_moves_in; keeps_walk].
  apply moves_in_bind_l;
    [exact Hst|apply keeps_send_message|apply quiet_send_message|].
  intros _. lazy zeta.
  destruct (success (extract_from_pdf env file_url));
    [|apply keeps_moves_in; keeps_walk].
  apply moves_in_try;
    [exact Hst| |keeps_walk|apply quiet_error_reply].
  apply ingests_store_diamond. keeps_walk.
Qed.

Lemma ingests_handle_image_message env from media_id :
  moves_in ingest_move (handle_image_message env from media_id).
Proof.
  pose proof stable_ingest_move as Hst.
  unfold handle_image_message.
  apply moves_in_bind_l;
    [exact Hst|apply keeps_get_or_create_user
    |apply quiet_get_or_create_user|].
  intros [uid|]; [|apply keeps_moves_in; keeps_walk].
  apply moves_in_bind_l;
    [exact Hst|apply keeps_get_user_session|apply quiet_get_user_session|].
  intros sess.
  apply moves_in_bind_l;
    [exact Hst|apply keeps_send_message|apply quiet_send_message|].
  intros _.
  apply moves_in_bind_l;
    [exact Hst|apply keeps_download|apply quiet_download|].
  intros image_content.
  destruct (negb image_content); [apply keeps_moves_in; keeps_walk|].
  destruct (String.eqb (step sess) "listing_media").
  { apply keeps_moves_in. keeps_walk. }
  apply moves_in_bind_l; [exact Hst|apply keeps_upload|apply quiet_upload|].
  intros uploaded.
  destruct (usable_url uploaded) as [[upload_id file_url]|];
    [|apply keeps_moves_in; keeps_walk].
  apply moves_in_bind_l;
    [exact Hst|apply keeps_send_message|apply quiet_send_message|].
  intros _. lazy zeta.
  match goal with
  | |- moves_in _ (if ?b then _ else _) => destruct b
  end; [|apply keeps_moves_in; keeps_walk].
  apply moves_in_try; [exact Hst| |keeps_walk|].
  - apply ingests_store_diamond. keeps_walk.
  - first [apply quiet_error_reply | apply quiet_ret].
Qed.

Lemma moves_handle_button_response env from button_id :
  moves (fun _ b => button_id = "list_for_sale" ∧ b = "listing_price")
    (handle_button_response env from button_id).
Proof.
  unfold handle_button_response.
  apply moves_bind_l; [apply keeps_get_or_create_user|].
  intros [uid|]; [|apply keeps_moves; keeps_walk].
  destruct (String.eqb button_id "upload_gia");
    [apply keeps_moves; keeps_walk|].
  destruct (String.eqb button_id "design_jewelry") eqn:Hdesign;
    [apply keeps_moves; keeps_walk|].
  destruct (String.eqb button_id "search_diamonds");
    [apply keeps_moves; keeps_walk|].
  destruct (String.eqb button_id "general_inquiry");
    [apply keeps_moves; keeps_walk|].
  destruct (String.eqb_spec button_id "list_for_sale") as [Hlist|_].
  { eapply moves_weaken; [|apply moves_handle_list_for_sale].
    cbn. intros _ b ->. now split. }
  apply keeps_moves.
  destruct (String.eqb button_id "improve_diamond");
    [apply keeps_handle_improve_diamond|].
  destruct (String.eqb button_id "view_more_results");
    [apply keeps_handle_view_more_results|].
  destruct (starts_with "design_360_" button_id);
    [apply keeps_handle_360_view|keeps_walk].
Qed.

(** C3, as the code has it.  One delivery of a message keeps every stored
    session and leaves its step where it was, or moves it forward in the
    flow order, or resets it from [listing_media] to [idle] when the
    delivery has committed the listing (the insert was issued and did not
    raise), or, when the message is a certificate upload that stored its
    diamond, sets it to [gia_menu], or, when the message is the choice
    "list for sale", sets it to [listing_price]; the last two happen from
    any step. *)
Theorem step_moves_of_one_delivery
    (env : environment) (from : string) (message : inbound) (w : world)
    (uid : string) (s : session) :
  users w !! uid = Some s →
  let w' := exec (handle_message env from message) w in
  ∃ s', users w' !! uid = Some s' ∧
        (step s' = step s ∨
         not_backward (step s) (step s') ∨
         (step s = "listing_media" ∧ step s' = "idle" ∧
          listing_committed env w w') ∨
         (is_ingestion message ∧ step s' = "gia_menu" ∧
          diamond_stored w w') ∨
         (message = InInteractive (Some "list_for_sale") ∧
          step s' = "listing_price")).
Proof.
  intros Hrow w'. subst w'. unfold exec.
  set (reply := (send_message env from
       "❌ An error occurred while processing your message. Please try again.";;
     skip) : M unit).
  assert (Hkeep : keeps reply) by (unfold reply; keeps_walk).
  assert (Hquiet : quiet reply) by apply quiet_error_reply.
  assert (Hin : ∀ allowed (body : M unit),
            stable allowed → moves_in allowed body →
            ∃ s', users (snd (try_except body reply w)) !! uid = Some s' ∧
                  (step s' = step s ∨
                   allowed w (snd (try_except body reply w))
                           (step s) (step s'))).
  { intros allowed body Hst Hbody.
    exact (moves_in_try allowed Hst body reply Hbody Hkeep Hquiet
             w uid s Hrow). }
  assert (Hother : ∀ body : M unit,
            moves (fun a b =>
                     message = InInteractive (Some "list_for_sale") ∧
                     b = "listing_price") body →
            ∃ s', users (snd (try_except body reply w)) !! uid = Some s' ∧
                  (step s' = step s ∨
                   (message = InInteractive (Some "list_for_sale") ∧
                    step s' = "listing_price"))).
  { intros body Hbody.
    exact (moves_try _ body reply Hbody Hkeep w uid s Hrow). }
  unfold handle_message. fold reply.
  destruct message as [text|media_id|media_id filename mime_type|media_id
                       |[id|]| |].
  - destruct (Hin _ _ (stable_flow_move env)
                (moves_in_handle_text_message env from text))
      as [s' [Hs' [Hstep|[Hstep|Hstep]]]];
      exists s'; (split; [exact Hs'|]); tauto.
  - destruct (Hin _ _ (stable_flow_move env)
                (moves_in_handle_voice_message env from media_id))
      as [s' [Hs' [Hstep|[Hstep|Hstep]]]];
      exists s'; (split; [exact Hs'|]); tauto.
  - destruct (Hin _ _ stable_ingest_move
                (ingests_handle_document_message env from media_id filename
                   mime_type))
      as [s' [Hs' [Hstep|[Hstep Hstored]]]];
      exists s'; (split; [exact Hs'|]); cbn; tauto.
  - destruct (Hin _ _ stable_ingest_move
                (ingests_handle_image_message env from media_id))
      as [s' [Hs' [Hstep|[Hstep Hstored]]]];
      exists s'; (split; [exact Hs'|]); cbn; tauto.
  - destruct (Hother (handle_button_response env from id))
      as [s' [Hs' Hstep]].
    { eapply moves_weaken; [|apply moves_handle_button_response].
      cbn. intros a b [-> H]. now split. }
    exists s'. split; [exact Hs'|]. tauto.
  - destruct (Hother skip) as [s' [Hs' Hstep]];
      [apply keeps_moves; keeps_walk|].
    exists s'. split; [exact Hs'|]. tauto.
  - match goal with
    | |- context [try_except ?body reply w] =>
        destruct (Hother body) as [s' [Hs' Hstep]];
          [apply keeps_moves; keeps_walk|]
    end.
    exists s'. split; [exact Hs'|]. tauto.
  - match goal with
    | |- context [try_except ?body reply w] =>
        destruct (Hother body) as [s' [Hs' Hstep]];
          [apply keeps_moves; keeps_walk|]
    end.
    exists s'. split; [exact Hs'|]. tauto.
Qed.

Lemma step_moves_of_one_delivery_witness :
  let env := remote_env "listing_intent" in
  let s :=
    mkSession "listing_media"
      (list_to_map [("price", JStr "5000");
                    ("images", JList ["https://files.example/1.jpg"])])
      (Some "d1") None in
  let w' := exec (handle_message env "15550001" (InText "done"))
                 (demo_world s) in
  users (demo_world s) !! "u1" = Some s ∧
  step <$> users w' !! "u1" = Some "idle" ∧
  ∃ s', users w' !! "u1" = Some s' ∧
        (step s' = step s ∨
         not_backward (step s) (step s') ∨
         (step s = "listing_media" ∧ step s' = "idle" ∧
          listing_committed env (demo_world s) w') ∨
         (is_ingestion (InText "done") ∧ step s' = "gia_menu" ∧
          diamond_stored (demo_world s) w') ∨
         (InText "done" = InInteractive (Some "list_for_sale") ∧
          step s' = "listing_price")).
Proof.
  intros env s w'. split; [reflexivity|]. split; [vm_compute; reflexivity|].
  exact (step_moves_of_one_delivery env "15550001" (InText "done")
           (demo_world s) "u1" s eq_refl).
Defined.

Lemma backward_media_price : ¬ not_backward "listing_media" "listing_price".
Proof.
  intros [i [j [Hi [Hj Hle]]]].
  vm_compute in Hi. vm_compute in Hj.
  injection Hi as <-. injection Hj as <-. lia.
Qed.

Lemma backward_media_menu : ¬ not_backward "listing_media" "gia_menu".
Proof.
  intros [i [j [Hi [Hj Hle]]]].
  vm_compute in Hi. vm_compute in Hj.
  injection Hi as <-. injection Hj as <-. lia.
Qed.

(** C3 as stated fails.  After a certificate, the choice "list for sale",
    a price and a contact the session is at [listing_media]; choosing
    "list for sale" again takes it back to [listing_price], and a second
    certificate takes it back to [gia_menu]: both are earlier steps and
    neither is [idle]. *)
Lemma open_listing_steps_backward :
  let before := deliveries demo_env "15550001" until_media fresh_world in
  let again := exec (handle_message demo_env "15550001"
                       (InInteractive (Some "list_for_sale"))) before in
  let second := exec (handle_message demo_env "15550001"
                        (InDocument "m2" "gia2.pdf" "application/pdf"))
                     before in
  step <$> users before !! "u1" = Some "listing_media" ∧
  step <$> users again !! "u1" = Some "listing_price" ∧
  ¬ not_backward "listing_media" "listing_price" ∧
  "listing_price" ≠ "idle" ∧
  step <$> users second !! "u1" = Some "gia_menu" ∧
  ¬ not_backward "listing_media" "gia_menu" ∧
  "gia_menu" ≠ "idle".
Proof.
  intros before again second.
  split; [vm_compute; reflexivity|].
  split; [vm_compute; reflexivity|].
  split; [exact backward_media_price|].
  split; [discriminate|].
  split; [vm_compute; reflexivity|].
  split; [exact backward_media_menu|discriminate].
Qed.

(** * Further properties *)

(** ** The session store, continued *)

Lemma apply_merged_updates first second s :
  apply_db_updates (db_updates_of (merge_updates first second)) s =
  apply_db_updates (db_updates_of second)
    (apply_db_updates (db_updates_of first) s).
Proof.
  destruct first as [[?|] [?|] [?|] [?|]], second as [[?|] [?|] [?|] [?|]];
    reflexivity.
Qed.

Lemma users_after_update env uid u w :
  users (exec (update_user_session env uid u) w) =
    if store_up env && db_updates_nonempty (db_updates_of u)
    then alter (apply_db_updates (db_updates_of u)) uid (users w)
    else users w.
Proof.
  unfold exec, update_user_session.
  destruct (store_up env); [|reflexivity].
  destruct (db_updates_nonempty _); reflexivity.
Qed.

Lemma apply_empty_updates u s :
  db_updates_nonempty (db_updates_of u) = false →
  apply_db_updates (db_updates_of u) s = s.
Proof.
  destruct u as [[?|] [?|] [?|] [?|]]; cbn; try discriminate.
  now destruct s.
Qed.

Lemma merged_updates_nonempty first second :
  db_updates_nonempty (db_updates_of (merge_updates first second)) =
  db_updates_nonempty (db_updates_of first)
  || db_updates_nonempty (db_updates_of second).
Proof.
  destruct first as [[?|] [?|] [?|] [?|]], second as [[?|] [?|] [?|] [?|]];
    reflexivity.
Qed.

(** X1.  Two saves in a row leave the sessions as one save of the merged
    update does, where a key of the second update wins over the same key
    of the first; in particular saving an update twice is saving it
    once. *)
Theorem update_user_session_last_writer_wins
    (env : environment) (uid : string) (first second : updates) (w : world) :
  users (exec (update_user_session env uid second)
              (exec (update_user_session env uid first) w)) =
    users (exec (update_user_session env uid (merge_updates first second)) w) ∧
  users (exec (update_user_session env uid first)
              (exec (update_user_session env uid first) w)) =
    users (exec (update_user_session env uid first) w).
Proof.
  assert (Hcompose : ∀ a b,
    users (exec (update_user_session env uid b)
                (exec (update_user_session env uid a) w)) =
    users (exec (update_user_session env uid (merge_updates a b)) w)).
  { intros a b. rewrite !users_after_update, merged_updates_nonempty.
    destruct (store_up env); [|reflexivity]. cbn [andb].
    destruct (db_updates_nonempty (db_updates_of a)) eqn:Ha,
             (db_updates_nonempty (db_updates_of b)) eqn:Hb; cbn [orb].
    - rewrite alter_alter_eq. apply alter_ext.
      intros s _. cbn. symmetry. apply apply_merged_updates.
    - apply alter_ext. intros s _.
      rewrite apply_merged_updates. symmetry.
      now apply apply_empty_updates.
    - apply alter_ext. intros s _.
      rewrite apply_merged_updates.
      now rewrite (apply_empty_updates a s Ha).
    - reflexivity. }
  split; [apply Hcompose|].
  rewrite Hcompose.
  replace (merge_updates first first) with first; [reflexivity|].
  destruct first as [[?|] [?|] [?|] [?|]]; reflexivity.
Qed.

(** ** The users table *)

Lemma kept_touch id now r :
  UsersTable.kept (UsersTable.touch id now r) = UsersTable.kept r.
Proof. unfold UsersTable.touch. now destruct (String.eqb _ id). Qed.

Lemma filter_touch number id now table :
  List.filter (fun r => String.eqb (UsersTable.row_number r) number)
              (List.map (UsersTable.touch id now) table) =
  List.map (UsersTable.touch id now)
    (List.filter (fun r => String.eqb (UsersTable.row_number r) number) table).
Proof.
  induction table as [|r table IH]; [reflexivity|].
  cbn [List.map List.filter].
  assert (Hn : UsersTable.row_number (UsersTable.touch id now r)
               = UsersTable.row_number r).
  { unfold UsersTable.touch. now destruct (String.eqb _ id). }
  rewrite Hn, IH.
  now destruct (String.eqb (UsersTable.row_number r) number).
Qed.

Lemma filter_first {X} (p : X → bool) l x rest :
  List.filter p l = x :: rest → In x l ∧ p x = true.
Proof.
  intros H. apply List.filter_In. rewrite H. now left.
Qed.

Lemma filter_none {X} (p : X → bool) l :
  List.filter p l = [] → Forall (fun x => p x = false) l.
Proof.
  induction l as [|x l IH]; [constructor|].
  cbn [List.filter]. destruct (p x) eqn:Hp; [discriminate|].
  intros H. constructor; [exact Hp|now apply IH].
Qed.

(** X2.  A sender has one row.  When [get_or_create_user] returns a row,
    it is the first row with the sender's number, and then the call only
    refreshed [last_interaction] (ids, numbers, creation times and session
    columns of all rows are as before), or no row had the number and the
    returned row was appended with the idle session; and a second call
    that the record store answers returns a row with the same id and the
    same session columns and adds no row, whatever its insert would
    answer. *)
Theorem get_or_create_user_one_row_per_sender
    (a b : UsersTable.answers) (number : string)
    (table : list UsersTable.row) (r : UsersTable.row) :
  fst (UsersTable.get_or_create_user a number table) = Some r →
  UsersTable.select_raises b = false →
  UsersTable.update_raises b = false →
  let table1 := snd (UsersTable.get_or_create_user a number table) in
  let again := UsersTable.get_or_create_user b number table1 in
  UsersTable.row_number r = number ∧
  ((In r table ∧
    List.map UsersTable.kept table1 = List.map UsersTable.kept table) ∨
   (Forall (fun x => UsersTable.row_number x ≠ number) table ∧
    table1 = table ++ [r] ∧
    UsersTable.columns r = default_session)) ∧
  ∃ r', fst again = Some r' ∧
        UsersTable.row_id r' = UsersTable.row_id r ∧
        UsersTable.columns r' = UsersTable.columns r ∧
        length (snd again) = length table1.
Proof.
  intros Hret Hsel Hupd table1 again. subst again table1.
  destruct (UsersTable.get_or_create_user a number table) as [res table1]
    eqn:Hfirst.
  cbn [fst snd] in *. subst res.
  unfold UsersTable.get_or_create_user in Hfirst.
  destruct (UsersTable.select_raises a); [discriminate|].
  destruct (List.filter _ table) as [|user rest] eqn:Hfound.
  - (* no row has the number *)
    destruct (UsersTable.inserted a) as [| |id]; try discriminate.
    injection Hfirst as <- <-.
    split; [reflexivity|]. split.
    { right. split; [|split; reflexivity].
      eapply Forall_impl; [exact (filter_none _ _ Hfound)|].
      intros x Hx Heq. cbn in Hx. rewrite Heq, String.eqb_refl in Hx.
      discriminate. }
    unfold UsersTable.get_or_create_user. rewrite Hsel.
    rewrite List.filter_app, Hfound. cbn [List.filter app].
    cbn [UsersTable.row_number]. rewrite String.eqb_refl, Hupd.
    cbn [fst snd]. eexists. split; [reflexivity|].
    split; [reflexivity|].
    split; [reflexivity|now rewrite List.length_map].
  - (* the first row with the number *)
    destruct (UsersTable.update_raises a); [discriminate|].
    injection Hfirst as <- <-.
    destruct (filter_first _ _ _ _ Hfound) as [Hin Hnum].
    apply String.eqb_eq in Hnum.
    split; [exact Hnum|]. split.
    { left. split; [exact Hin|].
      rewrite List.map_map. apply List.map_ext. intros x. apply kept_touch. }
    unfold UsersTable.get_or_create_user. rewrite Hsel.
    rewrite filter_touch, Hfound. cbn [List.map]. rewrite Hupd.
    cbn [fst snd]. eexists. split; [reflexivity|].
    unfold UsersTable.touch at 1 2. rewrite String.eqb_refl.
    cbn [UsersTable.row_id UsersTable.columns].
    split; [reflexivity|]. split; [reflexivity|].
    now rewrite !List.length_map.
Qed.

Lemma get_or_create_user_one_row_per_sender_witness :
  let a := UsersTable.mkAnswers false false (InsertRow "u1")
             ("2024-01-01T00:00:00", "2024-01-01T00:00:01") in
  let b := UsersTable.mkAnswers false false (InsertRow "u2")
             ("2024-01-02T00:00:00", "2024-01-02T00:00:01") in
  let first := UsersTable.get_or_create_user a "15550001" [] in
  let again := UsersTable.get_or_create_user b "15550001" (snd first) in
  ∃ r, fst first = Some r ∧
       UsersTable.columns r = default_session ∧
       ∃ r', fst again = Some r' ∧
             UsersTable.row_id r' = "u1" ∧
             UsersTable.last_interaction r' = "2024-01-01T00:00:00" ∧
             UsersTable.last_interaction <$> snd again
               = ["2024-01-02T00:00:00"].
Proof.
  intros a b first again.
  destruct (get_or_create_user_one_row_per_sender a b "15550001" []
              (UsersTable.mkRow "u1" "15550001" "2024-01-01T00:00:00"
                 "2024-01-01T00:00:01" default_session)
              eq_refl eq_refl eq_refl) as [_ [_ [r' [Hr' [Hid _]]]]].
  eexists. split; [reflexivity|]. split; [reflexivity|].
  exists r'. split; [exact Hr'|]. split; [exact Hid|].
  cbv in Hr'. injection Hr' as <-. split; reflexivity.
Defined.

(** ** The listing flow, continued *)

Ltac run_flow :=
  unfold exec, handle_list_for_sale, handle_listing_flow, get_user_session,
         send_message, send, skip, effect_, try_except, db_insert, raise;
  unfold mbind, M_bind, mret, M_ret; cbn.

Lemma users_log e w : users (log e w) = users w.
Proof. reflexivity. Qed.

Lemma list_for_sale_run env from uid w :
  exec (handle_list_for_sale env from uid) w =
    if truthy_id (last_diamond_id (loaded_session env uid w))
    then log (Sent from (Text price_prompt) (delivered env (Text price_prompt)))
             (exec (update_user_session env uid
                      (mkUpdates (Some "listing_price") (Some ∅) None None)) w)
    else log (Sent from (Text no_diamond_found)
                   (delivered env (Text no_diamond_found))) w.
Proof.
  unfold exec, handle_list_for_sale, get_user_session.
  unfold mbind at 1. unfold M_bind at 1. cbn [fst snd].
  destruct (truthy_id (last_diamond_id (loaded_session env uid w)));
    cbn [negb]; [|reflexivity].
  unfold update_user_session. destruct (store_up env); reflexivity.
Qed.

Lemma outbox_after_update env uid u w :
  outbox (exec (update_user_session env uid u) w) = outbox w.
Proof.
  unfold exec, update_user_session.
  destruct (store_up env); [|reflexivity].
  destruct (db_updates_nonempty _); [|reflexivity].
  cbn. unfold outbox. cbn. rewrite omap_app. apply app_nil_r.
Qed.

Lemma tables_after_update env uid u w :
  tables (exec (update_user_session env uid u) w) = tables w.
Proof.
  unfold exec, update_user_session.
  destruct (store_up env); [|reflexivity].
  destruct (db_updates_nonempty _); reflexivity.
Qed.

(** X3.  The choice "list for sale" opens the flow only for a session
    that has a last diamond: the step becomes [listing_price], whatever it
    was, the context is emptied and the ids are kept.  Without a diamond
    the answer is the instruction to upload a certificate and nothing is
    written.  No table changes in either case. *)
Theorem list_for_sale_opens_flow
    (env : environment) (from uid : string) (w : world) (s : session) :
  store_up env = true →
  users w !! uid = Some s →
  let w' := exec (handle_list_for_sale env from uid) w in
  (truthy_id (last_diamond_id s) = true →
     users w' !! uid =
       Some (mkSession "listing_price" ∅ (last_diamond_id s)
                       (last_design_id s)) ∧
     outbox w' = outbox w ++ [Text price_prompt]) ∧
  (truthy_id (last_diamond_id s) = false →
     users w' = users w ∧
     outbox w' = outbox w ++ [Text no_diamond_found]) ∧
  (∀ other, other ≠ uid → users w' !! other = users w !! other) ∧
  tables w' = tables w.
Proof.
  intros Hup Hrow w'. subst w'. rewrite list_for_sale_run.
  assert (Hload : loaded_session env uid w = s).
  { unfold loaded_session. now rewrite Hup, Hrow. }
  rewrite Hload.
  destruct (truthy_id (last_diamond_id s)) eqn:Hd.
  - rewrite outbox_log_sent, outbox_after_update, users_log,
            users_after_update, Hup.
    cbn [andb db_updates_nonempty db_updates_of present session_step u_step orb].
    split; [intros _; split; [|reflexivity]|split; [discriminate|split]].
    + now rewrite lookup_alter_eq, Hrow.
    + intros other Hne. now rewrite lookup_alter_ne.
    + unfold tables. cbn. apply tables_after_update.
  - rewrite outbox_log_sent.
    split; [discriminate|]. repeat split; reflexivity.
Qed.

Lemma list_for_sale_opens_flow_witness :
  let s := mkSession "listing_media" {[ "price" := JStr "900" ]}
                     (Some "d1") None in
  let w' := exec (handle_list_for_sale demo_env "15550001" "u1")
                 (demo_world s) in
  store_up demo_env = true ∧ users (demo_world s) !! "u1" = Some s ∧
  truthy_id (last_diamond_id s) = true ∧
  users w' !! "u1" = Some (mkSession "listing_price" ∅ (Some "d1") None).
Proof.
  intros s w'.
  destruct (list_for_sale_opens_flow demo_env "15550001" "u1" (demo_world s)
              s eq_refl eq_refl) as [Hopen _].
  split; [reflexivity|]. split; [reflexivity|]. split; [reflexivity|].
  exact (proj1 (Hopen eq_refl)).
Defined.

Lemma listing_contact_row env from uid text sess w :
  step sess = "listing_contact" →
  store_up env = true →
  users w !! uid = Some sess →
  exec (handle_listing_flow env from uid text sess) w =
    log (Sent from
           (Text "📸 Great! Now please send one or more images of the diamond. Type 'done' when finished.")
           (delivered env
              (Text "📸 Great! Now please send one or more images of the diamond. Type 'done' when finished.")))
      (log (SessionWrite uid
              (mkUpdates (Some "listing_media")
                 (Some (<["contact_info" := JStr text]> (context sess)))
                 None None))
         (with_users
            (alter (apply_db_updates
                      (mkDbUpdates (Some "listing_media")
                         (Some (<["contact_info" := JStr text]> (context sess)))
                         None None)) uid) w)).
Proof.
  intros Hstep Hup Hrow. unfold exec, handle_listing_flow. rewrite Hstep.
  change (("listing_contact" =? "listing_price")%string) with false.
  change (("listing_contact" =? "listing_contact")%string) with true.
  cbn iota. unfold update_user_session. rewrite Hup.
  reflexivity.
Qed.

(** X4.  At step [listing_contact] every text, trigger words included, is
    stored as typed under [contact_info]; the price and the other keys of
    the context are kept, the step becomes [listing_media], and the prompt
    for images is the one message sent. *)
Theorem listing_contact_stores_contact
    (env : environment) (from uid text : string) (sess : session) (w : world) :
  step sess = "listing_contact" →
  store_up env = true →
  users w !! uid = Some sess →
  let w' := exec (handle_listing_flow env from uid text sess) w in
  users w' !! uid =
    Some (mkSession "listing_media"
            (<["contact_info" := JStr text]> (context sess))
            (last_diamond_id sess) (last_design_id sess)) ∧
  (∀ s', users w' !! uid = Some s' →
         context s' !! "price" = context sess !! "price") ∧
  outbox w' = outbox w ++
    [Text "📸 Great! Now please send one or more images of the diamond. Type 'done' when finished."] ∧
  tables w' = tables w.
Proof.
  intros Hstep Hup Hrow w'. subst w'.
  rewrite (listing_contact_row env from uid text sess w Hstep Hup Hrow).
  assert (Hnew : users (with_users
                   (alter (apply_db_updates
                      (mkDbUpdates (Some "listing_media")
                         (Some (<["contact_info" := JStr text]> (context sess)))
                         None None)) uid) w) !! uid =
                 Some (mkSession "listing_media"
                         (<["contact_info" := JStr text]> (context sess))
                         (last_diamond_id sess) (last_design_id sess))).
  { cbn. now rewrite lookup_alter_eq, Hrow. }
  split; [exact Hnew|]. split.
  - intros s' Hs'. cbn in Hs'. cbn in Hnew. rewrite Hnew in Hs'.
    injection Hs' as <-. cbn. now rewrite lookup_insert_ne.
  - split; [|reflexivity].
    unfold outbox. cbn. rewrite !omap_app. cbn. now rewrite app_nil_r.
Qed.

Lemma listing_contact_stores_contact_witness :
  let sess := mkSession "listing_contact" {[ "price" := JStr "900" ]}
                        (Some "d1") None in
  let w' := exec (handle_listing_flow demo_env "15550001" "u1" "done" sess)
                 (demo_world sess) in
  step sess = "listing_contact" ∧ store_up demo_env = true ∧
  users (demo_world sess) !! "u1" = Some sess ∧
  users w' !! "u1" =
    Some (mkSession "listing_media"
            (<["contact_info" := JStr "done"]> {[ "price" := JStr "900" ]})
            (Some "d1") None).
Proof.
  intros sess w'.
  destruct (listing_contact_stores_contact demo_env "15550001" "u1" "done"
              sess (demo_world sess) eq_refl eq_refl eq_refl) as [Hrow _].
  split; [reflexivity|]. split; [reflexivity|]. split; [reflexivity|].
  exact Hrow.
Defined.

Lemma image_step base from media_id uid s old upid url w :
  user base = Some uid → store_up base = true → media base = true →
  url ≠ "" →
  users w !! uid = Some s → step s = "listing_media" →
  images_to_extend (context s) = Some old →
  exec (handle_message (with_upload base (Some (upid, url))) from
          (InImage media_id)) w =
    log (Sent from (image_added (length (old ++ [url])))
              (delivered base (image_added (length (old ++ [url])))))
      (log (SessionWrite uid
              (mkUpdates None
                 (Some (<["images" := JList (old ++ [url])]> (context s)))
                 None None))
         (with_users
            (alter (apply_db_updates
                      (mkDbUpdates None
                         (Some (<["images" := JList (old ++ [url])]>
                                  (context s)))
                         None None)) uid)
            (log (Sent from image_processing (delivered base image_processing))
                 w))).
Proof.
  intros Hu Hup Hm Hurl Hrow Hstep Hold.
  unfold exec, handle_message, try_except, handle_image_message.
  unfold mbind at 1. unfold M_bind at 1.
  rewrite (known_user_kept (with_upload base (Some (upid, url))) from w uid s
             Hu Hrow).
  assert (Hload : loaded_session (with_upload base (Some (upid, url))) uid w
                  = s).
  { unfold loaded_session. cbn. now rewrite Hup, Hrow. }
  step_monad. rewrite Hload, Hm, Hstep. cbn.
  destruct (String.eqb_spec url ""); [contradiction|].
  rewrite Hold. unfold update_user_session. cbn. rewrite Hup. cbn.
  reflexivity.
Qed.

Lemma images_to_extend_insert ctx l :
  images_to_extend (<["images" := JList l]> ctx) = Some l.
Proof. unfold images_to_extend. now rewrite lookup_insert_eq. Qed.

Lemma send_images_cons base from uid urls :
  user base = Some uid → store_up base = true → media base = true →
  ∀ u w s old,
    Forall (fun x => x ≠ "") (u :: urls) →
    users w !! uid = Some s → step s = "listing_media" →
    images_to_extend (context s) = Some old →
    let w' := send_images base from (u :: urls) w in
    users w' !! uid =
      Some (mkSession "listing_media"
              (<["images" := JList (old ++ u :: urls)]> (context s))
              (last_diamond_id s) (last_design_id s)) ∧
    outbox w' = outbox w ++ image_replies (length old) (length (u :: urls)) ∧
    tables w' = tables w ∧
    (∀ other, other ≠ uid → users w' !! other = users w !! other).
Proof.
  intros Hu Hup Hm.
  induction urls as [|u' urls IH]; intros u w s old Hall Hrow Hstep Hold w';
    subst w'; inversion Hall as [|? ? Hnonempty Hrest]; subst.
  - cbn [send_images fold_left].
    rewrite (image_step base from "media" uid s old "upload" u w
               Hu Hup Hm Hnonempty Hrow Hstep Hold).
    split; [|split; [|split]].
    + cbn [users log with_users]. rewrite lookup_alter_eq, Hrow.
      unfold apply_db_updates. cbn. now rewrite Hstep.
    + unfold outbox. cbn [trace log with_users]. rewrite !omap_app. cbn [omap].
      rewrite app_nil_r, <- app_assoc. cbn [app image_replies length].
      rewrite length_app. cbn [length]. now rewrite Nat.add_1_r.
    + reflexivity.
    + intros other Hne. cbn [users log with_users].
      now rewrite lookup_alter_ne.
  - change (send_images base from (u :: u' :: urls) w)
      with (send_images base from (u' :: urls)
              (exec (handle_message (with_upload base (Some ("upload", u)))
                       from (InImage "media")) w)).
    rewrite (image_step base from "media" uid s old "upload" u w
               Hu Hup Hm Hnonempty Hrow Hstep Hold).
    set (s1 := mkSession "listing_media"
                 (<["images" := JList (old ++ [u])]> (context s))
                 (last_diamond_id s) (last_design_id s)).
    match goal with
    | |- context [send_images base from (u' :: urls) ?w1] => set (w1' := w1)
    end.
    assert (Hrow1 : users w1' !! uid = Some s1).
    { subst w1'. cbn [users log with_users].
      rewrite lookup_alter_eq, Hrow.
      unfold apply_db_updates. cbn. now rewrite Hstep. }
    destruct (IH u' w1' s1 (old ++ [u]) Hrest Hrow1 eq_refl
                 (images_to_extend_insert _ _))
      as [Hrow' [Hout' [Htab' Hother']]].
    split; [|split; [|split]].
    + rewrite Hrow'. subst s1. cbn [context last_diamond_id last_design_id].
      now rewrite insert_insert_eq, <- app_assoc.
    + rewrite Hout'. subst w1'. unfold outbox at 1.
      cbn [trace log with_users]. rewrite !omap_app. cbn [omap].
      rewrite app_nil_r, <- !app_assoc.
      cbn [app image_replies length].
      rewrite length_app. cbn [length]. now rewrite Nat.add_1_r.
    + rewrite Htab'. reflexivity.
    + intros other Hne. rewrite (Hother' other Hne). subst w1'.
      cbn [users log with_users]. now rewrite lookup_alter_ne.
Qed.

(** X5.  Images sent one after the other at step [listing_media] are
    appended to the images of the context in the order they arrive; the
    rest of the session and the tables are as before, and the [n]-th
    confirmation counts [n] images on top of the ones already stored. *)
Theorem listing_images_accumulate
    (base : environment) (from uid : string) (urls : list string)
    (w : world) (s : session) (old : list string) :
  user base = Some uid → store_up base = true → media base = true →
  Forall (fun u => u ≠ "") urls → urls ≠ [] →
  users w !! uid = Some s → step s = "listing_media" →
  images_to_extend (context s) = Some old →
  let w' := send_images base from urls w in
  users w' !! uid =
    Some (mkSession "listing_media"
            (<["images" := JList (old ++ urls)]> (context s))
            (last_diamond_id s) (last_design_id s)) ∧
  outbox w' = outbox w ++ image_replies (length old) (length urls) ∧
  tables w' = tables w ∧
  (∀ other, other ≠ uid → users w' !! other = users w !! other).
Proof.
  intros Hu Hup Hm Hall Hne Hrow Hstep Hold.
  destruct urls as [|u urls]; [contradiction|].
  exact (send_images_cons base from uid urls Hu Hup Hm u w s old
           Hall Hrow Hstep Hold).
Qed.

Lemma listing_images_accumulate_witness :
  let s := mkSession "listing_media" {[ "price" := JStr "900" ]}
                     (Some "d1") None in
  let urls := ["https://files.example/a.jpg"; "https://files.example/b.jpg"] in
  let w' := send_images demo_env "15550001" urls (demo_world s) in
  user demo_env = Some "u1" ∧ store_up demo_env = true ∧
  media demo_env = true ∧ Forall (fun u => u ≠ "") urls ∧ urls ≠ [] ∧
  images_to_extend (context s) = Some [] ∧
  users w' !! "u1" =
    Some (mkSession "listing_media"
            (<["images" := JList urls]> {[ "price" := JStr "900" ]})
            (Some "d1") None) ∧
  outbox w' = [image_processing; image_added 1;
               image_processing; image_added 2].
Proof.
  intros s urls w'.
  assert (Hall : Forall (fun u => u ≠ "") urls)
    by (repeat constructor; discriminate).
  assert (Hne : urls ≠ []) by discriminate.
  destruct (listing_images_accumulate demo_env "15550001" "u1" urls
              (demo_world s) s [] eq_refl eq_refl eq_refl Hall Hne
              eq_refl eq_refl eq_refl) as [Hrow [Hout _]].
  split; [reflexivity|]. split; [reflexivity|]. split; [reflexivity|].
  split; [exact Hall|]. split; [exact Hne|]. split; [reflexivity|].
  split; [exact Hrow|exact Hout].
Defined.

(** X6.  When the record store refuses the insert of a listing, the draft
    is kept: the failure message is sent, no row is added and the stored
    sessions, the step [listing_media] and the context included, are
    left as they were, so that "done" can be sent again. *)
Theorem listing_insert_failure_keeps_draft
    (env : environment) (from uid text : string) (sess : session) (w : world) :
  step sess = "listing_media" → lower text = "done" →
  truthy (listing_images sess) = true →
  insert env = InsertRaises →
  let w' := exec (handle_listing_flow env from uid text sess) w in
  users w' = users w ∧ tables w' = tables w ∧
  outbox w' = outbox w ++ [Text listing_failed] ∧
  listing_inserts w' = listing_inserts w ++ [listing_data env uid sess].
Proof.
  intros Hstep Hdone Himg Hins w'. subst w'.
  rewrite (listing_commit_run env from uid text sess w Hstep Hdone Himg).
  cbn zeta. rewrite Hins.
  split; [reflexivity|]. split; [reflexivity|]. split.
  - unfold outbox. cbn [trace log]. rewrite !omap_app. cbn [omap].
    now rewrite app_nil_r.
  - unfold listing_inserts. cbn [trace log]. rewrite !omap_app. cbn [omap].
    now rewrite app_nil_r.
Qed.

Lemma listing_insert_failure_keeps_draft_witness :
  let sess := mkSession "listing_media"
                {[ "images" := JList ["https://files.example/a.jpg"] ]}
                (Some "d1") None in
  let env := with_answers demo_env InsertRaises (generator demo_env) in
  let w' := exec (handle_listing_flow env "15550001" "u1" "DONE" sess)
                 (demo_world sess) in
  step sess = "listing_media" ∧ lower "DONE" = "done" ∧
  truthy (listing_images sess) = true ∧ insert env = InsertRaises ∧
  users w' = users (demo_world sess) ∧
  outbox w' = [Text listing_failed].
Proof.
  intros sess env w'.
  destruct (listing_insert_failure_keeps_draft env "15550001" "u1" "DONE"
              sess (demo_world sess) eq_refl eq_refl eq_refl eq_refl)
    as [Hus [_ [Hout _]]].
  split; [reflexivity|]. split; [reflexivity|]. split; [reflexivity|].
  split; [reflexivity|]. split; [exact Hus|exact Hout].
Defined.

Lemma listing_price_tables env from uid text sess w :
  step sess = "listing_price" →
  tables (exec (handle_listing_flow env from uid text sess) w) = tables w.
Proof.
  intros Hstep. unfold exec. rewrite listing_price_run by exact Hstep.
  cbn zeta. cbn [snd]. unfold tables. cbn [diamonds designs listings log].
  apply tables_after_update.
Qed.

Lemma loaded_row env uid w s :
  store_up env = true → users w !! uid = Some s →
  loaded_session env uid w = s.
Proof. intros Hup Hrow. unfold loaded_session. now rewrite Hup, Hrow. Qed.

Lemma listing_flow_returns env from uid text sess w :
  fst (handle_listing_flow env from uid text sess w) = Ok tt.
Proof.
  unfold handle_listing_flow, update_user_session.
  destruct (String.eqb (step sess) "listing_price").
  { run. now destruct (store_up env). }
  destruct (String.eqb (step sess) "listing_contact").
  { run. now destruct (store_up env). }
  destruct (String.eqb (step sess) "listing_media"
            && String.eqb (lower text) "done"); [|reflexivity].
  destruct (truthy (py_get_or (context sess) "images" (JList [])));
    cbn [negb]; [|reflexivity].
  run. destruct (insert env); cbn; try reflexivity;
    now destruct (store_up env).
Qed.

Lemma list_for_sale_returns env from uid w :
  fst (handle_list_for_sale env from uid w) = Ok tt.
Proof.
  unfold handle_list_for_sale, get_user_session, update_user_session.
  unfold mbind at 1. unfold M_bind at 1. cbn [fst snd].
  destruct (negb (truthy_id _)); [reflexivity|].
  unfold send_message, send, skip, effect_.
  unfold mbind, M_bind, mret, M_ret.
  now destruct (store_up env).
Qed.

(** A text of a known user that the classifier takes for
    [listing_intent] is handed to the listing flow with the stored
    session, once it is saved and classified. *)
Lemma text_delivery_listing env from uid text w s :
  user env = Some uid → users w !! uid = Some s → store_up env = true →
  classify env text s = Some "listing_intent" →
  exec (handle_message env from (InText text)) w =
    exec (handle_listing_flow env from uid text s) (received env uid text w).
Proof.
  intros Hu Hrow Hup Hclass. unfold exec, handle_message, try_except.
  rewrite (handle_text_message_known env from text w uid s Hu Hrow).
  rewrite (loaded_row env uid w s Hup Hrow), Hclass.
  cbv [route_intent is_str String.eqb Ascii.eqb Bool.eqb].
  pose proof (listing_flow_returns env from uid text s
                (received env uid text w)) as Hret.
  destruct (handle_listing_flow env from uid text s _) as [r w1].
  cbn [fst] in Hret. now subst r.
Qed.

Lemma button_delivery_list_for_sale env from uid w s :
  user env = Some uid → users w !! uid = Some s →
  exec (handle_message env from (InInteractive (Some "list_for_sale"))) w =
    exec (handle_list_for_sale env from uid) w.
Proof.
  intros Hu Hrow. unfold exec, handle_message, try_except.
  unfold handle_button_response.
  unfold mbind at 1. unfold M_bind at 1.
  rewrite (known_user_kept env from w uid s Hu Hrow).
  cbv [String.eqb Ascii.eqb Bool.eqb].
  pose proof (list_for_sale_returns env from uid w) as Hret.
  destruct (handle_list_for_sale env from uid w) as [r w1].
  cbn [fst] in Hret. now subst r.
Qed.

Lemma tables_received env uid text w :
  tables (received env uid text w) = tables w.
Proof. unfold received. now destruct (audit_up env). Qed.

(** X7.  A whole listing conversation delivered to the webhook: the
    choice "list for sale", a price, a contact, one or more images and
    "done".  When the classifier takes the three texts for
    [listing_intent], the session store is up and the final insert is
    accepted, exactly one listing is added; it holds the price (the
    sentinel when the price lowers to "contact"), the contact, the images
    in the order they were sent and the last diamond of the session, and
    the session is back at [idle] with an empty context. *)
Theorem listing_conversation_creates_listing
    (base : environment) (from uid price contact id d : string)
    (urls : list string) (w : world) (s : session) :
  user base = Some uid → store_up base = true → media base = true →
  (∀ text sess, text ∈ [price; contact; "done"] →
                classify base text sess = Some "listing_intent") →
  Forall (fun u => u ≠ "") urls → urls ≠ [] →
  users w !! uid = Some s →
  last_diamond_id s = Some d → d ≠ "" →
  let w' := listing_conversation base from price contact urls id w in
  ∃ r, listings w' = listings w ++ [r] ∧
       r !! "id" = Some (JStr id) ∧
       r !! "user_id" = Some (JStr uid) ∧
       r !! "diamond_id" = Some (JStr d) ∧
       r !! "price" =
         Some (JStr (if String.eqb (lower price) "contact"
                     then "Contact for Price" else price)) ∧
       r !! "contact_info" = Some (JStr contact) ∧
       r !! "images" = Some (JList urls) ∧
       r !! "status" = Some (JStr "pending_review") ∧
       diamonds w' = diamonds w ∧ designs w' = designs w ∧
       users w' !! uid =
         Some (mkSession "idle" ∅ (Some d) (last_design_id s)).
Proof.
  intros Hu Hup Hm Hclass Hall Hne Hrow Hd Hdne w'. subst w'.
  unfold listing_conversation.
  destruct urls as [|u urls]; [contradiction|].
  assert (Hprice : ∀ sess, classify base price sess = Some "listing_intent")
    by (intros sess; apply Hclass; set_solver).
  assert (Hcontact : ∀ sess,
            classify base contact sess = Some "listing_intent")
    by (intros sess; apply Hclass; set_solver).
  assert (Hdone : ∀ sess, classify base "done" sess = Some "listing_intent")
    by (intros sess; apply Hclass; set_solver).
  (* the choice *)
  rewrite (button_delivery_list_for_sale base from uid w s Hu Hrow).
  set (w1 := exec (handle_list_for_sale base from uid) w).
  set (s1 := mkSession "listing_price" ∅ (Some d) (last_design_id s)).
  assert (Htruthy : truthy_id (last_diamond_id s) = true).
  { rewrite Hd. cbn. now destruct (String.eqb_spec d ""). }
  assert (H1 : users w1 !! uid = Some s1 ∧ tables w1 = tables w).
  { subst w1. rewrite list_for_sale_run, (loaded_row base uid w s Hup Hrow),
      Htruthy.
    split.
    - rewrite users_log, users_after_update, Hup. cbn [andb].
      cbn [db_updates_nonempty db_updates_of present session_step u_step orb].
      rewrite lookup_alter_eq, Hrow. subst s1.
      unfold apply_db_updates, db_updates_of. cbn. now rewrite Hd.
    - unfold tables. cbn [diamonds designs listings log].
      apply tables_after_update. }
  destruct H1 as [Hrow1 Htab1].
  (* the price *)
  rewrite (text_delivery_listing base from uid price w1 s1 Hu Hrow1 Hup
             (Hprice s1)).
  set (r1 := received base uid price w1).
  assert (Hrow1' : users r1 !! uid = Some s1)
    by (subst r1; now rewrite users_received).
  set (w2 := exec (handle_listing_flow base from uid price s1) r1).
  set (P := if String.eqb (lower price) "contact"
            then "Contact for Price" else price).
  set (s2 := mkSession "listing_contact" (<["price" := JStr P]> ∅)
                       (Some d) (last_design_id s)).
  assert (Hrow2 : users w2 !! uid = Some s2).
  { subst w2. exact (listing_price_row base from uid price s1 r1
                       eq_refl Hup Hrow1'). }
  assert (Htab2 : tables w2 = tables w).
  { subst w2. rewrite listing_price_tables by reflexivity.
    subst r1. rewrite tables_received. exact Htab1. }
  (* the contact *)
  rewrite (text_delivery_listing base from uid contact w2 s2 Hu Hrow2 Hup
             (Hcontact s2)).
  set (r2 := received base uid contact w2).
  assert (Hrow2' : users r2 !! uid = Some s2)
    by (subst r2; now rewrite users_received).
  set (w3 := exec (handle_listing_flow base from uid contact s2) r2).
  set (s3 := mkSession "listing_media"
               (<["contact_info" := JStr contact]> (<["price" := JStr P]> ∅))
               (Some d) (last_design_id s)).
  assert (H3 : users w3 !! uid = Some s3 ∧ tables w3 = tables w).
  { subst w3.
    rewrite (listing_contact_row base from uid contact s2 r2 eq_refl Hup
               Hrow2').
    split.
    - cbn [users log with_users]. now rewrite lookup_alter_eq, Hrow2'.
    - change (tables r2 = tables w). subst r2.
      rewrite tables_received. exact Htab2. }
  destruct H3 as [Hrow3 Htab3].
  (* the images *)
  set (w4 := send_images base from (u :: urls) w3).
  set (s4 := mkSession "listing_media"
               (<["images" := JList (u :: urls)]> (context s3))
               (Some d) (last_design_id s)).
  assert (Hold : images_to_extend (context s3) = Some []).
  { unfold images_to_extend. subst s3. cbn [context].
    rewrite !lookup_insert_ne by discriminate. now rewrite lookup_empty. }
  destruct (send_images_cons base from uid urls Hu Hup Hm u w3 s3 []
              Hall Hrow3 eq_refl Hold) as [Hrow4 [_ [Htab4 _]]].
  fold w4 in Hrow4, Htab4. cbn [app] in Hrow4.
  change (users w4 !! uid = Some s4) in Hrow4.
  (* the word done *)
  set (last := with_answers base (InsertRow id) (generator base)).
  rewrite (text_delivery_listing last from uid "done" w4 s4 Hu Hrow4 Hup
             (Hdone s4)).
  remember (received last uid "done" w4) as r4 eqn:Hr4.
  assert (Hrow4' : users r4 !! uid = Some s4)
    by (rewrite Hr4; now rewrite users_received).
  assert (Himg : truthy (listing_images s4) = true).
  { unfold listing_images, py_get_or. subst s4. cbn [context].
    now rewrite lookup_insert_eq. }
  rewrite (listing_commit_run last from uid "done" s4 r4 eq_refl eq_refl Himg).
  cbn zeta. subst last. cbn [insert with_answers].
  unfold exec, update_user_session. cbn [store_up with_answers].
  rewrite Hup. cbn [db_updates_nonempty db_updates_of present session_step
                    u_step orb]. cbn [snd effect_].
  assert (Heq : tables r4 = tables w).
  { rewrite Hr4, tables_received, Htab4. exact Htab3. }
  clear Hr4.
  unfold tables in Heq. injection Heq as Hd4 Hg4 Hl4.
  eexists. split.
  { cbn [listings log with_users add_listing]. rewrite Hl4. reflexivity. }
  unfold listing_data, listing_images, py_get, py_get_or. subst s4 s3.
  cbn [context last_diamond_id jopt].
  rewrite lookup_insert_eq.
  rewrite !(lookup_insert_ne _ "images") by discriminate.
  rewrite lookup_insert_eq.
  rewrite !(lookup_insert_ne _ "contact_info" "price") by discriminate.
  rewrite lookup_insert_eq. cbn [default].
  repeat split; try reflexivity.
  - cbn [diamonds log with_users add_listing]. exact Hd4.
  - cbn [designs log with_users add_listing]. exact Hg4.
  - cbn [users log with_users add_listing].
    rewrite lookup_alter_eq, Hrow4'. reflexivity.
Qed.

Lemma listing_conversation_creates_listing_witness :
  let env := remote_env "listing_intent" in
  let s := mkSession "gia_menu" ∅ (Some "d1") None in
  let urls := ["https://files.example/a.jpg"; "https://files.example/b.jpg"] in
  let w' := listing_conversation env "15550001" "Contact"
              "a@b.example" urls "row9" (demo_world s) in
  user env = Some "u1" ∧ store_up env = true ∧
  media env = true ∧ Forall (fun u => u ≠ "") urls ∧ urls ≠ [] ∧
  users (demo_world s) !! "u1" = Some s ∧ "d1" ≠ "" ∧
  ∃ r, listings w' = [r] ∧
       r !! "price" = Some (JStr "Contact for Price") ∧
       r !! "images" = Some (JList urls) ∧
       users w' !! "u1" = Some (mkSession "idle" ∅ (Some "d1") None).
Proof.
  intros env s urls w'.
  assert (Hall : Forall (fun u => u ≠ "") urls)
    by (repeat constructor; discriminate).
  assert (Hne : urls ≠ []) by discriminate.
  assert (Hd : "d1" ≠ "") by discriminate.
  destruct (listing_conversation_creates_listing env "15550001" "u1"
              "Contact" "a@b.example" "row9" "d1" urls (demo_world s) s
              eq_refl eq_refl eq_refl (fun _ _ _ => eq_refl) Hall Hne
              eq_refl eq_refl Hd)
    as [r [Hl [_ [_ [_ [Hp [_ [Hi [_ [_ [_ Hrow]]]]]]]]]]].
  split; [reflexivity|]. split; [reflexivity|]. split; [reflexivity|].
  split; [exact Hall|]. split; [exact Hne|]. split; [reflexivity|].
  split; [exact Hd|].
  exists r. split; [exact Hl|]. split; [exact Hp|].
  split; [exact Hi|exact Hrow].
Defined.

(** ** What a delivery may do to the world *)

Section DoesComposition.

Context {A B : Type} (who : option string) (may_insert : bool).

Lemma does_ret (a : A) : does who may_insert (mret a).
Proof. intros w. apply rtc_refl. Qed.

Lemma does_raise : does who may_insert (@raise A).
Proof. intros w. apply rtc_refl. Qed.

Lemma does_bind (m : M A) (f : A → M B) :
  does who may_insert m → (∀ a, does who may_insert (f a)) →
  does who may_insert (m ≫= f).
Proof.
  intros Hm Hf w. unfold mbind, M_bind.
  specialize (Hm w). destruct (m w) as [[a|] w1]; cbn in *.
  - etransitivity; [exact Hm|apply Hf].
  - exact Hm.
Qed.

Lemma does_try (body handler : M A) :
  does who may_insert body → does who may_insert handler →
  does who may_insert (try_except body handler).
Proof.
  intros Hb Hh w. unfold try_except.
  specialize (Hb w). destruct (body w) as [[a|] w1]; cbn in *.
  - exact Hb.
  - etransitivity; [exact Hb|apply Hh].
Qed.

Lemma does_effect_log e :
  (is_insert_call e = true → may_insert = true) →
  does who may_insert (effect_ (log e)).
Proof. intros He w. apply rtc_once. now constructor. Qed.

End DoesComposition.

Lemma does_for_each {X} who may_insert (body : X → M unit) xs :
  (∀ x, does who may_insert (body x)) → does who may_insert (for_each body xs).
Proof.
  intros Hb. induction xs as [|x xs IH]; cbn.
  - apply does_ret.
  - apply does_bind; [apply Hb|intros _; exact IH].
Qed.

Section DoesPrimitives.

Variables (env : environment) (who : option string) (may_insert : bool).

Lemma does_send to m : does who may_insert (send env to m).
Proof. intros w. apply rtc_once. constructor. discriminate. Qed.

Lemma does_send_message to text : does who may_insert (send_message env to text).
Proof. apply does_send. Qed.

Lemma does_send_image to url caption :
  does who may_insert (send_image env to url caption).
Proof. apply does_send. Qed.

Lemma does_send_buttons to body buttons :
  does who may_insert (send_interactive_buttons env to body buttons).
Proof. apply does_send. Qed.

Lemma does_save uid d t c :
  does who may_insert (save_message_to_db env uid d t c).
Proof.
  unfold save_message_to_db. destruct (audit_up env);
    [apply does_effect_log; discriminate|apply does_ret].
Qed.

Lemma does_detect text sess : does who may_insert (detect env text sess).
Proof.
  unfold detect. apply does_bind; [apply does_effect_log; discriminate|].
  intros _. apply does_ret.
Qed.

Lemma does_get_user_session uid : does who may_insert (get_user_session env uid).
Proof. intros w. apply rtc_refl. Qed.

Lemma does_download media_id :
  does who may_insert (download_whatsapp_media env media_id).
Proof. intros w. apply rtc_refl. Qed.

Lemma does_upload uid name type :
  does who may_insert (upload_to_supabase env uid name type).
Proof. intros w. apply rtc_refl. Qed.

Lemma does_db_fetch table id : does who may_insert (db_fetch env table id).
Proof.
  intros w. unfold db_fetch. destruct (fetch_raises env); apply rtc_refl.
Qed.

Lemma does_db_insert t record : does who true (db_insert env t record).
Proof.
  unfold db_insert. apply does_bind; [now apply does_effect_log|intros _].
  destruct (insert env); [apply does_raise|apply does_ret|].
  apply does_bind; [|intros _; apply does_ret].
  intros w. apply rtc_once. now constructor.
Qed.

Lemma does_update_user_session uid u :
  does (Some uid) may_insert (update_user_session env uid u).
Proof.
  intros w. unfold update_user_session.
  destruct (store_up env); [|apply rtc_refl].
  destruct (db_updates_nonempty _); [|apply rtc_refl].
  cbn. eapply rtc_l; [|apply rtc_once; constructor; discriminate].
  now constructor.
Qed.

Lemma does_remember_design uid design_id :
  does (Some uid) may_insert (remember_design env uid design_id).
Proof.
  destruct design_id; cbn; [apply does_update_user_session|apply does_ret].
Qed.

(** The user found or created is the one the changes are allowed for. *)
Lemma does_with_user {B} from (k : option string → M B) :
  (∀ uid, user env = Some uid → does (Some uid) may_insert (k (Some uid))) →
  does (user env) may_insert (k None) →
  does (user env) may_insert (get_or_create_user env from ≫= k).
Proof.
  intros Hsome Hnone w. unfold get_or_create_user.
  destruct (user env) as [uid|] eqn:Hu.
  - unfold mbind, M_bind, effect_, mret, M_ret. cbn.
    destruct (users w !! uid) eqn:Hrow.
    + replace (with_users _ w) with w; [apply (Hsome uid eq_refl)|].
      unfold with_users. rewrite Hrow. now destruct w.
    + eapply rtc_l; [|apply (Hsome uid eq_refl)].
      replace (with_users _ w)
        with (with_users (fun us => <[uid := default_session]> us) w);
        [now constructor|].
      unfold with_users. now rewrite Hrow.
  - unfold mbind, M_bind, mret, M_ret. cbn. apply Hnone.
Qed.

End DoesPrimitives.

Create HintDb does.

#[local] Hint Resolve does_ret does_raise does_send does_send_message
  does_send_image does_send_buttons does_save does_detect
  does_get_user_session does_download does_upload does_db_fetch
  does_db_insert does_update_user_session does_remember_design : does.

(** Walks down a handler. *)
Ltac does_walk :=
  repeat first
    [ progress (lazy zeta)
    | solve [auto with does]
    | apply does_bind; [|intros ?]
    | apply does_try
    | apply does_for_each; intros ?
    | match goal with
      | |- does _ _ (if ?b then _ else _) => destruct b
      | |- does _ _ (match ?x with _ => _ end) => destruct x
      | |- does _ _ skip => apply does_ret
      end ].

Section DoesHandlers.

Variables (env : environment).

Lemma does_send_design_buttons who b from body design_id :
  does who b (send_design_buttons env from body design_id).
Proof. unfold send_design_buttons. does_walk. Qed.

Lemma does_generic_error who b from : does who b (generic_error env from).
Proof. unfold generic_error. does_walk. Qed.

Hint Resolve does_send_design_buttons does_generic_error : does.

Lemma does_send_main_menu who b to uid : does who b (send_main_menu env to uid).
Proof. unfold send_main_menu, send_raw_message. does_walk. Qed.

Lemma does_send_gia_menu who b to uid d : does who b (send_gia_menu env to uid d).
Proof. unfold send_gia_menu. does_walk. Qed.

Lemma does_handle_search_query who b from uid query :
  does who b (handle_search_query env from uid query).
Proof.
  unfold handle_search_query.
  apply does_bind; [apply does_send_message|intros _].
  destruct (search env) as [found|e]; [|does_walk].
  destruct found as [|l found]; [does_walk|].
  apply does_bind.
  - apply does_for_each. intros x. unfold send_search_result. does_walk.
  - intros _. does_walk.
Qed.

Lemma does_handle_improve_diamond who b from uid :
  does who b (handle_improve_diamond env from uid).
Proof. unfold handle_improve_diamond. does_walk. Qed.

Lemma does_handle_360_view who b from uid design_id :
  does who b (handle_360_view env from uid design_id).
Proof. unfold handle_360_view. does_walk. Qed.

Lemma does_handle_view_more_results who b from uid :
  does who b (handle_view_more_results env from uid).
Proof. unfold handle_view_more_results. does_walk. Qed.

Lemma does_handle_general_inquiry who b from uid text :
  does who b (handle_general_inquiry env from uid text).
Proof. unfold handle_general_inquiry. does_walk. Qed.

Lemma does_handle_list_for_sale b from uid :
  does (Some uid) b (handle_list_for_sale env from uid).
Proof. unfold handle_list_for_sale. does_walk. Qed.

Lemma does_handle_listing_flow from uid text sess :
  does (Some uid) true (handle_listing_flow env from uid text sess).
Proof. unfold handle_listing_flow. does_walk. Qed.

Lemma does_handle_auto_design from uid :
  does (Some uid) true (handle_auto_design env from uid).
Proof. unfold handle_auto_design. does_walk. Qed.

Lemma does_handle_free_design from uid text :
  does (Some uid) true (handle_free_design env from uid text).
Proof. unfold handle_free_design. does_walk. Qed.

Lemma does_handle_gia_custom_design from uid text :
  does (Some uid) true (handle_gia_custom_design env from uid text).
Proof. unfold handle_gia_custom_design. does_walk. Qed.

Lemma does_handle_design_edit from uid text :
  does (Some uid) true (handle_design_edit env from uid text).
Proof. unfold handle_design_edit. does_walk. Qed.

Lemma does_handle_design_variation from uid :
  does (Some uid) true (handle_design_variation env from uid).
Proof. unfold handle_design_variation. does_walk. Qed.

Hint Resolve does_send_main_menu does_send_gia_menu does_handle_search_query
  does_handle_improve_diamond does_handle_360_view
  does_handle_view_more_results does_handle_general_inquiry
  does_handle_list_for_sale does_handle_listing_flow does_handle_auto_design
  does_handle_free_design does_handle_gia_custom_design
  does_handle_design_edit does_handle_design_variation : does.

Lemma does_route_intent from uid text sess intent :
  does (Some uid) true (route_intent env from uid text sess intent).
Proof. unfold route_intent. does_walk. Qed.

Lemma does_handle_text_message from text :
  does (user env) true (handle_text_message env from text).
Proof.
  unfold handle_text_message. apply does_with_user; [intros uid Hu|does_walk].
  does_walk. apply does_route_intent.
Qed.

Lemma does_handle_voice_message from media_id :
  does (user env) true (handle_voice_message env from media_id).
Proof.
  unfold handle_voice_message.
  apply does_with_user; [intros uid Hu|does_walk].
  apply does_bind; [apply does_send_message|intros _].
  apply does_bind; [apply does_download|intros voice_content].
  destruct (negb voice_content); [does_walk|].
  destruct (transcription env) as [[text confident]|]; [|does_walk].
  apply does_bind; [apply does_save|intros _].
  destruct confident; [|does_walk].
  apply does_bind; [apply does_send_message|intros _].
  rewrite <- Hu. apply does_handle_text_message.
Qed.

Lemma does_handle_document_message from media_id filename mime_type :
  does (user env) true
    (handle_document_message env from media_id filename mime_type).
Proof.
  unfold handle_document_message.
  apply does_with_user; [intros uid Hu|does_walk]. does_walk.
Qed.

Lemma does_handle_image_message from media_id :
  does (user env) true (handle_image_message env from media_id).
Proof.
  unfold handle_image_message.
  apply does_with_user; [intros uid Hu|does_walk]. does_walk.
Qed.

Lemma does_handle_button_response from button_id :
  does (user env) false (handle_button_response env from button_id).
Proof.
  unfold handle_button_response.
  apply does_with_user; [intros uid Hu|does_walk].
  destruct (String.eqb button_id "upload_gia"); [does_walk|].
  destruct (String.eqb button_id "design_jewelry"); [does_walk|].
  does_walk.
Qed.

End DoesHandlers.

Lemma does_handle_message env from message :
  does (user env) true (handle_message env from message).
Proof.
  unfold handle_message. apply does_try; [|does_walk].
  destruct message as [text|media_id|media_id filename mime_type|media_id
                       |[id|]| |].
  - apply does_handle_text_message.
  - apply does_handle_voice_message.
  - apply does_handle_document_message.
  - apply does_handle_image_message.
  - intros w. eapply rtc_subrel; [|apply does_handle_button_response].
    intros x y Hxy. destruct Hxy; [now constructor|discriminate
      |now constructor|now constructor].
  - does_walk.
  - apply does_with_user; [intros uid Hu|]; does_walk.
  - does_walk.
Qed.

Lemma change_appends who b w w' :
  change who b w w' →
  trace w `prefix_of` trace w' ∧ diamonds w `prefix_of` diamonds w' ∧
  designs w `prefix_of` designs w' ∧ listings w `prefix_of` listings w'.
Proof.
  intros [e w0 _|t r w0 _|uid d w0 _|uid w0 _ _]; cbn;
    try (destruct t; cbn);
    repeat split; try reflexivity; now apply prefix_app_r.
Qed.

Lemma changes_append who b w w' :
  rtc (change who b) w w' →
  trace w `prefix_of` trace w' ∧ diamonds w `prefix_of` diamonds w' ∧
  designs w `prefix_of` designs w' ∧ listings w `prefix_of` listings w'.
Proof.
  induction 1 as [w|w w1 w2 Hstep _ IH]; [repeat split; reflexivity|].
  destruct (change_appends who b w w1 Hstep) as [H1 [H2 [H3 H4]]].
  destruct IH as [I1 [I2 [I3 I4]]].
  repeat split; etransitivity; eassumption.
Qed.

Lemma omap_prefix {X Y} (f : X → option Y) (l1 l2 : list X) :
  l1 `prefix_of` l2 → omap f l1 `prefix_of` omap f l2.
Proof. intros [k ->]. rewrite omap_app. now apply prefix_app_r. Qed.

(** X8.  One delivery only appends: the trace, the audit log it holds and
    the tables [diamonds], [designs] and [listings] after the delivery
    start with what they were before; no row and no logged message is
    changed or removed. *)
Theorem delivery_only_appends
    (env : environment) (from : string) (message : inbound) (w : world) :
  let w' := exec (handle_message env from message) w in
  trace w `prefix_of` trace w' ∧
  audit_log w `prefix_of` audit_log w' ∧
  outbox w `prefix_of` outbox w' ∧
  diamonds w `prefix_of` diamonds w' ∧
  designs w `prefix_of` designs w' ∧
  listings w `prefix_of` listings w'.
Proof.
  intros w'. subst w'.
  destruct (changes_append _ _ _ _ (does_handle_message env from message w))
    as [Ht [Hd [Hg Hl]]].
  repeat split; try assumption; unfold audit_log, outbox;
    now apply omap_prefix.
Qed.

Lemma change_isolated who b w w' other :
  who ≠ Some other → change who b w w' →
  users w' !! other = users w !! other.
Proof.
  intros Hne [e w0 _|t r w0 _|uid d w0 Hwho|uid w0 Hwho _]; cbn.
  - reflexivity.
  - now destruct t.
  - apply lookup_alter_ne. congruence.
  - apply lookup_insert_ne. congruence.
Qed.

(** X9.  A delivery for one sender never touches the session of another
    user: every row of [users] but the sender's is the same after as
    before. *)
Theorem delivery_leaves_other_users
    (env : environment) (from : string) (message : inbound) (w : world)
    (other : string) :
  user env ≠ Some other →
  users (exec (handle_message env from message) w) !! other
    = users w !! other.
Proof.
  intros Hne. unfold exec.
  induction (does_handle_message env from message w)
    as [w0|w0 w1 w2 Hstep _ IH]; [reflexivity|].
  rewrite IH. exact (change_isolated _ _ _ _ other Hne Hstep).
Qed.

Lemma delivery_leaves_other_users_witness :
  let s := mkSession "listing_price" ∅ (Some "d1") None in
  let other := mkSession "listing_media" ∅ (Some "d2") None in
  let w := mkWorld {[ "u1" := s; "u2" := other ]} [] [] [] [] in
  user demo_env ≠ Some "u2" ∧
  users (exec (handle_message demo_env "15550001" (InText "contact")) w)
    !! "u2" = Some other.
Proof.
  intros s other w.
  assert (Hne : user demo_env ≠ Some "u2") by discriminate.
  split; [exact Hne|].
  rewrite (delivery_leaves_other_users demo_env "15550001" (InText "contact")
             w "u2" Hne).
  reflexivity.
Defined.

Lemma change_keeps_ids who b w w' uid s :
  change who b w w' → users w !! uid = Some s →
  ∃ s', users w' !! uid = Some s' ∧
        (is_Some (last_diamond_id s) → is_Some (last_diamond_id s')) ∧
        (is_Some (last_design_id s) → is_Some (last_design_id s')).
Proof.
  intros [e w0 _|t r w0 _|uid' d w0 _|uid' w0 _ Hfree] Hrow; cbn.
  - eauto.
  - destruct t; eauto.
  - destruct (decide (uid' = uid)) as [->|Hne].
    + rewrite lookup_alter_eq, Hrow. cbn. eexists. split; [reflexivity|].
      unfold apply_db_updates. cbn.
      destruct (db_last_diamond_id d), (db_last_design_id d); eauto.
    + rewrite lookup_alter_ne by exact Hne. eauto.
  - destruct (decide (uid' = uid)) as [->|Hne]; [congruence|].
    rewrite lookup_insert_ne by exact Hne. eauto.
Qed.

Lemma changes_keep_ids who b w w' :
  rtc (change who b) w w' →
  ∀ uid s, users w !! uid = Some s →
  ∃ s', users w' !! uid = Some s' ∧
        (is_Some (last_diamond_id s) → is_Some (last_diamond_id s')) ∧
        (is_Some (last_design_id s) → is_Some (last_design_id s')).
Proof.
  induction 1 as [w|w w1 w2 Hstep _ IH]; intros uid s Hrow; [eauto|].
  destruct (change_keeps_ids _ _ _ _ uid s Hstep Hrow) as [s1 [H1 [Hd Hg]]].
  destruct (IH uid s1 H1) as [s2 [H2 [Hd2 Hg2]]].
  exists s2. split; [exact H2|]. split; eauto.
Qed.

(** X10.  A delivery never deletes a session and never clears a reference:
    a stored session is still stored afterwards, and when it had a last
    diamond or a last design it still has one (possibly a newer one). *)
Theorem delivery_keeps_references
    (env : environment) (from : string) (message : inbound) (w : world)
    (uid : string) (s : session) :
  users w !! uid = Some s →
  ∃ s', users (exec (handle_message env from message) w) !! uid = Some s' ∧
        (is_Some (last_diamond_id s) → is_Some (last_diamond_id s')) ∧
        (is_Some (last_design_id s) → is_Some (last_design_id s')).
Proof.
  intros Hrow.
  exact (changes_keep_ids _ _ _ _ (does_handle_message env from message w)
           uid s Hrow).
Qed.

Lemma delivery_keeps_references_witness :
  let s := mkSession "listing_media" ∅ (Some "d1") (Some "g1") in
  users (demo_world s) !! "u1" = Some s ∧
  ∃ s', users (exec (handle_message demo_env "15550001"
                       (InDocument "m1" "gia.pdf" "application/pdf"))
                    (demo_world s)) !! "u1" = Some s' ∧
        is_Some (last_diamond_id s') ∧ is_Some (last_design_id s').
Proof.
  intros s. split; [reflexivity|].
  destruct (delivery_keeps_references demo_env "15550001"
              (InDocument "m1" "gia.pdf" "application/pdf") (demo_world s)
              "u1" s eq_refl) as [s' [Hrow [Hd Hg]]].
  exists s'. split; [exact Hrow|].
  split; [apply Hd|apply Hg]; eexists; reflexivity.
Defined.

Lemma changes_without_writes w w' :
  rtc (change None false) w w' → store w' = store w.
Proof.
  induction 1 as [w|w w1 w2 Hstep _ IH]; [reflexivity|].
  rewrite IH. destruct Hstep; try discriminate. reflexivity.
Qed.

(** X11.  Searching, the enhancement analysis, the 360° view, "view
    more" and the general answer only read and send: the sessions and the
    three tables are the same after as before, whatever the collaborators
    answer. *)
Theorem informational_handlers_write_nothing
    (env : environment) (from uid arg : string) (w : world) :
  store (exec (handle_search_query env from uid arg) w) = store w ∧
  store (exec (handle_improve_diamond env from uid) w) = store w ∧
  store (exec (handle_360_view env from uid arg) w) = store w ∧
  store (exec (handle_view_more_results env from uid) w) = store w ∧
  store (exec (handle_general_inquiry env from uid arg) w) = store w.
Proof.
  split; [|split; [|split; [|split]]]; apply changes_without_writes.
  - apply does_handle_search_query.
  - apply does_handle_improve_diamond.
  - apply does_handle_360_view.
  - apply does_handle_view_more_results.
  - apply does_handle_general_inquiry.
Qed.

Lemma changes_without_rows who w w' :
  rtc (change who false) w w' → tables w' = tables w.
Proof.
  induction 1 as [w|w w1 w2 Hstep _ IH]; [reflexivity|].
  rewrite IH. destruct Hstep; try discriminate; reflexivity.
Qed.

Lemma changes_without_inserts who w w' :
  rtc (change who false) w w' → listing_inserts w' = listing_inserts w.
Proof.
  induction 1 as [w0|w0 w1 w2 Hstep _ IH]; [reflexivity|].
  rewrite IH. destruct Hstep as [e ? He| | |]; try discriminate;
    try reflexivity.
  unfold listing_inserts. cbn. rewrite omap_app.
  destruct e; cbn; try apply app_nil_r.
  specialize (He eq_refl). discriminate.
Qed.

(** X12.  No button or list reply inserts a row: the tables are the same
    after any interactive message, a reply that has no id included.  In
    particular the reply [design_jewelry] is always answered by the
    request for a description and the automatic design behind the second
    test of the same id is never run. *)
Theorem button_replies_insert_nothing
    (env : environment) (from : string) (reply : option string) (w : world) :
  let w' := exec (handle_message env from (InInteractive reply)) w in
  let without_id := exec (handle_message env from InReplyWithoutId) w in
  tables w' = tables w ∧
  listing_inserts w' = listing_inserts w ∧
  (reply = Some "design_jewelry" → user env ≠ None →
   outbox w' = outbox w ++
     [Text "💍 Let's design your custom jewelry! Please describe your design idea."]) ∧
  tables without_id = tables w ∧
  listing_inserts without_id = listing_inserts w.
Proof.
  intros w' without_id. subst w' without_id.
  assert (Hdoes : rtc (change (user env) false) w
                    (exec (handle_message env from (InInteractive reply)) w)).
  { unfold exec, handle_message.
    apply does_try; [|does_walk].
    destruct reply; [apply does_handle_button_response|does_walk]. }
  assert (Hbare : rtc (change (user env) false) w
                    (exec (handle_message env from InReplyWithoutId) w)).
  { unfold exec, handle_message.
    apply does_try; [|does_walk].
    apply does_with_user; [intros uid Hu|]; does_walk. }
  split; [exact (changes_without_rows _ _ _ Hdoes)|].
  split; [exact (changes_without_inserts _ _ _ Hdoes)|].
  split; [|split; [exact (changes_without_rows _ _ _ Hbare)
                  |exact (changes_without_inserts _ _ _ Hbare)]].
  intros -> Huser. destruct (user env) as [uid|] eqn:Hu; [|contradiction].
  unfold exec, handle_message, try_except, handle_button_response,
    get_or_create_user. rewrite Hu.
  step_monad. unfold outbox. cbn. now rewrite omap_app.
Qed.

Lemma button_replies_insert_nothing_witness :
  let s := mkSession "gia_menu" ∅ (Some "d1") None in
  let w' := exec (handle_message demo_env "15550001"
                    (InInteractive (Some "design_jewelry"))) (demo_world s) in
  user demo_env ≠ None ∧ designs w' = [] ∧
  outbox w' =
    [Text "💍 Let's design your custom jewelry! Please describe your design idea."].
Proof.
  intros s w'.
  assert (Hu : user demo_env ≠ None) by discriminate.
  destruct (button_replies_insert_nothing demo_env "15550001"
              (Some "design_jewelry") (demo_world s)) as [Htab [_ [Hout _]]].
  split; [exact Hu|]. split.
  - exact (f_equal (fun t => snd (fst t)) Htab).
  - exact (Hout eq_refl Hu).
Defined.

(** ** Certificate ingestion, continued *)

Lemma outbox_app_trace w es :
  outbox (mkWorld (users w) (diamonds w) (designs w) (listings w)
                  (trace w ++ es))
  = outbox w ++ omap (fun e => match e with
                               | Sent _ m _ => Some m
                               | _ => None
                               end) es.
Proof. unfold outbox. cbn. apply omap_app. Qed.

(** Runs the delivery of the goal once, with [tac], and replaces it
    everywhere by the world it produces. *)
Ltac run_delivery tac :=
  match goal with
  | |- context [exec ?m ?w] =>
      let W := fresh "W" in
      let H := fresh "Hrun" in
      evar (W : world);
      assert (H : exec m w = W) by (tac; subst W; reflexivity);
      rewrite !H; subst W; clear H
  end.

(** X13.  A document whose extraction carries a report number is stored:
    one diamond is added with the store's id, the upload, the user and the
    report number as certificate number; the session gets that id as last
    diamond and the step [gia_menu] while its context and last design are
    kept; the menu with the three choices is the last message and is
    written to the audit log. *)
Theorem document_ingestion_stores_diamond
    (env : environment) (from media_id filename mime_type : string)
    (w : world) (uid upload_id file_url image_url id : string)
    (s : session) (raw : dict) :
  user env = Some uid → users w !! uid = Some s →
  store_up env = true → audit_up env = true → media env = true →
  usable_url (upload env) = Some (upload_id, file_url) →
  pdf_image env = inl image_url → vision env = inl raw →
  truthy (py_get raw "report_number") = true →
  insert env = InsertRow id →
  let w' := exec (handle_message env from
                    (InDocument media_id filename mime_type)) w in
  (∃ r, diamonds w' = diamonds w ++ [r] ∧
        r !! "id" = Some (JStr id) ∧
        r !! "upload_id" = Some (JStr upload_id) ∧
        r !! "user_id" = Some (JStr uid) ∧
        r !! "certificate_number" = Some (py_get raw "report_number") ∧
        r !! "shape" = Some (py_get raw "shape") ∧
        r !! "carat" = Some (py_get raw "carat")) ∧
  users w' !! uid =
    Some (mkSession "gia_menu" (context s) (Some id) (last_design_id s)) ∧
  outbox w' = outbox w ++ [document_processing; extracting; gia_menu env raw] ∧
  audit_log w' = audit_log w ++
    [(uid, "outgoing", "interactive", gia_summary env raw)].
Proof.
  intros Hu Hrow Hup Haud Hm Hurl Hpdf Hv Hnum Hins w'. subst w'.
  run_delivery ltac:(
    unfold exec, handle_message, try_except, handle_document_message;
    unfold mbind at 1; unfold M_bind at 1;
    rewrite (known_user_kept env from w uid s Hu Hrow);
    step_monad; rewrite Hm; cbn; rewrite Hurl; cbn;
    unfold extract_from_pdf, extract_from_image; rewrite Hpdf, Hv, Hnum; cbn;
    unfold db_insert, update_user_session, send_gia_menu,
      send_interactive_buttons, send, save_message_to_db;
    rewrite Hins, Hup, Haud; step_monad).
  split; [|split; [|split]].
  - eexists. split; [reflexivity|].
    unfold py_or. rewrite Hnum.
    repeat split; reflexivity.
  - cbn [users log with_users add_diamond].
    now rewrite lookup_alter_eq, Hrow.
  - unfold outbox. cbn. rewrite !omap_app. cbn.
    rewrite ?app_nil_r, <- ?app_assoc. reflexivity.
  - unfold audit_log. cbn. rewrite !omap_app. cbn.
    rewrite ?app_nil_r, <- ?app_assoc. reflexivity.
Qed.

Lemma document_ingestion_stores_diamond_witness :
  let s := mkSession "idle" {[ "note" := JStr "kept" ]} None (Some "g1") in
  let w' := exec (handle_message demo_env "15550001"
                    (InDocument "m1" "gia.pdf" "application/pdf"))
                 (demo_world s) in
  user demo_env = Some "u1" ∧ users (demo_world s) !! "u1" = Some s ∧
  truthy (py_get placeholder_extraction "report_number") = true ∧
  (∃ r, diamonds w' = [r] ∧
        r !! "certificate_number" = Some (JStr "PLACEHOLDER_12345")) ∧
  users w' !! "u1" =
    Some (mkSession "gia_menu" {[ "note" := JStr "kept" ]} (Some "row1")
                    (Some "g1")).
Proof.
  intros s w'.
  destruct (document_ingestion_stores_diamond demo_env "15550001" "m1"
              "gia.pdf" "application/pdf" (demo_world s) "u1" "up1"
              "https://files.example/1.jpg" "https://files.example/1.jpg"
              "row1" s placeholder_extraction
              eq_refl eq_refl eq_refl eq_refl eq_refl eq_refl eq_refl eq_refl
              eq_refl eq_refl)
    as [[r [Hd [_ [_ [_ [Hc _]]]]]] [Hrow _]].
  split; [reflexivity|]. split; [reflexivity|]. split; [reflexivity|].
  split; [|exact Hrow].
  exists r. split; [exact Hd|]. rewrite Hc. reflexivity.
Defined.

(** X14.  An image outside a listing is stored as a certificate only when
    the extraction carries a certificate number under the key
    [certificate_number]: an extraction that succeeded with a report
    number alone adds no diamond, writes no session and is answered with
    the message for a picture that is not a certificate. *)
Theorem image_ingestion_needs_certificate_number
    (env : environment) (from media_id : string) (w : world)
    (uid upload_id file_url : string) (s : session) (raw : dict) :
  user env = Some uid → users w !! uid = Some s →
  store_up env = true → media env = true →
  step s ≠ "listing_media" →
  usable_url (upload env) = Some (upload_id, file_url) →
  vision env = inl raw →
  truthy (py_get raw "report_number") = true →
  truthy (py_get raw "certificate_number") = false →
  let w' := exec (handle_message env from (InImage media_id)) w in
  success (extract_from_image env file_url) = true ∧
  store w' = store w ∧
  outbox w' = outbox w ++ [image_processing; analyzing; Text image_rejection].
Proof.
  intros Hu Hrow Hup Hm Hstep Hurl Hv Hnum Hcert w'. subst w'.
  assert (Hex : extract_from_image env file_url = mkGia true (Some raw) None).
  { unfold extract_from_image. now rewrite Hv, Hnum. }
  split; [now rewrite Hex|].
  assert (Hload : loaded_session env uid w = s) by now apply loaded_row.
  run_delivery ltac:(
    unfold exec, handle_message, try_except, handle_image_message;
    unfold mbind at 1; unfold M_bind at 1;
    rewrite (known_user_kept env from w uid s Hu Hrow);
    step_monad; rewrite Hload, Hm; cbn;
    destruct (String.eqb_spec (step s) "listing_media"); [contradiction|];
    rewrite Hurl; cbn; rewrite Hex; cbn; rewrite Hcert; cbn).
  split; [reflexivity|].
  unfold outbox. cbn. rewrite !omap_app. cbn.
  rewrite ?app_nil_r, <- ?app_assoc. reflexivity.
Qed.

Lemma image_ingestion_needs_certificate_number_witness :
  let s := mkSession "idle" ∅ None None in
  let w' := exec (handle_message demo_env "15550001" (InImage "m1"))
                 (demo_world s) in
  user demo_env = Some "u1" ∧ step s ≠ "listing_media" ∧
  truthy (py_get placeholder_extraction "report_number") = true ∧
  truthy (py_get placeholder_extraction "certificate_number") = false ∧
  diamonds w' = [] ∧
  outbox w' = [image_processing; analyzing; Text image_rejection].
Proof.
  intros s w'.
  assert (Hstep : step s ≠ "listing_media") by discriminate.
  destruct (image_ingestion_needs_certificate_number demo_env "15550001"
              "m1" (demo_world s) "u1" "up1" "https://files.example/1.jpg"
              s placeholder_extraction eq_refl eq_refl eq_refl eq_refl Hstep
              eq_refl eq_refl eq_refl eq_refl) as [_ [Hst Hout]].
  split; [reflexivity|]. split; [exact Hstep|]. split; [reflexivity|].
  split; [reflexivity|]. split; [|exact Hout].
  exact (f_equal (fun t => snd (fst (fst t))) Hst).
Defined.

(** ** Designs, continued *)

Ltac run_free_design :=
  unfold exec, handle_free_design, try_except, db_insert, remember_design,
         send_design_buttons, send_interactive_buttons, send_image,
         send_message, send, skip, effect_, raise;
  unfold mbind, M_bind, mret, M_ret; cbn.

(** X15.  A free design that is generated and stored adds one design of
    type [free_input] holding the description, the prompt and the image,
    with no diamond and no previous prompt; the session only gets the new
    id as last design; the user receives the image and the two choices,
    the second of which carries the id of the stored design. *)
Theorem free_design_is_stored
    (env : environment) (from uid description : string) (w : world)
    (s : session) (image_url prompt id : string) :
  store_up env = true → users w !! uid = Some s →
  generator env = Generated image_url prompt →
  insert env = InsertRow id →
  let w' := exec (handle_free_design env from uid description) w in
  (∃ r, designs w' = designs w ++ [r] ∧
        r !! "id" = Some (JStr id) ∧
        r !! "type" = Some (JStr "free_input") ∧
        r !! "user_input" = Some (JStr description) ∧
        r !! "generated_prompt" = Some (JStr prompt) ∧
        r !! "generated_image_url" = Some (JStr image_url) ∧
        r !! "diamond_id" = Some JNull ∧
        r !! "previous_prompt" = None) ∧
  users w' !! uid =
    Some (mkSession (step s) (context s) (last_diamond_id s) (Some id)) ∧
  outbox w' = outbox w ++
    [creating_design; Image image_url "✨ Your custom jewelry design";
     design_choices "What would you like to do?" id].
Proof.
  intros Hup Hrow Hgen Hins w'. subst w'.
  run_delivery ltac:(
    run_free_design; rewrite Hgen; cbn; rewrite Hins; cbn;
    unfold update_user_session; rewrite Hup; cbn).
  split; [|split].
  - eexists. split; [reflexivity|]. repeat split; reflexivity.
  - cbn [users log with_users add_design].
    rewrite lookup_alter_eq, Hrow. reflexivity.
  - unfold outbox. cbn [trace log with_users add_design].
    rewrite !omap_app. cbn [omap].
    rewrite ?app_nil_r, <- ?app_assoc. reflexivity.
Qed.

Lemma free_design_is_stored_witness :
  let s := mkSession "listing_price" ∅ (Some "d1") None in
  let w' := exec (handle_free_design demo_env "15550001" "u1" "a gold ring")
                 (demo_world s) in
  store_up demo_env = true ∧ users (demo_world s) !! "u1" = Some s ∧
  (∃ r, designs w' = [r] ∧ r !! "user_input" = Some (JStr "a gold ring")) ∧
  users w' !! "u1" =
    Some (mkSession "listing_price" ∅ (Some "d1") (Some "row1")).
Proof.
  intros s w'.
  destruct (free_design_is_stored demo_env "15550001" "u1" "a gold ring"
              (demo_world s) s "https://img.example/1.png" "a ring, restyled"
              "row1" eq_refl eq_refl eq_refl eq_refl)
    as [[r [Hd [_ [_ [Hi _]]]]] [Hrow _]].
  split; [reflexivity|]. split; [reflexivity|].
  split; [|exact Hrow]. exists r. split; [exact Hd|exact Hi].
Defined.

(** X16.  A free design that cannot be stored fails without a word: when
    the insert raises, the user gets nothing after "Creating..."; when the
    insert returns no row, the image is sent but the two choices are not,
    and the session does not learn the design.  A generator failure is
    answered with the error and nothing is inserted.  The sessions and
    the tables are unchanged in the three cases. *)
Theorem free_design_fails_silently
    (env : environment) (from uid description : string) (w : world) :
  let w' := exec (handle_free_design env from uid description) w in
  (∀ image_url prompt,
     generator env = Generated image_url prompt → insert env = InsertRaises →
     store w' = store w ∧ outbox w' = outbox w ++ [creating_design]) ∧
  (∀ image_url prompt,
     generator env = Generated image_url prompt → insert env = InsertNoData →
     store w' = store w ∧
     outbox w' = outbox w ++
       [creating_design; Image image_url "✨ Your custom jewelry design"]) ∧
  (∀ e, generator env = GenFailed e →
     store w' = store w ∧ trace w' = trace w ++
       [Sent from creating_design (delivered env creating_design);
        Sent from (Text ("❌ Failed to generate design: " +:+ e))
             (delivered env (Text ("❌ Failed to generate design: " +:+ e)))]).
Proof.
  intros w'. subst w'. split; [|split].
  - intros image_url prompt Hgen Hins.
    run_delivery ltac:(run_free_design; rewrite Hgen; cbn; rewrite Hins; cbn).
    split; [reflexivity|].
    unfold outbox. cbn [trace log]. rewrite !omap_app. cbn [omap].
    rewrite ?app_nil_r, <- ?app_assoc. reflexivity.
  - intros image_url prompt Hgen Hins.
    run_delivery ltac:(run_free_design; rewrite Hgen; cbn; rewrite Hins; cbn).
    split; [reflexivity|].
    unfold outbox. cbn [trace log]. rewrite !omap_app. cbn [omap].
    rewrite ?app_nil_r, <- ?app_assoc. reflexivity.
  - intros e Hgen.
    run_delivery ltac:(run_free_design; rewrite Hgen; cbn).
    split; [reflexivity|].
    cbn [trace log]. now rewrite <- app_assoc.
Qed.

Lemma free_design_fails_silently_witness :
  let s := mkSession "idle" ∅ None None in
  let env := with_answers demo_env InsertRaises (generator demo_env) in
  let w' := exec (handle_free_design env "15550001" "u1" "a gold ring")
                 (demo_world s) in
  insert env = InsertRaises ∧ designs w' = [] ∧ outbox w' = [creating_design].
Proof.
  intros s env w'.
  destruct (free_design_fails_silently env "15550001" "u1" "a gold ring"
              (demo_world s)) as [Hraise _].
  destruct (Hraise _ _ eq_refl eq_refl) as [Hst Hout].
  split; [reflexivity|]. split; [|exact Hout].
  exact (f_equal (fun t => snd (fst t)) Hst).
Defined.

(** ** Buttons and voice *)

Lemma remove_all_absent p s :
  contains p s = false → remove_all_from p 0 s = s.
Proof.
  induction s as [|c s IH]; [reflexivity|].
  cbn [contains]. intros H. apply orb_false_iff in H as [Hhere Hlater].
  cbn [remove_all_from]. rewrite Hhere. now rewrite IH.
Qed.

(** X18.  The id carried by the 360° choice of a design comes back as the
    id of the design: the reply ["design_360_" ++ id] opens the 360° view
    of [id], for every id that does not itself contain "design_360_". *)
Theorem design_360_reply_names_the_design
    (env : environment) (from uid id : string) (w : world) :
  user env = Some uid →
  contains "design_360_" id = false →
  remove_all "design_360_" ("design_360_" +:+ id) = id ∧
  exec (handle_button_response env from ("design_360_" +:+ id)) w =
    exec (handle_360_view env from uid id)
         (exec (get_or_create_user env from) w).
Proof.
  intros Hu Habsent.
  assert (Hdecode : remove_all "design_360_" ("design_360_" +:+ id) = id).
  { unfold remove_all. cbv [String.append]. cbn. now apply remove_all_absent. }
  split; [exact Hdecode|].
  unfold exec, handle_button_response.
  unfold mbind at 1. unfold M_bind at 1.
  assert (Hok : fst (get_or_create_user env from w) = Ok (Some uid)).
  { unfold get_or_create_user. now rewrite Hu. }
  destruct (get_or_create_user env from w) as [r w1]. cbn in Hok. subst r.
  cbn [snd]. rewrite Hdecode. reflexivity.
Qed.

Lemma design_360_reply_names_the_design_witness :
  user demo_env = Some "u1" ∧
  contains "design_360_" "7f3c-11" = false ∧
  remove_all "design_360_" ("design_360_" +:+ "7f3c-11") = "7f3c-11".
Proof.
  split; [reflexivity|]. split; [reflexivity|].
  exact (proj1 (design_360_reply_names_the_design demo_env "15550001" "u1"
                  "7f3c-11" fresh_world eq_refl eq_refl)).
Defined.

(** X19.  A voice message is routed only when its transcription is
    trusted.  With a confident transcription the delivery is the delivery
    of the same text typed, after the two notices and the audio row; with
    a doubtful one the text is shown back for confirmation, the classifier
    is not called and the sessions and tables stay as they were. *)
Theorem voice_is_routed_when_confident
    (env : environment) (from media_id uid text : string) (w : world)
    (s : session) :
  user env = Some uid → users w !! uid = Some s → media env = true →
  (transcription env = Some (text, true) →
     exec (handle_voice_message env from media_id) w =
       exec (handle_text_message env from text)
            (transcribed env from uid text w)) ∧
  (transcription env = Some (text, false) →
     let w' := exec (handle_voice_message env from media_id) w in
     store w' = store w ∧
     outbox w' = outbox w ++ [voice_processing; transcription_doubted text] ∧
     (∀ t, Classified t ∈ trace w' → Classified t ∈ trace w)).
Proof.
  intros Hu Hrow Hm. split; intros Ht.
  - unfold exec, handle_voice_message.
    unfold mbind at 1. unfold M_bind at 1.
    rewrite (known_user_kept env from w uid s Hu Hrow).
    unfold download_whatsapp_media, send_message, send, transcribed, exec.
    unfold mbind, M_bind, mret, M_ret. cbn [fst snd]. rewrite Hm, Ht.
    cbn [negb].
    destruct (save_message_to_db env uid "incoming" "audio" text _)
      as [r w1] eqn:Hsave.
    assert (r = Ok tt) as ->.
    { unfold save_message_to_db in Hsave.
      destruct (audit_up env); injection Hsave as <- _; reflexivity. }
    reflexivity.
  - intros w'. subst w'.
    run_delivery ltac:(
      unfold exec, handle_voice_message;
      unfold mbind at 1; unfold M_bind at 1;
      rewrite (known_user_kept env from w uid s Hu Hrow);
      unfold download_whatsapp_media, send_message, send, skip;
      unfold mbind, M_bind, mret, M_ret; cbn [fst snd]; rewrite Hm, Ht;
      cbn [negb]; unfold save_message_to_db, effect_).
    destruct (audit_up env); unfold skip, mret, M_ret; cbn [fst snd].
    + split; [reflexivity|]. split.
      * rewrite ?outbox_log_sent, ?outbox_log_saved, ?outbox_log_sent,
          <- ?app_assoc. reflexivity.
      * intros t Hin. cbn [trace log] in Hin.
        repeat (apply elem_of_app in Hin as [Hin|Hin];
                [|apply list_elem_of_singleton in Hin; discriminate]).
        exact Hin.
    + split; [reflexivity|]. split.
      * rewrite ?outbox_log_sent, ?outbox_log_saved, ?outbox_log_sent,
          <- ?app_assoc. reflexivity.
      * intros t Hin. cbn [trace log] in Hin.
        repeat (apply elem_of_app in Hin as [Hin|Hin];
                [|apply list_elem_of_singleton in Hin; discriminate]).
        exact Hin.
Qed.

Lemma voice_is_routed_when_confident_witness :
  let doubted := with_transcription demo_env (Some ("show me ovals", false)) in
  let trusted := with_transcription demo_env (Some ("show me ovals", true)) in
  outbox (exec (handle_voice_message doubted "15550001" "m1")
               (demo_world default_session))
    = [voice_processing; transcription_doubted "show me ovals"] ∧
  exec (handle_voice_message trusted "15550001" "m1")
       (demo_world default_session)
    = exec (handle_text_message trusted "15550001" "show me ovals")
           (transcribed trusted "15550001" "u1" "show me ovals"
                        (demo_world default_session)).
Proof.
  intros doubted trusted. split.
  - destruct (voice_is_routed_when_confident doubted "15550001" "m1" "u1"
                "show me ovals" (demo_world default_session) default_session
                eq_refl eq_refl eq_refl) as [_ H].
    destruct (H eq_refl) as (_ & Hout & _). exact Hout.
  - destruct (voice_is_routed_when_confident trusted "15550001" "m1" "u1"
                "show me ovals" (demo_world default_session) default_session
                eq_refl eq_refl eq_refl) as [H _].
    exact (H eq_refl).
Defined.

(** ** Search *)

Lemma search_result_sends_one env from listing w :
  ∃ ms, fst (send_search_result env from listing w) = Ok tt ∧
        outbox (exec (send_search_result env from listing) w)
          = outbox w ++ ms ∧
        length ms ≤ 1.
Proof.
  assert (Hnone : ∃ ms : list outmsg,
             @Ok unit tt = Ok tt ∧ outbox w = outbox w ++ ms ∧ length ms ≤ 1).
  { exists []. rewrite app_nil_r. cbn. repeat split; lia. }
  assert (Hone : ∀ m d, ∃ ms : list outmsg,
             @Ok unit tt = Ok tt ∧
             outbox (log (Sent from m d) w) = outbox w ++ ms ∧ length ms ≤ 1).
  { intros m d. exists [m]. rewrite outbox_log_sent. cbn. repeat split; lia. }
  unfold exec, send_search_result, try_except, db_fetch, send_image,
    send_message, send, skip, raise.
  unfold mbind, M_bind, mret, M_ret.
  destruct (py_get listing "diamond_id"), (fetch_raises env);
    cbn [fst snd]; try exact Hnone;
    try (destruct (find_by_id _ _); cbn [fst snd]; try exact Hnone;
         destruct (truthy _); cbn [fst snd]; try apply Hone;
         destruct (py_get_or listing "images" (JList [])) as [| | |[|? ?]|[|? ?]];
         cbn [fst snd]; first [exact Hnone | apply Hone]).
Qed.

Lemma search_results_send env from ls w :
  ∃ ms, fst (for_each (send_search_result env from) ls w) = Ok tt ∧
        outbox (exec (for_each (send_search_result env from) ls) w)
          = outbox w ++ ms ∧
        length ms ≤ length ls.
Proof.
  revert w. induction ls as [|l ls IH]; intros w.
  - exists []. rewrite app_nil_r. cbn. repeat split; lia.
  - destruct (search_result_sends_one env from l w) as (ms1 & Hok & Hout & Hlen).
    unfold exec in *. cbn [for_each]. unfold mbind, M_bind.
    destruct (send_search_result env from l w) as [r w1].
    cbn [fst snd] in Hok, Hout. subst r.
    destruct (IH w1) as (ms2 & Hok2 & Hout2 & Hlen2).
    exists (ms1 ++ ms2). split; [exact Hok2|]. split.
    + rewrite Hout2, Hout. now rewrite app_assoc.
    + rewrite length_app. cbn [length]. lia.
Qed.

(** X20.  A successful search is answered by the notice, at most three
    results, and the "view more" button exactly when more than three
    listings were found; with no listing the only answer is the "no
    diamonds found" text. *)
Theorem search_shows_at_most_three
    (env : environment) (from uid query : string) (found : list dict)
    (w : world) :
  search env = inl found →
  ∃ results : list outmsg,
    length results ≤ Nat.min 3 (length found) ∧
    outbox (exec (handle_search_query env from uid query) w) =
      outbox w ++ [searching] ++
      match found with
      | [] => [none_found]
      | _ :: _ =>
          results ++
          (if (3 <? length found)%nat then [view_more (length found)] else [])
      end.
Proof.
  intros Hs. unfold exec, handle_search_query. rewrite Hs.
  unfold send_message, send_interactive_buttons, send, skip.
  unfold mbind at 1. unfold M_bind at 1. cbn [fst snd].
  destruct found as [|l found].
  - exists []. split; [cbn; lia|].
    unfold mbind, M_bind, mret, M_ret. cbn [fst snd].
    now rewrite !outbox_log_sent, <- app_assoc.
  - set (w1 := log _ w).
    destruct (search_results_send env from (take 3 (l :: found)) w1)
      as (ms & Hok & Hout & Hlen).
    exists ms. split.
    { rewrite length_take in Hlen. exact Hlen. }
    unfold exec in Hout. unfold mbind, M_bind, mret, M_ret.
    destruct (for_each _ _ w1) as [r w2]. cbn [fst snd] in Hok, Hout.
    subst r. destruct (3 <? length (l :: found))%nat; cbn [fst snd].
    + rewrite outbox_log_sent, Hout. subst w1. rewrite outbox_log_sent.
      rewrite <- !app_assoc. reflexivity.
    + rewrite Hout. subst w1. rewrite outbox_log_sent.
      rewrite app_nil_r, <- !app_assoc. reflexivity.
Qed.

Lemma search_shows_at_most_three_witness :
  let found : list dict := [∅; ∅; ∅; ∅] in
  ∃ results : list outmsg,
    length results ≤ 3 ∧
    outbox (exec (handle_search_query (with_search demo_env (inl found))
                    "15550001" "u1" "oval")
                 fresh_world)
      = [searching] ++ results ++ [view_more 4].
Proof.
  intros found.
  destruct (search_shows_at_most_three (with_search demo_env (inl found))
              "15550001" "u1" "oval" found fresh_world eq_refl)
    as (results & Hlen & Hout).
  exists results. split; [exact Hlen | exact Hout].
Defined.

(** ** The keyword matcher *)

(** X21.  For a session as [get_user_session] returns it the keyword
    matcher answers one of six intents: the session has no key
    [last_design_prompt] and no key [last_gia], so [design_edit] and
    [design_with_gia] are never answered. *)
Theorem placeholder_never_edits (text : string) (s : session) :
  placeholder_detection text s ∈ placeholder_intents ∧
  placeholder_detection text s ≠ "design_edit" ∧
  placeholder_detection text s ≠ "design_with_gia".
Proof.
  unfold placeholder_detection, placeholder_intents.
  change (session_truthy s "last_design_prompt") with false.
  change (session_truthy s "last_gia") with false.
  rewrite andb_false_r.
  repeat (match goal with
          | |- context [if any_in ?l ?t then _ else _] => destruct (any_in l t)
          end);
    (split; [set_solver | split; discriminate]).
Qed.

(** X22.  A text with the word "price" is a search unless it asks for a
    variation: "price" is also a search word, and the search words are
    tried before the listing words.  So a text classified as
    [listing_intent] holds one of "sell", "list", "cost", "contact". *)
Theorem price_is_a_search_word (text : string) (s : session) :
  (contains "price" (lower text) = true →
   placeholder_detection text s = "design_variation" ∨
   placeholder_detection text s = "search") ∧
  (placeholder_detection text s = "listing_intent" →
   any_in ["sell"; "list"; "cost"; "contact"] (lower text) = true).
Proof.
  unfold placeholder_detection.
  change (session_truthy s "last_design_prompt") with false.
  rewrite andb_false_r.
  assert (Hsearch : contains "price" (lower text) = true →
                    any_in search_keywords (lower text) = true).
  { intros H. unfold any_in, search_keywords. cbn [existsb]. rewrite H.
    now rewrite !orb_true_r. }
  split.
  - intros H. rewrite (Hsearch H).
    destruct (any_in ["try again"; _; _; _] _); [now left | now right].
  - destruct (any_in ["try again"; _; _; _] _); [discriminate|].
    destruct (any_in search_keywords _) eqn:Hkw; [discriminate|].
    destruct (any_in ["design"; _; _; _] _);
      [destruct (session_truthy s "last_gia"); discriminate|].
    destruct (contains "price" (lower text)) eqn:Hprice.
    { discriminate (Hsearch eq_refl). }
    destruct (any_in ["sell"; _; _; _] _) eqn:Hsell; [reflexivity|].
    assert (Hnone : any_in ["price"; "sell"; "list"; "cost"; "contact"]
                           (lower text) = false).
    { unfold any_in in *. cbn [existsb] in *. rewrite Hprice. exact Hsell. }
    rewrite Hnone.
    destruct (any_in ["hi"; _; _; _; _; _; _] _); discriminate.
Qed.

Lemma price_is_a_search_word_witness :
  contains "price" (lower "What's the PRICE?") = true ∧
  (placeholder_detection "What's the PRICE?" default_session
     = "design_variation" ∨
   placeholder_detection "What's the PRICE?" default_session = "search").
Proof.
  split; [reflexivity|].
  exact (proj1 (price_is_a_search_word "What's the PRICE?" default_session)
               eq_refl).
Defined.

(** ** Certificates *)

(** X23.  The ingestion check asks less than [validate_gia_data]: data
    that passes the validation always passes the check of
    [extract_from_image], while data with a report number and no shape is
    extracted with success and fails the validation. *)
Theorem ingestion_checks_less_than_validation
    (env : environment) (url : string) (result : dict) :
  vision env = inl result →
  (validate_gia_data result = true →
   extract_from_image env url = mkGia true (Some result) None) ∧
  (truthy (py_get result "report_number") = true →
   result !! "shape" = None →
   extract_from_image env url = mkGia true (Some result) None ∧
   validate_gia_data result = false).
Proof.
  intros Hv. unfold extract_from_image. rewrite Hv. split.
  - unfold validate_gia_data, required_fields. cbn [forallb].
    intros H. apply andb_true_iff in H as [-> _]. reflexivity.
  - intros -> Hshape. split; [reflexivity|].
    unfold validate_gia_data, required_fields. cbn [forallb].
    unfold py_get at 2. rewrite Hshape. cbn. apply andb_false_r.
Qed.

Lemma ingestion_checks_less_than_validation_witness :
  let shapeless := delete "shape" placeholder_extraction in
  (validate_gia_data placeholder_extraction = true ∧
   extract_from_image demo_env "https://files.example/1.jpg"
     = mkGia true (Some placeholder_extraction) None) ∧
  (extract_from_image (with_vision demo_env (inl shapeless))
                      "https://files.example/1.jpg"
     = mkGia true (Some shapeless) None ∧
   validate_gia_data shapeless = false).
Proof.
  intros shapeless. split.
  - split; [reflexivity|].
    exact (proj1 (ingestion_checks_less_than_validation demo_env
                    "https://files.example/1.jpg" placeholder_extraction
                    eq_refl) eq_refl).
  - exact (proj2 (ingestion_checks_less_than_validation
                    (with_vision demo_env (inl shapeless))
                    "https://files.example/1.jpg" shapeless eq_refl)
                 eq_refl eq_refl).
Defined.

(** ** Search entities *)

Lemma contains_diamond_i (text : string) :
  contains "diamond" text = true → contains "i" text = true.
Proof.
  induction text as [|c text IH]; [discriminate|].
  cbn [contains]. intros H. apply orb_true_iff in H as [H|H].
  - apply orb_true_iff. right.
    cbn [starts_with] in H. apply andb_true_iff in H as [_ H].
    destruct text as [|c' text]; [discriminate|].
    cbn [starts_with] in H. apply andb_true_iff in H as [H _].
    cbn [contains starts_with]. now rewrite H.
  - apply orb_true_iff. right. now apply IH.
Qed.

Ltac in_list :=
  vm_compute;
  solve [repeat first [apply list_elem_of_here | apply list_elem_of_further]].

(** X24.  A query with the word "diamond" always gets a colour, and never
    one of D to H: the letters of the word match the one-letter colours
    "d" and "i", and a later match overwrites an earlier one. *)
Theorem diamond_queries_get_a_colour (text : string) :
  contains "diamond" text = true →
  ∃ c, search_words text !! "color" = Some (JStr c) ∧
       c ∈ ["I"; "J"; "Yellow"; "Pink"; "Blue"].
Proof.
  intros H. apply contains_diamond_i in H.
  unfold search_words. set (e0 := fold_left _ shapes ∅).
  unfold colors. cbn [fold_left]. rewrite H.
  destruct (contains "blue" text);
    [eexists; split; [apply lookup_insert_eq | in_list]|].
  destruct (contains "pink" text);
    [eexists; split; [apply lookup_insert_eq | in_list]|].
  destruct (contains "yellow" text);
    [eexists; split; [apply lookup_insert_eq | in_list]|].
  destruct (contains "j" text);
    eexists; (split; [apply lookup_insert_eq | in_list]).
Qed.

Lemma diamond_queries_get_a_colour_witness :
  contains "diamond" "show me oval diamonds" = true ∧
  ∃ c, search_words "show me oval diamonds" !! "color" = Some (JStr c) ∧
       c ∈ ["I"; "J"; "Yellow"; "Pink"; "Blue"].
Proof.
  split; [reflexivity|].
  exact (diamond_queries_get_a_colour "show me oval diamonds" eq_refl).
Defined.

(** ** The word "done" and the keyword matcher *)

(** X25.  With the keyword matcher as classifier the word "done", in any
    letter case, never reaches the listing flow: it holds none of the
    matcher's keywords and is classified as [general_inquiry], so its
    delivery sends the general answer, asks for no listing and leaves the
    sessions and the tables as they were, whatever the step of the
    session. *)
Theorem keyword_matcher_never_commits
    (env : environment) (from uid text : string) (w : world) (s : session) :
  classify env = placeholder_classifier →
  user env = Some uid → users w !! uid = Some s →
  lower text = "done" →
  let w' := exec (handle_message env from (InText text)) w in
  (∀ sess, placeholder_detection text sess = "general_inquiry") ∧
  store w' = store w ∧
  listing_inserts w' = listing_inserts w ∧
  outbox w' = outbox w ++ [Text general_answer].
Proof.
  intros Hclass Hu Hrow Hlow w'. subst w'.
  assert (Hintent : ∀ sess, placeholder_detection text sess
                            = "general_inquiry").
  { intros sess. unfold placeholder_detection. rewrite Hlow.
    change (session_truthy sess "last_design_prompt") with false.
    reflexivity. }
  split; [exact Hintent|].
  unfold exec, handle_message, try_except.
  rewrite (handle_text_message_known env from text w uid s Hu Hrow).
  rewrite Hclass. unfold placeholder_classifier. rewrite Hintent.
  cbv [route_intent is_str String.eqb Ascii.eqb Bool.eqb].
  unfold handle_general_inquiry, send_message, send, skip.
  unfold mbind, M_bind, mret, M_ret. cbn [fst snd].
  split; [|split].
  - unfold store. cbn [users diamonds designs listings log].
    unfold received. now destruct (audit_up env).
  - rewrite listing_inserts_log by discriminate.
    unfold received. rewrite listing_inserts_log by discriminate.
    destruct (audit_up env); [now apply listing_inserts_log|reflexivity].
  - rewrite outbox_log_sent, outbox_received. reflexivity.
Qed.

Lemma keyword_matcher_never_commits_witness :
  let s :=
    mkSession "listing_media"
      (list_to_map [("price", JStr "5000");
                    ("images", JList ["https://files.example/1.jpg"])])
      (Some "d1") None in
  let w' := exec (handle_message demo_env "15550001" (InText "Done"))
                 (demo_world s) in
  classify demo_env = placeholder_classifier ∧ lower "Done" = "done" ∧
  users w' !! "u1" = Some s ∧ listings w' = [] ∧
  outbox w' = [Text general_answer].
Proof.
  intros s w'.
  destruct (keyword_matcher_never_commits demo_env "15550001" "u1" "Done"
              (demo_world s) s eq_refl eq_refl eq_refl eq_refl)
    as (_ & Hstore & _ & Hout).
  split; [reflexivity|]. split; [reflexivity|].
  split; [exact (f_equal (fun t => fst (fst (fst t)) !! "u1") Hstore)|].
  split; [exact (f_equal snd Hstore)|exact Hout].
Defined.
